(** * maxmind-fetcher: the update cycle and the live database handle

    A shallow embedding of [src/MaxMindFetcher.ts] (the update cycle of
    [MaxMindFetcher], its re-entrancy guard and the rewrite gate read by
    [getDbBuffer]) and of [LiveMaxMindDb] (the reference-counted handle of
    the loaded database), with the properties the specification states
    about them.

    Conventions.
    - A JavaScript string is a [string]; characters are code units below
      256.  A [Uint8Array] / [ArrayBuffer] is a [list byte].
    - Everything the cycle obtains from outside (clock, HTTP responses,
      I/O failures) is read from an explicit [env]; the files and the
      fields of the object are an explicit [world].
    - An [await] is a point where other tasks may run.  The sequential
      model ([updateDb]) runs one cycle alone; the concurrent models
      (modules [Gate] and [Live]) split the code at its [await]s. *)

From stdpp Require Import gmap strings list.
From Stdlib Require Import ZArith Ascii String DecimalString.
From Stdlib.Strings Require Import Byte.
From Stdlib Require Import DecimalPos.

Open Scope string_scope.

Abbreviation bytes := (list byte).

(** ** JavaScript string primitives used by the cycle *)

Module Js.

(** [s.split(sep)] for a separator of one character: never empty, and
    [split sep ""] is [[""]]. *)
Fixpoint split (sep : ascii) (s : string) : list string :=
  match s with
  | EmptyString => [EmptyString]
  | String c s' =>
      if Ascii.eqb c sep then EmptyString :: split sep s'
      else match split sep s' with
           | [] => [String c EmptyString]
           | t :: ts => String c t :: ts
           end
  end.

(** Truthiness of a string: only the empty string is falsy. *)
Definition truthy (s : string) : bool :=
  match s with EmptyString => false | _ => true end.

(** [x || d] where [x] is a string or [undefined]. *)
Definition or_else (x : option string) (d : string) : string :=
  match x with
  | Some s => if truthy s then s else d
  | None => d
  end.

(** White space as [trim] and the regular expression class [\s] see it,
    below code unit 256: TAB, LF, VT, FF, CR, SPACE, NBSP. *)
Definition is_whitespace (c : ascii) : bool :=
  let n := nat_of_ascii c in
  (Nat.leb 9 n && Nat.leb n 13) || Nat.eqb n 32 || Nat.eqb n 160.

Definition is_digit (c : ascii) : bool :=
  let n := nat_of_ascii c in Nat.leb 48 n && Nat.leb n 57.

Fixpoint trimStart (s : string) : string :=
  match s with
  | String c s' => if is_whitespace c then trimStart s' else s
  | EmptyString => EmptyString
  end.

(** Drops trailing white space: a white-space character is kept only
    when something that is kept follows it. *)
Fixpoint trimEnd (s : string) : string :=
  match s with
  | EmptyString => EmptyString
  | String c s' =>
      match trimEnd s' with
      | EmptyString => if is_whitespace c then EmptyString else String c EmptyString
      | t => String c t
      end
  end.

Definition trim (s : string) : string := trimEnd (trimStart s).

(** [s.match(/\D/)] as a boolean: some character is not a digit. *)
Fixpoint has_non_digit (s : string) : bool :=
  match s with
  | EmptyString => false
  | String c s' => negb (is_digit c) || has_non_digit s'
  end.

Fixpoint digits_value (acc : Z) (s : string) : Z :=
  match s with
  | String c s' =>
      if is_digit c then digits_value (10 * acc + (Z.of_nat (nat_of_ascii c) - 48)) s'
      else acc
  | EmptyString => acc
  end.

(** [parseInt s] for the strings the cycle passes to it (empty, or decimal
    digits only): [None] is NaN.  The value is exact; a timestamp is far
    below 2^53. *)
Definition parseInt (s : string) : option Z :=
  match s with
  | String c _ => if is_digit c then Some (digits_value 0 s) else None
  | EmptyString => None
  end.

(** [String(n)] for an integer [n]. *)
Definition String_of (n : Z) : string := NilZero.string_of_int (Z.to_int n).

(** [s.endsWith(suffix)]. *)
Definition endsWith (s suffix : string) : bool :=
  let ls := String.length s in
  let lx := String.length suffix in
  Nat.leb lx ls && String.eqb (substring (ls - lx) lx s) suffix.

(** [parts.join(sep)]. *)
Definition join (sep : string) (parts : list string) : string :=
  String.concat sep parts.

(** Two lower-case hexadecimal digits of a byte:
    [b.toString(16).padStart(2, "0")]. *)
Definition hex_digit (n : N) : ascii :=
  if N.ltb n 10 then ascii_of_N (48 + n) else ascii_of_N (87 + n).

Definition hex2 (b : byte) : string :=
  let n := Byte.to_N b in
  String (hex_digit (n / 16)) (String (hex_digit (n mod 16)) EmptyString).

End Js.

(** ** The update cycle of [MaxMindFetcher] *)

Module Fetcher.

(** The values the cycle throws. *)
Inductive error :=
| NotFound                                   (* Deno.errors.NotFound *)
| IoFailure (op : string)                    (* any other failure of a file operation *)
| FetchRejected (suffix : string)            (* fetch itself rejects: no connection *)
| RequestFailed (suffix : string) (status : Z)  (* !response.ok *)
| VerificationFailed                         (* sha256 of the download differs *)
| NoMmdbFound (entryNames : list string)     (* no .mmdb entry in the archive *)
| StreamFailure                              (* gunzip or untar fails *)
| CallbackThrew (cb : nat).                  (* what an onDbChange callback throws *)

Definition is_NotFound (e : error) : bool :=
  match e with NotFound => true | _ => false end.

Definition dquote : string := String "034" EmptyString.
Definition newline : string := String "010" EmptyString.

(** The message of the errors the cycle builds itself. *)
Definition message (e : error) : string :=
  match e with
  | RequestFailed suffix status =>
      "Maxmind request to " ++ dquote ++ suffix ++ dquote
        ++ " failed, status code was " ++ Js.String_of status
  | VerificationFailed => "Failed to download maxmind db, sha256 verification failed."
  | NoMmdbFound entryNames =>
      "Failed to get MaxMind database from the tar response, no .mmdb file found. Only found:"
        ++ newline ++ Js.join newline (map (fun e => " - " ++ e) entryNames)
  | NotFound => "NotFound"
  | IoFailure op => op
  | FetchRejected suffix => suffix
  | StreamFailure => "stream"
  | CallbackThrew _ => "callback"
  end.

(** An entry of the tar stream: directories have no [readable]; the
    content of a file arrives in chunks. *)
Record entry := { path : string; readable : option (list bytes) }.

(** What [fetch] gives: it rejects, or it resolves to a response. *)
Inductive response (A : Type) :=
| Rejected
| Response (ok : bool) (status : Z) (body : A).
Arguments Rejected {A}.
Arguments Response {A} ok status body.

(** Everything one cycle reads from outside. *)
Record env := {
  now_check : Z;                       (* Date.now() in the interval test *)
  now_write : Z;                       (* Date.now() when the checkpoint is written *)
  sha_response : response string;      (* the answer to "tar.gz.sha256" *)
  tar_response : response bytes;       (* the answer to "tar.gz" *)
  fault_readLastChecked : bool;        (* reading lastChecked.txt fails, not with NotFound *)
  fault_readDb : bool;                 (* reading db.mmdb fails, not with NotFound *)
  fault_writeTemp : bool;              (* writing tempDb.mmdb fails *)
  fault_remove : bool;                 (* removing db.mmdb fails, not with NotFound *)
  fault_rename : bool;                 (* renaming tempDb.mmdb fails *)
  fault_writeLastChecked : bool;       (* writing lastChecked.txt fails *)
  cb_throws : nat -> bool              (* the callback throws when it is called *)
}.

Record config := { ignoreNetworkErrors : bool; verbose : bool }.

(** What the cycle does to the outside, in order. *)
Inductive effect :=
| Fetch (suffix : string)
| Cancel (entryPath : string)
| WriteTemp (content : bytes)
| Remove
| Rename
| OpenWindow
| CloseWindow
| Log (msg : string)
| Notify (cb : nat) (sha256 : string) (buffer : bytes)
| WriteLastChecked (content : string).

(** The three files of the storage directory, the fields of the object
    the cycle uses, and the effects so far. *)
Record world := {
  lastCheckedFile : option string;     (* lastChecked.txt *)
  dbFile : option bytes;               (* db.mmdb *)
  dbTempFile : option bytes;           (* tempDb.mmdb *)
  rewritePromise : bool;               (* #rewritePromise is a pending promise *)
  onDbChangeCbs : list nat;            (* #onDbChangeCbs, in insertion order *)
  trace : list effect
}.

Definition set_lastCheckedFile (f : option string) (w : world) : world :=
  {| lastCheckedFile := f; dbFile := dbFile w; dbTempFile := dbTempFile w;
     rewritePromise := rewritePromise w; onDbChangeCbs := onDbChangeCbs w; trace := trace w |}.
Definition set_dbFile (f : option bytes) (w : world) : world :=
  {| lastCheckedFile := lastCheckedFile w; dbFile := f; dbTempFile := dbTempFile w;
     rewritePromise := rewritePromise w; onDbChangeCbs := onDbChangeCbs w; trace := trace w |}.
Definition set_dbTempFile (f : option bytes) (w : world) : world :=
  {| lastCheckedFile := lastCheckedFile w; dbFile := dbFile w; dbTempFile := f;
     rewritePromise := rewritePromise w; onDbChangeCbs := onDbChangeCbs w; trace := trace w |}.
Definition set_rewritePromise (b : bool) (w : world) : world :=
  {| lastCheckedFile := lastCheckedFile w; dbFile := dbFile w; dbTempFile := dbTempFile w;
     rewritePromise := b; onDbChangeCbs := onDbChangeCbs w; trace := trace w |}.
Definition record (e : effect) (w : world) : world :=
  {| lastCheckedFile := lastCheckedFile w; dbFile := dbFile w; dbTempFile := dbTempFile w;
     rewritePromise := rewritePromise w; onDbChangeCbs := onDbChangeCbs w;
     trace := trace w ++ [e] |}.

(** *** Control flow: values, [throw] and [return] *)

Inductive completion (A : Type) :=
| Normal (a : A)
| Throw (e : error)
| Return.
Arguments Normal {A} a.
Arguments Throw {A} e.
Arguments Return {A}.

Definition M (A : Type) : Type := world -> completion A * world.

Definition ret {A} (a : A) : M A := fun w => (Normal a, w).
Definition throw {A} (e : error) : M A := fun w => (Throw e, w).
Definition return_ {A} : M A := fun w => (Return, w).
Definition bind {A B} (m : M A) (k : A -> M B) : M B :=
  fun w => match m w with
           | (Normal a, w') => k a w'
           | (Throw e, w') => (Throw e, w')
           | (Return, w') => (Return, w')
           end.
Definition emit (e : effect) : M unit := fun w => (Normal tt, record e w).

(** [try { m } catch (e) { h e }]: only a thrown value is caught. *)
Definition try_catch {A} (m : M A) (h : error -> M A) : M A :=
  fun w => match m w with
           | (Throw e, w') => h e w'
           | r => r
           end.

(** [try { m } finally { f }]: [f] runs however [m] completes. *)
Definition try_finally {A} (m : M A) (f : M unit) : M A :=
  fun w => match m w with
           | (r, w') => match f w' with
                        | (Normal _, w'') => (r, w'')
                        | (Throw e, w'') => (Throw e, w'')
                        | (Return, w'') => (Return, w'')
                        end
           end.

(** The body of an async function called and awaited: a [return] ends
    it normally. *)
Definition call (m : M unit) : M unit :=
  fun w => match m w with
           | (Return, w') => (Normal tt, w')
           | r => r
           end.

Declare Scope fetcher_scope.
Delimit Scope fetcher_scope with fetcher.
Notation "x <- m ;; k" := (bind m (fun x => k))
  (at level 100, m at next level, right associativity) : fetcher_scope.
Notation "m ;; k" := (bind m (fun _ => k))
  (at level 100, right associativity) : fetcher_scope.
Open Scope fetcher_scope.

Definition TIME_CHECK_UPDATE_INTERVAL_MS : Z := 10 * 60 * 1000.
Definition HASH_CHECK_UPDATE_INTERVAL_MS : Z := 60 * 60 * 1000.

(** *** File operations on the three paths *)

Definition readTextFile_lastChecked (E : env) : M string :=
  fun w => if fault_readLastChecked E then (Throw (IoFailure "readTextFile"), w)
           else match lastCheckedFile w with
                | Some s => (Normal s, w)
                | None => (Throw NotFound, w)
                end.

Definition readFile_db (E : env) : M bytes :=
  fun w => if fault_readDb E then (Throw (IoFailure "readFile"), w)
           else match dbFile w with
                | Some b => (Normal b, w)
                | None => (Throw NotFound, w)
                end.

(** [Deno.create] truncates the file; the content follows unless the
    write fails. *)
Definition write_dbTemp (E : env) (content : bytes) : M unit :=
  fun w => if fault_writeTemp E
           then (Throw (IoFailure "pipeTo"), set_dbTempFile (Some []) w)
           else (Normal tt, record (WriteTemp content) (set_dbTempFile (Some content) w)).

Definition remove_db (E : env) : M unit :=
  fun w => if fault_remove E then (Throw (IoFailure "remove"), w)
           else match dbFile w with
                | Some _ => (Normal tt, record Remove (set_dbFile None w))
                | None => (Throw NotFound, w)
                end.

Definition rename_dbTemp_db (E : env) : M unit :=
  fun w => if fault_rename E then (Throw (IoFailure "rename"), w)
           else match dbTempFile w with
                | Some b => (Normal tt, record Rename (set_dbFile (Some b) (set_dbTempFile None w)))
                | None => (Throw NotFound, w)
                end.

Definition writeTextFile_lastChecked (E : env) (content : string) : M unit :=
  fun w => if fault_writeLastChecked E then (Throw (IoFailure "writeTextFile"), w)
           else (Normal tt, record (WriteLastChecked content) (set_lastCheckedFile (Some content) w)).

(** *** [#maxMindRequest] *)

Definition maxMindRequest {A} (suffix : string) (r : response A) : M A :=
  (emit (Fetch suffix) ;;
   match r with
   | Rejected => throw (FetchRejected suffix)
   | Response ok status body =>
       if ok then ret body else throw (RequestFailed suffix status)
   end).

(** The digest kept from the text of the [.sha256] answer:
    [hashText.split(" ")[0] || ""]. *)
Definition serverSha256_of (hashText : string) : string :=
  Js.or_else (head (Js.split " " hashText)) EmptyString.

(** [serverSha256 != localSha256] where the right side is a string or
    [null]. *)
Definition differs (serverSha256 : string) (localSha256 : option string) : bool :=
  match localSha256 with
  | Some l => negb (String.eqb serverSha256 l)
  | None => true
  end.

(** [isNaN(lastChecked) || Date.now() - lastChecked > HASH_CHECK_UPDATE_INTERVAL_MS] *)
Definition hash_check_due (lastChecked : option Z) (now : Z) : bool :=
  match lastChecked with
  | None => true
  | Some t => Z.ltb HASH_CHECK_UPDATE_INTERVAL_MS (now - t)
  end.

(** The checkpoint as the cycle understands the text of the file. *)
Definition lastChecked_of (text : string) : option Z :=
  let lastCheckedStr := Js.trim text in
  let lastCheckedStr := if Js.has_non_digit lastCheckedStr then EmptyString else lastCheckedStr in
  Js.parseInt lastCheckedStr.

(** The cycle gets as far as asking the server for the digest: both
    files are read without a failure other than NotFound, and the
    checkpoint is absent, corrupt or older than the interval. *)
Definition asks_server (E : env) (w : world) : bool :=
  negb (fault_readLastChecked E) && negb (fault_readDb E)
  && hash_check_due (lastChecked_of (default EmptyString (lastCheckedFile w))) (now_check E).

(** The three files are what they were. *)
Definition same_files (w w' : world) : Prop :=
  dbFile w' = dbFile w /\ dbTempFile w' = dbTempFile w
  /\ lastCheckedFile w' = lastCheckedFile w.

Definition has_readable (e : entry) : bool :=
  match readable e with Some _ => true | None => false end.

Section WithCollaborators.

(** [crypto.subtle.digest("sha-256", _)] and the gunzip + untar
    pipeline: the entries the stream yields and whether it then fails. *)
Variable subtle_digest : bytes -> bytes.
Variable untar : bytes -> list entry * bool.

(** [getSha256FromBuffer] of util.ts. *)
Definition getSha256FromBuffer (buffer : bytes) : string :=
  Js.join EmptyString (map Js.hex2 (subtle_digest buffer)).

(** One turn of the [for await] loop over the entries. *)
Definition visit_entry (E : env) (acc : option bytes * list string) (e : entry)
  : M (option bytes * list string) :=
  let '(dbBuffer, entryNames) := acc in
  match readable e with
  | None => ret (dbBuffer, entryNames)
  | Some chunks =>
      let entryNames := (entryNames ++ [path e])%list in
      if negb (Js.endsWith (path e) ".mmdb") then
        (emit (Cancel (path e)) ;; ret (dbBuffer, entryNames))
      else
        (write_dbTemp E (List.concat chunks) ;;
         ret (Some (List.concat chunks), entryNames))
  end.

Fixpoint visit_entries (E : env) (acc : option bytes * list string) (es : list entry)
  : M (option bytes * list string) :=
  match es with
  | [] => ret acc
  | e :: es' => (acc' <- visit_entry E acc e ;; visit_entries E acc' es')
  end.

(** The replacement of db.mmdb by tempDb.mmdb under the rewrite
    promise (lines 226-244). *)
Definition replace_db (E : env) : M unit :=
  (emit OpenWindow ;;
   (fun w => (Normal tt, set_rewritePromise true w)) ;;
   try_finally
     (try_catch (remove_db E)
        (fun e => if is_NotFound e then ret tt else throw e) ;;
      rename_dbTemp_db E)
     (emit CloseWindow ;;
      (fun w => (Normal tt, set_rewritePromise false w)))).

(** [this.#onDbChangeCbs.forEach((cb) => cb({sha256, buffer}))]
    (lines 248-253): the callbacks are called in the order of the set;
    nothing catches what one of them throws, so the first that throws
    ends the loop. *)
Fixpoint notify (E : env) (cbs : list nat) (sha256 : string) (buffer : bytes) : M unit :=
  match cbs with
  | [] => ret tt
  | cb :: cbs' =>
      (emit (Notify cb sha256 buffer) ;;
       (if cb_throws E cb then throw (CallbackThrew cb) else ret tt) ;;
       notify E cbs' sha256 buffer)
  end.

(** The branch taken when a new database has to be fetched
    (lines 163-253). *)
Definition download (C : config) (E : env) (serverSha256 : string) : M unit :=
  ((if verbose C then emit (Log "Downloading new database from Maxmind servers.") else ret tt) ;;
   tarBuffer <- maxMindRequest "tar.gz" (tar_response E) ;;
   let sha256 := getSha256FromBuffer tarBuffer in
   (if negb (String.eqb sha256 serverSha256) then throw VerificationFailed else ret tt) ;;
   let '(entries, broken) := untar tarBuffer in
   r <- visit_entries E (None, []) entries ;;
   (if broken then throw StreamFailure else ret tt) ;;
   let '(dbBuffer, entryNames) := r in
   match dbBuffer with
   | None => throw (NoMmdbFound entryNames)
   | Some dbBuffer =>
       (replace_db E ;;
        (if verbose C then emit (Log "Geoip db updated.") else ret tt) ;;
        cbs <- (fun w => (Normal (onDbChangeCbs w), w)) ;;
        notify E cbs serverSha256 dbBuffer)
   end).

Definition updateDb_body (C : config) (E : env) : M unit :=
  (lastCheckedStr <- try_catch (readTextFile_lastChecked E)
                       (fun e => if is_NotFound e then ret EmptyString else throw e) ;;
   let lastChecked := lastChecked_of lastCheckedStr in
   tarFile <- try_catch (b <- readFile_db E ;; ret (Some b))
                (fun e => if is_NotFound e then ret None else throw e) ;;
   let localSha256 := option_map getSha256FromBuffer tarFile in
   serverSha256 <-
     (if hash_check_due lastChecked (now_check E) then
        try_catch
          (hashText <- maxMindRequest "tar.gz.sha256" (sha_response E) ;;
           ret (Some (serverSha256_of hashText)))
          (fun e => if ignoreNetworkErrors C then return_ else throw e)
      else ret None) ;;
   match serverSha256 with
   | Some s =>
       if Js.truthy s && differs s localSha256 then download C E s else ret tt
   | None => ret tt
   end ;;
   writeTextFile_lastChecked E (Js.String_of (now_write E))).

(** [#updateDb]. *)
Definition updateDb (C : config) (E : env) : M unit := call (updateDb_body C E).

End WithCollaborators.

End Fetcher.

(** ** Concrete storage directories, answers and archives

    Stand-ins for the collaborators, to run the cycle on: the digest of a
    buffer is the buffer itself, so that the bytes [ab c1 23] have the
    digest ["abc123"]. *)

Module Scenario.

Import Fetcher.

Definition digest (buffer : bytes) : bytes := buffer.

Definition archive : bytes := [xab; xc1; x23].

Definition csv_only (_ : bytes) : list entry * bool :=
  ([ {| path := "GeoLite2-Country.csv"; readable := Some [[x31; x2c]; [x32]] |} ], false).

Definition with_mmdb (_ : bytes) : list entry * bool :=
  ([ {| path := "GeoLite2-Country_20240101/"; readable := None |};
     {| path := "GeoLite2-Country_20240101/LICENSE.txt"; readable := Some [[x4c]] |};
     {| path := "GeoLite2-Country_20240101/GeoLite2-Country.mmdb";
        readable := Some [[x01; x02]; [x03]] |} ], false).

Definition hash_line : string := "abc123  GeoLite2-Country.tar.gz" ++ newline.

(** No failure of any file operation; both requests answered; no
    callback throws. *)
Definition answers (sha : response string) (tar : response bytes) : env :=
  {| now_check := 1700000000000; now_write := 1700000000123;
     sha_response := sha; tar_response := tar;
     fault_readLastChecked := false; fault_readDb := false;
     fault_writeTemp := false; fault_remove := false; fault_rename := false;
     fault_writeLastChecked := false;
     cb_throws := fun _ => false |}.

Definition storage (checkpoint : option string) (db : option bytes) : world :=
  {| lastCheckedFile := checkpoint; dbFile := db; dbTempFile := None;
     rewritePromise := false; onDbChangeCbs := [0]; trace := [] |}.

Definition ignoring : config := {| ignoreNetworkErrors := true; verbose := false |}.
Definition strict : config := {| ignoreNetworkErrors := false; verbose := false |}.

End Scenario.

(** ** The digest token as the specification words it *)

Module Spec.

(** The first white-space-delimited token of a text: its prefix up to
    the first white-space character of any kind. *)
Fixpoint first_token (body : string) : string :=
  match body with
  | EmptyString => EmptyString
  | String c rest => if Js.is_whitespace c then EmptyString else String c (first_token rest)
  end.

End Spec.

(** The entries of a list that pass a test. *)
Fixpoint count_if {A} (f : A -> bool) (l : list A) : nat :=
  match l with
  | [] => 0
  | x :: l' => (if f x then 1 else 0) + count_if f l'
  end.

(** ** The fetcher among concurrent callers

    [#updateDbIfNotRunning], the replacement of db.mmdb and [getDbBuffer],
    split at their [await]s.  Every call of [#updateDb] and every call of
    [getDbBuffer] is an entry of a list and advances by events; an awaited
    file operation takes effect when its event occurs, with the outcome
    the event carries. *)

Module Gate.

(** Where a call of [#updateDb] stands. *)
Inductive cycle :=
| Checking (dbBuffer : option bytes)      (* lines 115-225: files read, requests, entries *)
| Removing (p : nat) (dbBuffer : bytes)   (* promise [p] stored, Deno.remove awaited *)
| Renaming (p : nat) (dbBuffer : bytes)   (* Deno.rename awaited *)
| Leaving (thrown : bool)                 (* past the replacement or the branch; the
                                             completion is on its way to the caller *)
| Ended.                                  (* the finally of #updateDbIfNotRunning ran *)

(** Where a call of [getDbBuffer] stands; [gate] is the value of
    [#rewritePromise] the call awaited. *)
Inductive reader :=
| Waiting (gate : option nat)
| Reading (gate : option nat)
| Got (gate : option nat) (buffer : option bytes)
| Failed (gate : option nat).

Record state := {
  dbFile : option bytes;               (* db.mmdb *)
  dbTempFile : option bytes;           (* tempDb.mmdb *)
  updateIsRunning : bool;              (* #updateIsRunning *)
  rewritePromise : option nat;         (* #rewritePromise: null or a promise *)
  promises : nat;                      (* promises created so far *)
  resolved : gset nat;                 (* promises resolved so far *)
  cycles : list cycle;
  readers : list reader;
  committed : gmap nat bytes           (* history: what the replacement under
                                          promise [p] renamed into place *)
}.

Inductive event :=
| Trigger                                 (* a call of #updateDbIfNotRunning *)
| Stage (c : nat) (content : bytes)       (* an .mmdb entry written to tempDb.mmdb *)
| StageFails (c : nat) (partial : bytes)  (* the write breaks off *)
| Leave (c : nat) (thrown : bool)         (* nothing to replace, a return or a throw *)
| Open (c : nat)                          (* lines 226-232 up to the await *)
| RemoveDone (c : nat) (fault : bool)
| RenameDone (c : nat) (fault : bool)
| End (c : nat)
| Call                                    (* a call of getDbBuffer *)
| Resume (r : nat)                        (* the awaited gate lets the call go on *)
| ReadDone (r : nat) (fault : bool).

Definition init (db : option bytes) : state :=
  {| dbFile := db; dbTempFile := None; updateIsRunning := false;
     rewritePromise := None; promises := 0; resolved := ∅;
     cycles := []; readers := []; committed := ∅ |}.

Definition set_files (db temp : option bytes) (s : state) : state :=
  {| dbFile := db; dbTempFile := temp; updateIsRunning := updateIsRunning s;
     rewritePromise := rewritePromise s; promises := promises s;
     resolved := resolved s; cycles := cycles s; readers := readers s;
     committed := committed s |}.

Definition set_updateIsRunning (b : bool) (s : state) : state :=
  {| dbFile := dbFile s; dbTempFile := dbTempFile s; updateIsRunning := b;
     rewritePromise := rewritePromise s; promises := promises s;
     resolved := resolved s; cycles := cycles s; readers := readers s;
     committed := committed s |}.

Definition set_cycles (cs : list cycle) (s : state) : state :=
  {| dbFile := dbFile s; dbTempFile := dbTempFile s; updateIsRunning := updateIsRunning s;
     rewritePromise := rewritePromise s; promises := promises s;
     resolved := resolved s; cycles := cs; readers := readers s;
     committed := committed s |}.

Definition set_readers (rs : list reader) (s : state) : state :=
  {| dbFile := dbFile s; dbTempFile := dbTempFile s; updateIsRunning := updateIsRunning s;
     rewritePromise := rewritePromise s; promises := promises s;
     resolved := resolved s; cycles := cycles s; readers := rs;
     committed := committed s |}.

Definition set_committed (m : gmap nat bytes) (s : state) : state :=
  {| dbFile := dbFile s; dbTempFile := dbTempFile s; updateIsRunning := updateIsRunning s;
     rewritePromise := rewritePromise s; promises := promises s;
     resolved := resolved s; cycles := cycles s; readers := readers s;
     committed := m |}.

(** [this.#rewritePromise = new Promise(...)]: a fresh pending promise. *)
Definition open_window (s : state) : state :=
  {| dbFile := dbFile s; dbTempFile := dbTempFile s; updateIsRunning := updateIsRunning s;
     rewritePromise := Some (promises s); promises := S (promises s);
     resolved := resolved s; cycles := cycles s; readers := readers s;
     committed := committed s |}.

(** The finally of the replacement: [resolveRewritePromise()] and
    [this.#rewritePromise = null]. *)
Definition close_window (p : nat) (s : state) : state :=
  {| dbFile := dbFile s; dbTempFile := dbTempFile s; updateIsRunning := updateIsRunning s;
     rewritePromise := None; promises := promises s;
     resolved := {[p]} ∪ resolved s; cycles := cycles s; readers := readers s;
     committed := committed s |}.

(** [await g] can go on: [g] is [null] or a resolved promise. *)
Definition settled (s : state) (g : option nat) : bool :=
  match g with
  | None => true
  | Some p => bool_decide (p ∈ resolved s)
  end.

(** [#updateDbIfNotRunning] up to the first await of [#updateDb]
    (lines 100-103). *)
Definition updateDbIfNotRunning (s : state) : state :=
  if updateIsRunning s then s
  else set_cycles (cycles s ++ [Checking None]) (set_updateIsRunning true s).
Arguments updateDbIfNotRunning s /.

(** [getDbBuffer] up to its await of [#rewritePromise] (line 270). *)
Definition getDbBuffer (s : state) : state :=
  set_readers (readers s ++ [Waiting (rewritePromise s)]) s.
Arguments getDbBuffer s /.

(** One event (lines of src/src/MaxMindFetcher.ts).
    - [Trigger]: lines 100-103, up to the first await of [#updateDb].
    - [Stage], [StageFails], [Leave]: what lines 115-225 do to
      tempDb.mmdb and how they end: the .mmdb entry written whole
      (lines 188-215), its write broken off, or the cycle past the branch,
      returning or throwing without a replacement.
    - [Open]: lines 226-232, the promise stored and the removal begun.
    - [RemoveDone]: the removal over (lines 232-239); a failure other than
      NotFound runs the finally (lines 241-244) and is thrown; otherwise
      the rename begins (line 240).
    - [RenameDone]: the rename over (line 240), then the finally.
    - [End]: the finally of [#updateDbIfNotRunning] (lines 104-106).
    - [Call]: line 270, [#rewritePromise] read and awaited.
    - [Resume]: the await over, [Deno.readFile] begun (line 272).
    - [ReadDone]: the read over (lines 272-279): the content, [null] for
      NotFound, or the failure thrown. *)
Definition step (s : state) (e : event) : option state :=
  match e with
  | Trigger => Some (updateDbIfNotRunning s)
  | Stage c content =>
      match cycles s !! c with
      | Some (Checking _) =>
          Some (set_cycles (<[c := Checking (Some content)]> (cycles s))
                  (set_files (dbFile s) (Some content) s))
      | _ => None
      end
  | StageFails c partial =>
      match cycles s !! c with
      | Some (Checking _) =>
          Some (set_cycles (<[c := Leaving true]> (cycles s))
                  (set_files (dbFile s) (Some partial) s))
      | _ => None
      end
  | Leave c thrown =>
      match cycles s !! c with
      | Some (Checking dbBuffer) =>
          if thrown || negb (bool_decide (is_Some dbBuffer))
          then Some (set_cycles (<[c := Leaving thrown]> (cycles s)) s)
          else None
      | _ => None
      end
  | Open c =>
      match cycles s !! c with
      | Some (Checking (Some dbBuffer)) =>
          Some (set_cycles (<[c := Removing (promises s) dbBuffer]> (cycles s)) (open_window s))
      | _ => None
      end
  | RemoveDone c fault =>
      match cycles s !! c with
      | Some (Removing p dbBuffer) =>
          if fault
          then Some (set_cycles (<[c := Leaving true]> (cycles s)) (close_window p s))
          else Some (set_cycles (<[c := Renaming p dbBuffer]> (cycles s))
                       (set_files None (dbTempFile s) s))
      | _ => None
      end
  | RenameDone c fault =>
      match cycles s !! c with
      | Some (Renaming p dbBuffer) =>
          match (if fault then None else dbTempFile s) with
          | None => Some (set_cycles (<[c := Leaving true]> (cycles s)) (close_window p s))
          | Some b =>
              Some (set_cycles (<[c := Leaving false]> (cycles s))
                      (set_committed (<[p := b]> (committed s))
                         (close_window p (set_files (Some b) None s))))
          end
      | _ => None
      end
  | End c =>
      match cycles s !! c with
      | Some (Leaving _) =>
          Some (set_cycles (<[c := Ended]> (cycles s)) (set_updateIsRunning false s))
      | _ => None
      end
  | Call => Some (getDbBuffer s)
  | Resume r =>
      match readers s !! r with
      | Some (Waiting g) =>
          if settled s g then Some (set_readers (<[r := Reading g]> (readers s)) s) else None
      | _ => None
      end
  | ReadDone r fault =>
      match readers s !! r with
      | Some (Reading g) =>
          Some (set_readers (<[r := if fault then Failed g else Got g (dbFile s)]> (readers s)) s)
      | _ => None
      end
  end.

Fixpoint run (s : state) (es : list event) : option state :=
  match es with
  | [] => Some s
  | e :: es' => match step s e with
                | Some s' => run s' es'
                | None => None
                end
  end.

Definition active (c : cycle) : bool :=
  match c with Ended => false | _ => true end.

(** The calls of [#updateDb] in flight. *)
Definition in_flight (s : state) : nat := count_if active (cycles s).

(** The promise a cycle has stored and not yet resolved. *)
Definition window (c : cycle) : option nat :=
  match c with
  | Removing p _ | Renaming p _ => Some p
  | _ => None
  end.

(** The buffer a cycle holds once the .mmdb entry is written. *)
Definition staged (c : cycle) : option bytes :=
  match c with
  | Checking (Some b) | Removing _ b | Renaming _ b => Some b
  | _ => None
  end.

(** The promise a call of [getDbBuffer] awaited, and whether it is past
    that await. *)
Definition gate (r : reader) : option nat :=
  match r with
  | Waiting g | Reading g | Got g _ | Failed g => g
  end.

Definition passed (r : reader) : bool :=
  match r with Waiting _ => false | _ => true end.

(** What holds in every state the fetcher reaches from [init db0]. *)
Record Inv (db0 : option bytes) (s : state) : Prop := {
  I_flight : in_flight s = if updateIsRunning s then 1 else 0;
  I_open : forall c x p, cycles s !! c = Some x -> window x = Some p ->
                         rewritePromise s = Some p;
  I_owner : forall p, rewritePromise s = Some p ->
                      exists c x, cycles s !! c = Some x /\ window x = Some p;
  I_last : forall p, rewritePromise s = Some p -> S p = promises s /\ p ∉ resolved s;
  I_created : forall p, p < promises s -> p ∈ resolved s \/ rewritePromise s = Some p;
  I_resolved : forall p, p ∈ resolved s -> p < promises s;
  I_gate : forall r x p, readers s !! r = Some x -> gate x = Some p -> p < promises s;
  I_passed : forall r x p, readers s !! r = Some x -> gate x = Some p ->
                           passed x = true -> p ∈ resolved s;
  I_temp : forall c x b, cycles s !! c = Some x -> staged x = Some b ->
                         dbTempFile s = Some b;
  I_committed : forall p b, committed s !! p = Some b -> p ∈ resolved s;
  I_current : forall p b, promises s = S p -> committed s !! p = Some b ->
                          dbFile s = Some b;
  I_whole : forall b, dbFile s = Some b ->
                      db0 = Some b \/ exists p, committed s !! p = Some b;
  I_results : forall r g b, readers s !! r = Some (Got g (Some b)) ->
                            db0 = Some b \/ exists p, committed s !! p = Some b
}.

(** The replacement of the sequential cycle as events: the state in which
    the cycle of [w] holds [dbBuffer] and is about to replace db.mmdb, and
    the events of a replacement with the outcomes [E] prescribes. *)
Definition of_world (w : Fetcher.world) (dbBuffer : bytes) : state :=
  {| dbFile := Fetcher.dbFile w; dbTempFile := Fetcher.dbTempFile w;
     updateIsRunning := true; rewritePromise := None; promises := 0; resolved := ∅;
     cycles := [Checking (Some dbBuffer)]; readers := []; committed := ∅ |}.

Definition replacement (E : Fetcher.env) : list event :=
  Open 0 :: RemoveDone 0 (Fetcher.fault_remove E)
    :: (if Fetcher.fault_remove E then [] else [RenameDone 0 (Fetcher.fault_rename E)]).

End Gate.

(** ** [LiveMaxMindDb]: the handle of the loaded database

    [#loadDb] and [#useDb] of the class with [#pendingDbLookups] and
    [#discardedDbs], which src/src/util.ts holds after
    [getSha256FromBuffer].  A [Maxmind] instance is named by the order of
    its construction; the WeakMap is a map on these names.  The
    constructor [new Maxmind(dbBuffer)] is taken to return. *)

Module Live.

(** The promise [#dbPromise] holds: the one created with the object, or
    [Promise.resolve(db)]. *)
Inductive promise :=
| Initial
| Resolved (db : nat).

(** Where a call of [#useDb] stands; [current] is history: the value of
    [#db] when the call was made. *)
Inductive lookup :=
| Awaiting (p : promise) (current : option nat)
| Running (db : nat) (current : option nat)
| Finished (db : nat) (current : option nat).

Record state := {
  db : option nat;                     (* #db *)
  initialPromiseResolved : bool;
  initialValue : option nat;           (* what the initial promise resolved to *)
  dbPromise : promise;
  pendingDbLookups : gmap nat Z;
  discardedDbs : gset nat;
  instances : list bytes;              (* the buffers of the instances constructed *)
  freed : list nat;                    (* the calls of db.free(), in order *)
  lookups : list lookup
}.

Inductive event :=
| LoadDb (dbBuffer : bytes)
| Call
| Resume (t : nat)
| Finish (t : nat).

Definition init : state :=
  {| db := None; initialPromiseResolved := false; initialValue := None;
     dbPromise := Initial; pendingDbLookups := ∅; discardedDbs := ∅;
     instances := []; freed := []; lookups := [] |}.

(** [this.#pendingDbLookups.get(db) || 0] *)
Definition pending (s : state) (d : nat) : Z := default 0%Z (pendingDbLookups s !! d).

(** What [await p] yields, once [p] is resolved. *)
Definition value (s : state) (p : promise) : option nat :=
  match p with
  | Initial => initialValue s
  | Resolved d => Some d
  end.

Definition set_pending (d : nat) (n : Z) (s : state) : state :=
  {| db := db s; initialPromiseResolved := initialPromiseResolved s;
     initialValue := initialValue s; dbPromise := dbPromise s;
     pendingDbLookups := <[d := n]> (pendingDbLookups s); discardedDbs := discardedDbs s;
     instances := instances s; freed := freed s; lookups := lookups s |}.

Definition set_discarded (ds : gset nat) (s : state) : state :=
  {| db := db s; initialPromiseResolved := initialPromiseResolved s;
     initialValue := initialValue s; dbPromise := dbPromise s;
     pendingDbLookups := pendingDbLookups s; discardedDbs := ds;
     instances := instances s; freed := freed s; lookups := lookups s |}.

Definition set_lookups (ls : list lookup) (s : state) : state :=
  {| db := db s; initialPromiseResolved := initialPromiseResolved s;
     initialValue := initialValue s; dbPromise := dbPromise s;
     pendingDbLookups := pendingDbLookups s; discardedDbs := discardedDbs s;
     instances := instances s; freed := freed s; lookups := ls |}.

(** [#tryFreeDb]: [db.free()], whatever it throws is caught. *)
Definition tryFreeDb (d : nat) (s : state) : state :=
  {| db := db s; initialPromiseResolved := initialPromiseResolved s;
     initialValue := initialValue s; dbPromise := dbPromise s;
     pendingDbLookups := pendingDbLookups s; discardedDbs := discardedDbs s;
     instances := instances s; freed := freed s ++ [d]; lookups := lookups s |}.

(** [this.#db = new Maxmind(dbBuffer)] and the promise that follows
    (lines 68-74). *)
Definition publish (dbBuffer : bytes) (s : state) : state :=
  let d := List.length (instances s) in
  {| db := Some d;
     initialPromiseResolved := true;
     initialValue := if initialPromiseResolved s then initialValue s else Some d;
     dbPromise := if initialPromiseResolved s then Resolved d else dbPromise s;
     pendingDbLookups := pendingDbLookups s; discardedDbs := discardedDbs s;
     instances := instances s ++ [dbBuffer]; freed := freed s; lookups := lookups s |}.

(** [#loadDb]. *)
Definition loadDb (dbBuffer : bytes) (s : state) : state :=
  let s1 :=
    match db s with
    | Some d =>
        if (0 <? pending s d)%Z
        then set_discarded ({[d]} ∪ discardedDbs s) s
        else tryFreeDb d s
    | None => s
    end in
  publish dbBuffer s1.

(** The finally of [#useDb]. *)
Definition release (d : nat) (s : state) : state :=
  let newPending := (pending s d - 1)%Z in
  let s1 := set_pending d newPending s in
  if (newPending <=? 0)%Z then
    if bool_decide (d ∈ discardedDbs s1)
    then set_discarded (discardedDbs s1 ∖ {[d]}) (tryFreeDb d s1)
    else s1
  else s1.

(** One event (lines of the class in src/src/util.ts).
    - [LoadDb]: a call of [#loadDb] (lines 58-75), which does not await.
    - [Call]: line 91, [#dbPromise] read and awaited.
    - [Resume]: the await over (lines 91-95): the instance counted, [fn]
      called with it.
    - [Finish]: [fn] settled, the finally (lines 96-106). *)
Definition step (s : state) (e : event) : option state :=
  match e with
  | LoadDb dbBuffer => Some (loadDb dbBuffer s)
  | Call => Some (set_lookups (lookups s ++ [Awaiting (dbPromise s) (db s)]) s)
  | Resume t =>
      match lookups s !! t with
      | Some (Awaiting p current) =>
          match value s p with
          | Some d =>
              Some (set_lookups (<[t := Running d current]> (lookups s))
                      (set_pending d (pending s d + 1) s))
          | None => None
          end
      | _ => None
      end
  | Finish t =>
      match lookups s !! t with
      | Some (Running d current) =>
          Some (set_lookups (<[t := Finished d current]> (lookups s)) (release d s))
      | _ => None
      end
  end.

Fixpoint run (s : state) (es : list event) : option state :=
  match es with
  | [] => Some s
  | e :: es' => match step s e with
                | Some s' => run s' es'
                | None => None
                end
  end.

Definition is_running (d : nat) (l : lookup) : bool :=
  match l with
  | Running d' _ => bool_decide (d' = d)
  | _ => false
  end.

(** The calls of [#useDb] that hold [d]: counted, and not yet through
    their finally. *)
Definition running (s : state) (d : nat) : nat := count_if (is_running d) (lookups s).

(** The instance a call of [#useDb] was given, once it has one. *)
Definition target (l : lookup) : option nat :=
  match l with
  | Running d _ | Finished d _ => Some d
  | Awaiting _ _ => None
  end.

(** History: the value of [#db] when the call was made. *)
Definition current_at_call (l : lookup) : option nat :=
  match l with
  | Awaiting _ c | Running _ c | Finished _ c => c
  end.

(** What holds in every state the handle reaches from [init]. *)
Record Inv (s : state) : Prop := {
  L_count : forall d, pending s d = Z.of_nat (running s d);
  L_nodup : NoDup (freed s);
  L_freed : forall d, d ∈ freed s ->
                      db s <> Some d /\ (d ∉ discardedDbs s) /\ d < List.length (instances s);
  L_discarded : forall d, d ∈ discardedDbs s ->
                          db s <> Some d /\ 0 < running s d /\ d < List.length (instances s);
  L_db : forall d, db s = Some d -> d < List.length (instances s);
  L_promise : value s (dbPromise s) = db s;
  L_initial : initialPromiseResolved s = false ->
              dbPromise s = Initial /\ initialValue s = None;
  L_awaiting : forall t p v, lookups s !! t = Some (Awaiting p (Some v)) ->
                             value s p = Some v;
  L_target : forall t l d v, lookups s !! t = Some l -> target l = Some d ->
                             current_at_call l = Some v -> d = v
}.

End Live.

(** ** [LiveMaxMindDb] before the count

    src/src/LiveMaxMindDb.ts holds the class as it was before
    [#pendingDbLookups] and [#discardedDbs] were added: [#loadDb] frees
    the instance it replaces, and a lookup is
    [(await this.#dbPromise).lookup_city(ipAddress)], done as soon as the
    await is over. *)

Module LiveUncounted.

Inductive lookup :=
| Awaiting (p : Live.promise)
| Done (db : nat).

Record state := {
  db : option nat;
  initialPromiseResolved : bool;
  initialValue : option nat;
  dbPromise : Live.promise;
  instances : list bytes;
  freed : list nat;
  lookups : list lookup
}.

Inductive event :=
| LoadDb (dbBuffer : bytes)
| Call
| Resume (t : nat).

Definition init : state :=
  {| db := None; initialPromiseResolved := false; initialValue := None;
     dbPromise := Live.Initial; instances := []; freed := []; lookups := [] |}.

Definition value (s : state) (p : Live.promise) : option nat :=
  match p with
  | Live.Initial => initialValue s
  | Live.Resolved d => Some d
  end.

(** [#loadDb] of lines 46-58. *)
Definition loadDb (dbBuffer : bytes) (s : state) : state :=
  let d := List.length (instances s) in
  {| db := Some d;
     initialPromiseResolved := true;
     initialValue := if initialPromiseResolved s then initialValue s else Some d;
     dbPromise := if initialPromiseResolved s then Live.Resolved d else dbPromise s;
     instances := instances s ++ [dbBuffer];
     freed := match db s with Some old => freed s ++ [old] | None => freed s end;
     lookups := lookups s |}.

Definition set_lookups (ls : list lookup) (s : state) : state :=
  {| db := db s; initialPromiseResolved := initialPromiseResolved s;
     initialValue := initialValue s; dbPromise := dbPromise s;
     instances := instances s; freed := freed s; lookups := ls |}.

(** One event: a call of [#loadDb]; a lookup reading and awaiting
    [#dbPromise]; the await over and the lookup done on the instance. *)
Definition step (s : state) (e : event) : option state :=
  match e with
  | LoadDb dbBuffer => Some (loadDb dbBuffer s)
  | Call => Some (set_lookups (lookups s ++ [Awaiting (dbPromise s)]) s)
  | Resume t =>
      match lookups s !! t with
      | Some (Awaiting p) =>
          match value s p with
          | Some d => Some (set_lookups (<[t := Done d]> (lookups s)) s)
          | None => None
          end
      | _ => None
      end
  end.

Fixpoint run (s : state) (es : list event) : option state :=
  match es with
  | [] => Some s
  | e :: es' => match step s e with
                | Some s' => run s' es'
                | None => None
                end
  end.

End LiveUncounted.

(** ** The characters of a digest *)

Module Hex.

(** A digit or a lower-case letter from a to f. *)
Definition is_hex (c : ascii) : bool :=
  let n := nat_of_ascii c in
  (Nat.leb 48 n && Nat.leb n 57) || (Nat.leb 97 n && Nat.leb n 102).

End Hex.

(** ** What the loop over the archive keeps *)

Module Archive.

Import Fetcher.

(** The content the loop takes from an entry (lines 183-215): the chunks
    of an entry with a content whose name ends in .mmdb, put together. *)
Definition database_of (e : entry) : option bytes :=
  match readable e with
  | Some chunks => if Js.endsWith (path e) ".mmdb" then Some (List.concat chunks) else None
  | None => None
  end.

(** What the loop does with an entry: nothing for one without content,
    the content written to tempDb.mmdb for a database, the content
    cancelled for any other. *)
Definition extraction_effect (e : entry) : option effect :=
  match readable e with
  | Some chunks =>
      Some (if Js.endsWith (path e) ".mmdb" then WriteTemp (List.concat chunks)
            else Cancel (path e))
  | None => None
  end.

End Archive.

(** ** What a trace shows *)

Module Trace.

Import Fetcher.

(** The calls of the [onDbChange] callbacks, in order: the callback, and
    the [sha256] and [buffer] it is given. *)
Definition notifications (t : list effect) : list (nat * string * bytes) :=
  omap (fun x => match x with Notify cb s b => Some (cb, s, b) | _ => None end) t.

(** The requests sent to the server, in order, by their suffix. *)
Definition requests (t : list effect) : list string :=
  omap (fun x => match x with Fetch suffix => Some suffix | _ => None end) t.

(** The callbacks [forEach] gets to call: those of the set, in its
    order, up to and including the first that throws. *)
Fixpoint called (throws : nat -> bool) (cbs : list nat) : list nat :=
  match cbs with
  | [] => []
  | cb :: cbs' => cb :: (if throws cb then [] else called throws cbs')
  end.

End Trace.

(** ** The cycles the timer starts *)

Module Timer.

Import Fetcher.

Section WithCollaborators.

Variable subtle_digest : bytes -> bytes.
Variable untar : bytes -> list entry * bool.

(** The calls of [#updateDb] the constructor and its timer make (lines
    79-82), each begun after the one before has ended, each with what it
    reads from outside.  The promise of [#updateDbIfNotRunning] is not
    awaited and has no handler: a cycle that throws is the last. *)
Fixpoint ticks (C : config) (Es : list env) : M unit :=
  match Es with
  | [] => ret tt
  | E :: Es' => (updateDb subtle_digest untar C E ;; ticks C Es')
  end.

(** The cycles of [Es] follow a checkpoint written at [t] closely: each
    begins no later than [HASH_CHECK_UPDATE_INTERVAL_MS] after the
    checkpoint the one before wrote, and reads the two files and writes
    the checkpoint without a failure. *)
Fixpoint within_interval (t : Z) (Es : list env) : Prop :=
  match Es with
  | [] => True
  | E :: Es' =>
      (now_check E - t <= HASH_CHECK_UPDATE_INTERVAL_MS)%Z
      /\ (0 <= now_write E < 2 ^ 53)%Z
      /\ fault_readLastChecked E = false
      /\ fault_readDb E = false
      /\ fault_writeLastChecked E = false
      /\ within_interval (now_write E) Es'
  end.

End WithCollaborators.

End Timer.

(** ** [onDbChange] *)

Module Api.

Import Fetcher.

(** [this.#onDbChangeCbs.add(cb)]: a Set keeps one of each value, in the
    order of the first insertion. *)
Definition onDbChange (cb : nat) (w : world) : world :=
  if bool_decide (cb ∈ onDbChangeCbs w) then w
  else {| lastCheckedFile := lastCheckedFile w; dbFile := dbFile w;
          dbTempFile := dbTempFile w; rewritePromise := rewritePromise w;
          onDbChangeCbs := (onDbChangeCbs w ++ [cb])%list; trace := trace w |}.

End Api.

(** ** Answers at other times *)

Module Later.

Import Fetcher.

(** No failure of any file operation; both requests answered; no
    callback throws; the clock at [now] when the cycle tests the interval
    and when it writes the checkpoint. *)
Definition answers_at (now : Z) (sha : response string) (tar : response bytes) : env :=
  {| now_check := now; now_write := now;
     sha_response := sha; tar_response := tar;
     fault_readLastChecked := false; fault_readDb := false;
     fault_writeTemp := false; fault_remove := false; fault_rename := false;
     fault_writeLastChecked := false;
     cb_throws := fun _ => false |}.

End Later.

(** * Properties *)

(** ** The primitives on examples *)

Example split_hash_line :
  Js.split " " "abc123  GeoLite2-Country.tar.gz" = ["abc123"; EmptyString; "GeoLite2-Country.tar.gz"].
Proof. reflexivity. Qed.

Example split_empty : Js.split " " EmptyString = [EmptyString].
Proof. reflexivity. Qed.

Example trim_checkpoint : Js.trim (" 1700000000000" ++ String "010" EmptyString) = "1700000000000".
Proof. reflexivity. Qed.

Example parseInt_checkpoint : Js.parseInt "1700000000000" = Some 1700000000000%Z.
Proof. reflexivity. Qed.

Example endsWith_mmdb : Js.endsWith "GeoLite2-Country_20240101/GeoLite2-Country.mmdb" ".mmdb" = true.
Proof. reflexivity. Qed.

Example hex2_ff : Js.hex2 "255"%byte = "ff" /\ Js.hex2 "010"%byte = "0a".
Proof. split; reflexivity. Qed.

(** ** The digest kept from the server's answer *)

Lemma split_nonempty sep s : Js.split sep s <> [].
Proof.
  destruct s as [|c s]; simpl; [discriminate|].
  destruct (Ascii.eqb c sep); [discriminate|].
  destruct (Js.split sep s); discriminate.
Qed.

(** The first part of [split] stops at the first separator. *)
Lemma split_head sep s :
  exists t ts rest,
    Js.split sep s = t :: ts /\ s = t ++ rest
    /\ (rest = EmptyString \/ exists r, rest = String sep r)
    /\ (forall i, String.get i t <> Some sep).
Proof.
  induction s as [|c s IH].
  - exists EmptyString, [], EmptyString. simpl.
    split; [reflexivity|]. split; [reflexivity|]. split; [by left|].
    intros i. destruct i; discriminate.
  - simpl. destruct (Ascii.eqb_spec c sep) as [->|Hne].
    + exists EmptyString, (Js.split sep s), (String sep s). simpl.
      split; [reflexivity|]. split; [reflexivity|]. split; [right; by eexists|].
      intros i. destruct i; discriminate.
    + destruct IH as (t & ts & rest & Hs & Heq & Hrest & Hno).
      rewrite Hs. exists (String c t), ts, rest. simpl.
      split; [reflexivity|].
      split; [change (String c s = String c (t ++ rest)); by f_equal|].
      split; [exact Hrest|].
      intros [|i]; simpl; [congruence | apply Hno].
Qed.

Lemma or_else_same s : Js.or_else (Some s) EmptyString = s.
Proof. destruct s; reflexivity. Qed.

(** C8, as amended: the digest the cycle keeps is the prefix of the answer
    up to its first SPACE character (U+0020), or the whole answer if it
    has none: it contains no space, and what follows it in the answer is
    nothing or begins with a space.  Tabs and line ends do not end it. *)
Theorem serverSha256_of_prefix_to_first_space (body : string) :
  exists rest,
    body = Fetcher.serverSha256_of body ++ rest
    /\ (rest = EmptyString \/ exists r, rest = String " " r)
    /\ (forall i, String.get i (Fetcher.serverSha256_of body) <> Some " "%char).
Proof.
  unfold Fetcher.serverSha256_of.
  destruct (split_head " " body) as (t & ts & rest & Hs & Heq & Hrest & Hno).
  rewrite Hs. change (head (t :: ts)) with (Some t).
  rewrite or_else_same. exists rest. split; [exact Heq|]. split; [exact Hrest | exact Hno].
Qed.

(** C8, as stated, fails: for the answer ["abc123\n"] (a digest followed
    by a line end and no space) the cycle keeps the line end in the
    digest, while the first white-space-delimited token is ["abc123"]. *)
Lemma serverSha256_of_keeps_line_end :
  Fetcher.serverSha256_of ("abc123" ++ Fetcher.newline) = "abc123" ++ Fetcher.newline
  /\ Spec.first_token ("abc123" ++ Fetcher.newline) = "abc123"
  /\ Fetcher.serverSha256_of ("abc123" ++ Fetcher.newline)
     <> Spec.first_token ("abc123" ++ Fetcher.newline).
Proof. repeat split; [reflexivity.. | discriminate]. Qed.

(** Where no white space comes before the first space of the answer, the
    digest kept is the first white-space-delimited token. *)
Lemma first_token_prefix t rest :
  (forall i c, String.get i t = Some c -> Js.is_whitespace c = false) ->
  (rest = EmptyString \/ exists r, rest = String " " r) ->
  Spec.first_token (t ++ rest) = t.
Proof.
  intros Hno Hrest. induction t as [|c t IH].
  - destruct Hrest as [-> | (r & ->)]; reflexivity.
  - change (Spec.first_token (String c (t ++ rest)) = String c t).
    simpl. rewrite (Hno 0 c eq_refl). f_equal. apply IH.
    intros i c' Hi. apply (Hno (S i) c' Hi).
Qed.

Lemma serverSha256_of_first_token body :
  (forall i c, String.get i (Fetcher.serverSha256_of body) = Some c ->
               Js.is_whitespace c = false) ->
  Fetcher.serverSha256_of body = Spec.first_token body.
Proof.
  unfold Fetcher.serverSha256_of.
  destruct (split_head " " body) as (t & ts & rest & Hs & Heq & Hrest & _).
  rewrite Hs. change (head (t :: ts)) with (Some t). rewrite or_else_same.
  intros Hno. rewrite Heq. symmetry. by apply first_token_prefix.
Qed.

Example serverSha256_of_hash_line :
  Fetcher.serverSha256_of ("abc123  GeoLite2-Country.tar.gz" ++ Fetcher.newline) = "abc123"
  /\ Spec.first_token ("abc123  GeoLite2-Country.tar.gz" ++ Fetcher.newline) = "abc123".
Proof. split; reflexivity. Qed.

(** ** One cycle on its own *)

Section Cycle.

Import Fetcher.

Variable subtle_digest : bytes -> bytes.
Variable untar : bytes -> list entry * bool.

Local Abbreviation sha256 := (getSha256FromBuffer subtle_digest).
Local Abbreviation updateDb := (Fetcher.updateDb subtle_digest untar).
Local Abbreviation download := (Fetcher.download subtle_digest untar).

Local Ltac reduce_cycle :=
  cbn -[hash_check_due lastChecked_of Fetcher.download writeTextFile_lastChecked
        serverSha256_of differs Js.truthy].

Lemma asks_server_true E w :
  asks_server E w = true ->
  fault_readLastChecked E = false /\ fault_readDb E = false
  /\ hash_check_due (lastChecked_of (default EmptyString (lastCheckedFile w))) (now_check E) = true.
Proof.
  unfold asks_server. rewrite !andb_true_iff, !negb_true_iff. tauto.
Qed.

(** Once the server has answered the digest request, the cycle is the
    comparison, the download if it is needed, and the checkpoint. *)
Lemma updateDb_answered C E w status body :
  asks_server E w = true ->
  sha_response E = Response true status body ->
  updateDb C E w =
    call ((if Js.truthy (serverSha256_of body)
              && differs (serverSha256_of body) (option_map sha256 (dbFile w))
           then download C E (serverSha256_of body) else ret tt) ;;
          writeTextFile_lastChecked E (Js.String_of (now_write E)))
      (record (Fetch "tar.gz.sha256") w).
Proof.
  intros Hasks Hsha. apply asks_server_true in Hasks as (Hf1 & Hf2 & Hdue).
  unfold Fetcher.updateDb, updateDb_body, call, bind, try_catch,
    readTextFile_lastChecked, readFile_db, maxMindRequest, emit, ret.
  rewrite Hf1, Hf2, Hsha.
  destruct (lastCheckedFile w) as [text|]; cbn [default from_option id] in Hdue;
    reduce_cycle; destruct (dbFile w) as [local|]; reduce_cycle;
    rewrite Hdue; reflexivity.
Qed.

(** A failure of the digest request under [ignoreNetworkErrors]: the
    cycle returns, and the request is all it did. *)
Lemma updateDb_digest_request_fails_ignored C E w :
  ignoreNetworkErrors C = true ->
  asks_server E w = true ->
  (sha_response E = Rejected \/ exists status body, sha_response E = Response false status body) ->
  updateDb C E w = (Normal tt, record (Fetch "tar.gz.sha256") w).
Proof.
  intros Hign Hasks Hsha. apply asks_server_true in Hasks as (Hf1 & Hf2 & Hdue).
  unfold Fetcher.updateDb, updateDb_body, call, bind, try_catch,
    readTextFile_lastChecked, readFile_db, maxMindRequest, emit, ret, throw, return_.
  rewrite Hf1, Hf2, Hign.
  destruct Hsha as [-> | (status & body & ->)];
    destruct (lastCheckedFile w) as [text|]; cbn [default from_option id] in Hdue;
    reduce_cycle; destruct (dbFile w) as [local|]; reduce_cycle;
    rewrite Hdue; reflexivity.
Qed.

(** When the digests need no download, the cycle is the digest request
    and the checkpoint. *)
Lemma updateDb_nothing_to_download C E w status body :
  asks_server E w = true ->
  sha_response E = Response true status body ->
  Js.truthy (serverSha256_of body)
    && differs (serverSha256_of body) (option_map sha256 (dbFile w)) = false ->
  updateDb C E w =
    writeTextFile_lastChecked E (Js.String_of (now_write E))
      (record (Fetch "tar.gz.sha256") w).
Proof.
  intros Hasks Hsha Hskip. rewrite (updateDb_answered _ _ _ _ _ Hasks Hsha), Hskip.
  unfold call, bind, ret, writeTextFile_lastChecked.
  destruct (fault_writeLastChecked E); reflexivity.
Qed.

Lemma differs_same s : differs s (Some s) = false.
Proof. unfold differs. by rewrite String.eqb_refl. Qed.

(** C4: when the digest of db.mmdb is the digest the server answers, the
    cycle does nothing but ask for the digest and write the checkpoint
    with the current time: no request for the archive, no callback, and
    db.mmdb and tempDb.mmdb are what they were.  (If writing the
    checkpoint fails, that failure is what the cycle throws.) *)
Theorem updateDb_same_digest_only_checkpoint C E w status body local :
  asks_server E w = true ->
  sha_response E = Response true status body ->
  dbFile w = Some local ->
  serverSha256_of body = sha256 local ->
  let out := updateDb C E w in
  trace (snd out) =
    (trace w ++ Fetch "tar.gz.sha256"
       :: (if fault_writeLastChecked E then []
           else [WriteLastChecked (Js.String_of (now_write E))]))%list
  /\ dbFile (snd out) = dbFile w
  /\ dbTempFile (snd out) = dbTempFile w
  /\ lastCheckedFile (snd out) =
       (if fault_writeLastChecked E then lastCheckedFile w
        else Some (Js.String_of (now_write E)))
  /\ fst out = (if fault_writeLastChecked E then Throw (IoFailure "writeTextFile")
                else Normal tt).
Proof.
  intros Hasks Hsha Hdb Heq out. subst out.
  rewrite (updateDb_nothing_to_download _ _ _ _ _ Hasks Hsha).
  - unfold writeTextFile_lastChecked.
    destruct (fault_writeLastChecked E); simpl; rewrite <- ?app_assoc; auto.
  - rewrite Hdb, Heq. cbn [option_map]. rewrite differs_same. apply andb_false_r.
Qed.

Lemma serverSha256_of_empty body :
  (body = EmptyString \/ exists r, body = String " " r) ->
  serverSha256_of body = EmptyString.
Proof. intros [-> | (r & ->)]; reflexivity. Qed.

(** C10: when the server answers the digest request with an empty text,
    or one that begins with a space, the digest kept is the empty string
    and the update is skipped whatever db.mmdb is, absent included: the
    cycle does nothing but ask for the digest and write the checkpoint.
    (If writing the checkpoint fails, that failure is what the cycle
    throws.) *)
Theorem updateDb_empty_digest_skips_update C E w status body :
  asks_server E w = true ->
  sha_response E = Response true status body ->
  (body = EmptyString \/ exists r, body = String " " r) ->
  let out := updateDb C E w in
  serverSha256_of body = EmptyString
  /\ trace (snd out) =
       (trace w ++ Fetch "tar.gz.sha256"
          :: (if fault_writeLastChecked E then []
              else [WriteLastChecked (Js.String_of (now_write E))]))%list
  /\ dbFile (snd out) = dbFile w
  /\ dbTempFile (snd out) = dbTempFile w
  /\ lastCheckedFile (snd out) =
       (if fault_writeLastChecked E then lastCheckedFile w
        else Some (Js.String_of (now_write E)))
  /\ fst out = (if fault_writeLastChecked E then Throw (IoFailure "writeTextFile")
                else Normal tt).
Proof.
  intros Hasks Hsha Hbody out. subst out.
  pose proof (serverSha256_of_empty _ Hbody) as Hempty. split; [exact Hempty|].
  rewrite (updateDb_nothing_to_download _ _ _ _ _ Hasks Hsha).
  - unfold writeTextFile_lastChecked.
    destruct (fault_writeLastChecked E); simpl; rewrite <- ?app_assoc; auto.
  - rewrite Hempty. reflexivity.
Qed.

(** The archive request, when the cycle gets to it. *)
Lemma updateDb_downloads C E w status body :
  asks_server E w = true ->
  sha_response E = Response true status body ->
  Js.truthy (serverSha256_of body) = true ->
  differs (serverSha256_of body) (option_map sha256 (dbFile w)) = true ->
  updateDb C E w =
    call (download C E (serverSha256_of body) ;;
          writeTextFile_lastChecked E (Js.String_of (now_write E)))
      (record (Fetch "tar.gz.sha256") w).
Proof.
  intros Hasks Hsha Ht Hd.
  rewrite (updateDb_answered _ _ _ _ _ Hasks Hsha), Ht, Hd. reflexivity.
Qed.

(** A failed archive request is thrown, whatever [ignoreNetworkErrors]. *)
Lemma updateDb_archive_request_fails C E w status body :
  asks_server E w = true ->
  sha_response E = Response true status body ->
  Js.truthy (serverSha256_of body) = true ->
  differs (serverSha256_of body) (option_map sha256 (dbFile w)) = true ->
  forall status', (exists b, tar_response E = Response false status' b) ->
  fst (updateDb C E w) = Throw (RequestFailed "tar.gz" status')
  /\ same_files w (snd (updateDb C E w)).
Proof.
  intros Hasks Hsha Ht Hd status' (b & Htar).
  rewrite (updateDb_downloads _ _ _ _ _ Hasks Hsha Ht Hd).
  unfold call, bind, Fetcher.download, maxMindRequest, emit, bind. rewrite Htar.
  unfold same_files. destruct (verbose C); simpl; auto.
Qed.

(** C3: when the digest of the downloaded archive differs from the
    digest the server answered, the cycle throws the verification error
    and the three files are what they were. *)
Theorem updateDb_verification_failure C E w status body status' tarBuffer :
  asks_server E w = true ->
  sha_response E = Response true status body ->
  Js.truthy (serverSha256_of body) = true ->
  differs (serverSha256_of body) (option_map sha256 (dbFile w)) = true ->
  tar_response E = Response true status' tarBuffer ->
  sha256 tarBuffer <> serverSha256_of body ->
  fst (updateDb C E w) = Throw VerificationFailed
  /\ message VerificationFailed
     = "Failed to download maxmind db, sha256 verification failed."
  /\ dbFile (snd (updateDb C E w)) = dbFile w
  /\ dbTempFile (snd (updateDb C E w)) = dbTempFile w
  /\ lastCheckedFile (snd (updateDb C E w)) = lastCheckedFile w.
Proof.
  intros Hasks Hsha Ht Hd Htar Hne.
  rewrite (updateDb_downloads _ _ _ _ _ Hasks Hsha Ht Hd).
  unfold call, bind, Fetcher.download, maxMindRequest, emit, bind. rewrite Htar.
  apply String.eqb_neq in Hne.
  destruct (verbose C); simpl; rewrite Hne; simpl; auto.
Qed.

Lemma same_files_refl w : same_files w w.
Proof. by unfold same_files. Qed.

Lemma same_files_trans w1 w2 w3 : same_files w1 w2 -> same_files w2 w3 -> same_files w1 w3.
Proof. unfold same_files. intros (-> & -> & ->) (-> & -> & ->). auto. Qed.

(** The loop over an archive without .mmdb entry: every entry with a
    content is named and cancelled, nothing is written. *)
Lemma visit_entries_no_mmdb E entries :
  (forall e, e ∈ entries -> Js.endsWith (path e) ".mmdb" = false) ->
  forall names w, exists w',
    visit_entries E (None, names) entries w
    = (Normal (None, (names ++ map path (List.filter has_readable entries))%list), w')
    /\ same_files w w'.
Proof.
  induction entries as [|e entries IH]; intros Hno names w.
  - exists w. simpl. rewrite app_nil_r. split; [reflexivity | apply same_files_refl].
  - assert (He : Js.endsWith (path e) ".mmdb" = false) by (apply Hno; left).
    assert (Hrest : forall e', e' ∈ entries -> Js.endsWith (path e') ".mmdb" = false)
      by (intros e' Hin; apply Hno; by right).
    cbn [visit_entries List.filter]. unfold bind at 1, visit_entry, has_readable.
    destruct (readable e) as [chunks|].
    + rewrite He. cbn -[visit_entries].
      destruct (IH Hrest (names ++ [path e])%list (record (Cancel (path e)) w))
        as (w' & -> & Hsame).
      exists w'. rewrite <- app_assoc. split; [reflexivity | exact Hsame].
    + cbn -[visit_entries]. apply IH, Hrest.
Qed.

(** C9: when the archive has no entry whose name ends in .mmdb, the
    cycle throws the error that lists the names of the entries it went
    through (those with a content), and the three files are what they
    were; for an archive whose only entry is GeoLite2-Country.csv the
    names listed are exactly that one. *)
Theorem updateDb_no_mmdb_entry C E w status body status' tarBuffer entries :
  asks_server E w = true ->
  sha_response E = Response true status body ->
  Js.truthy (serverSha256_of body) = true ->
  differs (serverSha256_of body) (option_map sha256 (dbFile w)) = true ->
  tar_response E = Response true status' tarBuffer ->
  sha256 tarBuffer = serverSha256_of body ->
  untar tarBuffer = (entries, false) ->
  (forall e, e ∈ entries -> Js.endsWith (path e) ".mmdb" = false) ->
  let names := map path (List.filter has_readable entries) in
  fst (updateDb C E w) = Throw (NoMmdbFound names)
  /\ message (NoMmdbFound names)
     = "Failed to get MaxMind database from the tar response, no .mmdb file found. Only found:"
         ++ newline ++ Js.join newline (map (fun n => " - " ++ n) names)
  /\ same_files w (snd (updateDb C E w))
  /\ (forall chunks,
        entries = [ {| path := "GeoLite2-Country.csv"; readable := Some chunks |} ] ->
        fst (updateDb C E w) = Throw (NoMmdbFound ["GeoLite2-Country.csv"])).
Proof.
  intros Hasks Hsha Ht Hd Htar Hsame Huntar Hno names.
  assert (Hout : fst (updateDb C E w) = Throw (NoMmdbFound names)
                 /\ same_files w (snd (updateDb C E w))).
  { rewrite (updateDb_downloads _ _ _ _ _ Hasks Hsha Ht Hd).
    unfold call, bind, Fetcher.download, maxMindRequest, emit, bind. rewrite Htar.
    apply String.eqb_eq in Hsame.
    destruct (verbose C); cbn -[visit_entries]; rewrite Hsame, Huntar;
      cbn -[visit_entries];
      match goal with
      | |- context [visit_entries E (None, []) entries ?w0] =>
          destruct (visit_entries_no_mmdb E entries Hno [] w0) as (w' & -> & Hfiles)
      end; cbn; (split; [reflexivity | exact Hfiles]). }
  destruct Hout as [Hthrow Hfiles].
  split; [exact Hthrow|]. split; [reflexivity|]. split; [exact Hfiles|].
  intros chunks ->. exact Hthrow.
Qed.

End Cycle.

(** C2 fails on the code: with [ignoreNetworkErrors] set, an empty storage
    directory and the digest request answered, a 503 answer to the archive
    request is thrown by the cycle (the checkpoint is not written). *)
Theorem updateDb_archive_503_thrown_despite_ignore subtle_digest untar :
  Fetcher.ignoreNetworkErrors Scenario.ignoring = true
  /\ Fetcher.updateDb subtle_digest untar Scenario.ignoring
       (Scenario.answers (Fetcher.Response true 200 Scenario.hash_line)
                         (Fetcher.Response false 503 []))
       (Scenario.storage None None)
     = (Fetcher.Throw (Fetcher.RequestFailed "tar.gz" 503),
        Fetcher.record (Fetcher.Fetch "tar.gz")
          (Fetcher.record (Fetcher.Fetch "tar.gz.sha256") (Scenario.storage None None))).
Proof. split; reflexivity. Qed.

(** The same failure at the digest request is swallowed. *)
Example updateDb_digest_503_ignored subtle_digest untar :
  Fetcher.updateDb subtle_digest untar Scenario.ignoring
    (Scenario.answers (Fetcher.Response false 503 EmptyString) Fetcher.Rejected)
    (Scenario.storage None None)
  = (Fetcher.Normal tt,
     Fetcher.record (Fetcher.Fetch "tar.gz.sha256") (Scenario.storage None None)).
Proof. reflexivity. Qed.

(** ** Counting *)

Lemma count_if_snoc {A} (f : A -> bool) l x :
  count_if f (l ++ [x]) = count_if f l + (if f x then 1 else 0).
Proof. induction l as [|y l IH]; simpl; [lia | rewrite IH; lia]. Qed.

(** Replacing one entry changes the count by what the two entries weigh. *)
Lemma count_if_insert {A} (f : A -> bool) (l : list A) i x y :
  l !! i = Some x ->
  count_if f (<[i:=y]> l) + (if f x then 1 else 0)
  = count_if f l + (if f y then 1 else 0).
Proof.
  revert i. induction l as [|z l IH]; intros [|i] Hi; simplify_eq/=; [lia|].
  specialize (IH _ Hi). lia.
Qed.

Lemma count_if_lookup {A} (f : A -> bool) (l : list A) i x :
  l !! i = Some x -> f x = true -> 1 <= count_if f l.
Proof.
  revert i. induction l as [|z l IH]; intros [|i] Hi Hx; simplify_eq/=.
  - rewrite Hx. lia.
  - specialize (IH _ Hi Hx). lia.
Qed.

Lemma count_if_two {A} (f : A -> bool) (l : list A) i j x y :
  l !! i = Some x -> l !! j = Some y -> i <> j -> f x = true -> f y = true ->
  2 <= count_if f l.
Proof.
  revert i j. induction l as [|z l IH]; intros [|i] [|j] Hi Hj Hne Hx Hy; simplify_eq/=.
  - rewrite Hx. pose proof (count_if_lookup f l j y Hj Hy). lia.
  - rewrite Hy. pose proof (count_if_lookup f l i x Hi Hx). lia.
  - assert (i <> j) by congruence. specialize (IH _ _ Hi Hj H Hx Hy). lia.
Qed.

Lemma count_if_none {A} (f : A -> bool) (l : list A) i x :
  count_if f l = 0 -> l !! i = Some x -> f x = false.
Proof.
  intros H0 Hi. destruct (f x) eqn:Hx; [|done].
  pose proof (count_if_lookup f l i x Hi Hx). lia.
Qed.

(** ** The re-entrancy guard and the rewrite gate *)

Section GateFacts.
Import Gate.
Variable db0 : option bytes.

(** Two cycles in flight are the same cycle. *)
Lemma active_unique s c c' x y :
  in_flight s <= 1 -> cycles s !! c = Some x -> cycles s !! c' = Some y ->
  active x = true -> active y = true -> c = c'.
Proof.
  intros Hle Hc Hc' Hx Hy. destruct (decide (c = c')) as [|Hne]; [done|].
  pose proof (count_if_two active (cycles s) c c' x y Hc Hc' Hne Hx Hy) as H2.
  unfold in_flight in Hle. lia.
Qed.

Lemma gate_Inv_flight_le s : Inv db0 s -> in_flight s <= 1.
Proof. intros HI. rewrite (I_flight _ _ HI). destruct (updateIsRunning s); lia. Qed.

Lemma window_active x p : window x = Some p -> active x = true.
Proof. destruct x; simpl; congruence. Qed.

Lemma staged_active x b : staged x = Some b -> active x = true.
Proof. destruct x as [[?|]| | | |]; simpl; congruence. Qed.

(** The invariant holds at the start and is kept by every event. *)
Lemma gate_Inv_init : Inv db0 (init db0).
Proof.
  constructor; simpl; try done; try (intros; lia); try set_solver.
Qed.

(** Splits the lookups in an updated or extended list. *)
Local Ltac look :=
  repeat match goal with
    | H : <[_:=_]> _ !! _ = Some _ |- _ =>
        first [ apply list_lookup_insert_Some in H as [(? & ? & ?) | (? & H)]
              | apply lookup_insert_Some in H as [(? & ?) | (? & H)] ]
    | H : (_ ++ [_])%list !! _ = Some _ |- _ =>
        apply lookup_snoc_Some in H as [(? & H) | (? & ?)]
    end.

(** The count of cycles in flight after an update of the list. *)
Local Ltac flight :=
  unfold in_flight in *; simpl;
  first [ rewrite count_if_snoc
        | match goal with
          | Hc : ?l !! ?c = Some ?x |- context [count_if active (<[?c:=?y]> ?l)] =>
              pose proof (count_if_insert active l c x y Hc)
          end ];
  simpl in *;
  repeat match goal with H : updateIsRunning _ = _ |- _ => rewrite H in * end;
  repeat case_match; simpl in *; lia.

(** Two distinct cycles in flight: impossible. *)
Local Ltac uniq :=
  match goal with
  | Hle : in_flight ?s <= 1, H1 : cycles ?s !! ?c = Some ?x, H2 : cycles ?s !! ?c' = Some ?y,
    Hne : ?c <> ?c' |- _ =>
      exfalso; apply Hne; apply (active_unique s c c' x y Hle H1 H2);
      [ reflexivity | first [ eapply window_active; eassumption
                            | eapply staged_active; eassumption ] ]
  end.

(** An owner of the window in the old list is one in the new list. *)
Local Ltac owner :=
  match goal with
  | F3 : forall p, rewritePromise ?s = Some p -> _, H : rewritePromise ?s = Some ?p |- _ =>
      let c := fresh "c" in let x := fresh "x" in
      let Hc := fresh "Hc" in let Hw := fresh "Hw" in
      destruct (F3 _ H) as (c & x & Hc & Hw)
  end.

(** The same when the list is updated at one index. *)
Local Ltac owner_keep :=
  owner;
  match goal with
  | Hc0 : cycles ?s !! ?c0 = Some ?x, Hw : window ?x = Some _
    |- exists _ _, <[?c:=?y]> _ !! _ = Some _ /\ _ =>
      destruct (decide (c = c0)) as [->|?];
      [ simplify_eq/=;
        try (exists c0, y; split; [apply list_lookup_insert_eq; by eapply lookup_lt_Some | done])
      | exists c0, x; split; [by rewrite list_lookup_insert_ne | done] ]
  end.

(** Adds a fact that is not yet among the hypotheses. *)
Local Ltac learn H :=
  let T := type of H in
  lazymatch goal with
  | _ : T |- _ => fail
  | _ => pose proof H
  end.

(** What the invariant says of the promises and files at hand. *)
Local Ltac bounds HI :=
  repeat match goal with
    | H : committed _ !! _ = Some _ |- _ => learn (I_committed _ _ HI _ _ H)
    | H : _ ∈ resolved _ |- _ => learn (I_resolved _ _ HI _ H)
    | H : readers _ !! _ = Some ?x, Hg : gate ?x = Some _ |- _ =>
        learn (I_gate _ _ HI _ _ _ H Hg)
    | H : readers _ !! _ = Some ?x, Hg : gate ?x = Some _, Hp : passed ?x = true |- _ =>
        learn (I_passed _ _ HI _ _ _ H Hg Hp)
    | H : rewritePromise _ = Some _ |- _ => learn (I_last _ _ HI _ H)
    | H : cycles _ !! _ = Some ?x, Hw : window ?x = Some _ |- _ =>
        learn (I_open _ _ HI _ _ _ H Hw)
    | H : cycles _ !! _ = Some ?x, Hw : staged ?x = Some _ |- _ =>
        learn (I_temp _ _ HI _ _ _ H Hw)
    end.

Local Ltac close HI :=
  bounds HI; destruct_and?; simplify_eq/=;
  solve [ done | lia | congruence | eauto
        | apply elem_of_union; right; eauto
        | apply elem_of_union; left; by apply elem_of_singleton
        | match goal with
          | H : _ ∈ {[_]} ∪ _ |- _ =>
              apply elem_of_union in H as [H%elem_of_singleton | H];
              [ subst; lia | bounds HI; lia ]
          | H : ?p < promises _ |- ?p ∈ {[?q]} ∪ _ \/ _ =>
              left; destruct (I_created _ _ HI p H); simplify_eq;
              apply elem_of_union; [right; done | left; by apply elem_of_singleton]
          end ].

Local Ltac fin HI :=
  simpl; intros; look; simplify_eq/=; eauto; try uniq; try flight; try owner_keep;
  try close HI.

(** A cycle that has not begun its replacement finds no promise stored. *)
Lemma closed_while_checking s c b :
  Inv db0 s -> cycles s !! c = Some (Checking b) -> rewritePromise s = None.
Proof.
  intros HI Hc. destruct (rewritePromise s) as [p|] eqn:Hp; [|done].
  destruct (I_owner _ _ HI p Hp) as (c0 & x & Hc0 & Hw).
  pose proof (window_active _ _ Hw) as Hx.
  assert (c = c0) as <-
    by (eapply (active_unique s c c0); eauto using gate_Inv_flight_le).
  simplify_eq/=.
Qed.

Lemma gate_Inv_step s e s' : Inv db0 s -> step s e = Some s' -> Inv db0 s'.
Proof.
  intros HI Hs. pose proof (gate_Inv_flight_le s HI) as Hle.
  pose proof HI as [F1 F2 F3 F4 F5 F6 F7 F8 F9 F10 F11 F12 F13].
  destruct e; simpl in Hs.
  - (* Trigger *)
    destruct (updateIsRunning s) eqn:Hrun; simplify_eq; [exact HI|].
    constructor; fin HI.
    owner. exists c, x. split; [|done]. by apply lookup_app_l_Some.
  - (* Stage *)
    destruct (cycles s !! c) as [[dbBuffer| | | |]|] eqn:Hc; simplify_eq.
    constructor; fin HI.
  - (* StageFails *)
    destruct (cycles s !! c) as [[dbBuffer| | | |]|] eqn:Hc; simplify_eq.
    constructor; fin HI.
  - (* Leave *)
    destruct (cycles s !! c) as [[dbBuffer| | | |]|] eqn:Hc; simplify_eq.
    match type of Hs with (if ?g then _ else _) = _ => destruct g end; simplify_eq.
    constructor; fin HI.
  - (* Open *)
    destruct (cycles s !! c) as [[[dbBuffer|]| | | |]|] eqn:Hc; simplify_eq.
    pose proof (closed_while_checking s c _ HI Hc) as Hclosed.
    constructor; fin HI.
    + exists c, (Removing (promises s) dbBuffer).
      split; [apply list_lookup_insert_eq; by eapply lookup_lt_Some | done].
    + split; [done|]. intros Hin. apply F6 in Hin. lia.
    + destruct (decide (p = promises s)) as [->|]; [by right|left].
      destruct (F5 p) as [|Hx]; [lia | done | congruence].
  - (* RemoveDone *)
    destruct (cycles s !! c) as [[dbBuffer| | | |]|] eqn:Hc; simplify_eq.
    pose proof (F2 _ _ _ Hc eq_refl) as Hopen.
    pose proof (F4 _ Hopen) as [Hlast Hnres].
    pose proof (F9 _ _ _ Hc eq_refl) as Htemp.
    destruct fault; simplify_eq.
    + constructor; fin HI.
      + constructor; fin HI.
    - (* RenameDone *)
    destruct (cycles s !! c) as [[dbBuffer| | | |]|] eqn:Hc; simplify_eq.
    pose proof (F2 _ _ _ Hc eq_refl) as Hopen.
    pose proof (F4 _ Hopen) as [Hlast Hnres].
    pose proof (F9 _ _ _ Hc eq_refl) as Htemp.
    destruct (if fault then None else dbTempFile s) as [b'|] eqn:Hb; simplify_eq.
    + assert (Hfresh : forall b, committed s !! p = Some b -> False)
        by (intros b Hcm; apply Hnres; eauto).
      constructor; fin HI.
      * right. exists p. by rewrite lookup_insert_eq.
      * destruct (F13 _ _ _ H) as [|(q & Hq)]; [by left|right].
        exists q. rewrite lookup_insert_ne; [done|]. intros ->. eauto.
    + constructor; fin HI.
    - (* End *)
    destruct (cycles s !! c) as [[dbBuffer| | | |]|] eqn:Hc; simplify_eq.
    constructor; fin HI.
  - (* Call *)
    simplify_eq. constructor; fin HI.
  - (* Resume *)
    destruct (readers s !! r) as [[g|g|g res|g]|] eqn:Hr; simplify_eq.
    destruct (settled s g) eqn:Hset; simplify_eq.
    constructor; fin HI.
    by apply bool_decide_eq_true in Hset.
  - (* ReadDone *)
    destruct (readers s !! r) as [[g|g|g res|g]|] eqn:Hr; simplify_eq.
    destruct fault; constructor; fin HI.
Qed.

Lemma gate_Inv_run evs : forall s0 s, Inv db0 s0 -> run s0 evs = Some s -> Inv db0 s.
Proof.
  induction evs as [|e evs IH]; intros s0 s HI Hrun; simpl in Hrun.
  - by simplify_eq.
  - destruct (step s0 e) as [s1|] eqn:Hstep; [|done].
    eapply IH; [eapply gate_Inv_step|]; eauto.
Qed.

Lemma gate_Inv_reachable evs s : run (init db0) evs = Some s -> Inv db0 s.
Proof. apply gate_Inv_run, gate_Inv_init. Qed.

(** C5: at most one call of [#updateDb] is in flight in any state the
    fetcher reaches; a call of [#updateDbIfNotRunning] made while one is in
    flight returns with the state as it was, so that nothing records it;
    no event other than such a call adds a cycle: a dropped trigger is not
    run later; and a call made while none is in flight starts one. *)
Theorem at_most_one_cycle_in_flight evs s :
  run (init db0) evs = Some s ->
  in_flight s <= 1
  /\ (1 <= in_flight s -> step s Trigger = Some s)
  /\ (forall e s', step s e = Some s' -> e <> Trigger ->
                   List.length (cycles s') = List.length (cycles s))
  /\ (in_flight s = 0 ->
      exists s', step s Trigger = Some s' /\ in_flight s' = 1
                 /\ List.length (cycles s') = S (List.length (cycles s))).
Proof.
  intros Hrun. pose proof (gate_Inv_reachable _ _ Hrun) as HI.
  split; [by apply gate_Inv_flight_le|]. split; [|split].
  - intros Hfl. simpl. rewrite (I_flight _ _ HI) in Hfl.
    destruct (updateIsRunning s); [done | lia].
  - intros e s' Hstep Hne. destruct e; simpl in Hstep; try done;
      repeat case_match; simplify_eq; simpl; by rewrite ?length_insert.
  - intros Hnone. simpl. pose proof (I_flight _ _ HI) as Hfl. rewrite Hnone in Hfl.
    destruct (updateIsRunning s); [done|]. eexists. split; [reflexivity|].
    unfold in_flight in *. simpl. rewrite count_if_snoc, length_app. simpl.
    split; lia.
Qed.





End GateFacts.


(** ** The handle of the loaded database *)

Section LiveFacts.
Import Live.

(** The invariant holds at the start and is kept by every event. *)
Lemma live_Inv_init : Inv init.
Proof.
  constructor; simpl; try done.
  - apply NoDup_nil_2.
  - intros d H. by apply not_elem_of_nil in H.
Qed.

(** After [#loadDb], [#dbPromise] is resolved to the new instance, and a
    promise that was resolved keeps its value. *)
Lemma publish_promise b s1 :
  (initialPromiseResolved s1 = false -> dbPromise s1 = Initial) ->
  value (publish b s1) (dbPromise (publish b s1)) = db (publish b s1).
Proof.
  intros Hinit. unfold publish, value; simpl.
  destruct (initialPromiseResolved s1) eqn:Hres; simpl; [done|].
  by rewrite (Hinit eq_refl).
Qed.

Lemma publish_value b s1 p v :
  (initialPromiseResolved s1 = false -> initialValue s1 = None) ->
  value s1 p = Some v -> value (publish b s1) p = Some v.
Proof.
  intros Hinit Hv. destruct p as [|d]; simpl in *; [|done].
  destruct (initialPromiseResolved s1) eqn:Hres; [done|].
  rewrite (Hinit eq_refl) in Hv. done.
Qed.

(** [#loadDb]: the instance replaced is put aside when it is held, freed
    otherwise. *)
Lemma live_Inv_loadDb s dbBuffer : Inv s -> Inv (loadDb dbBuffer s).
Proof.
  intros HI. unfold loadDb.
  assert (Hi1 : initialPromiseResolved s = false -> dbPromise s = Initial)
    by (intros H; by destruct (L_initial _ HI H)).
  assert (Hi2 : initialPromiseResolved s = false -> initialValue s = None)
    by (intros H; by destruct (L_initial _ HI H)).
  destruct (db s) as [d|] eqn:Hdb; [destruct (0 <? pending s d)%Z eqn:Hpend|];
    pose proof HI as [F1 F2 F3 F4 F5 F6 F7 F8 F9].
  - pose proof (F5 d Hdb) as Hlt.
    apply Z.ltb_lt in Hpend. rewrite F1 in Hpend.
    constructor; try (by apply publish_promise); try done.
    + simpl. intros d' Hin. destruct (F3 d' Hin) as (Hne & Hnd & Hb).
      rewrite length_app. split; [intros [=]; lia|]. split; [|lia].
      intros [->%elem_of_singleton | ?]%elem_of_union; [congruence | done].
    + simpl. rewrite length_app.
      intros d' [->%elem_of_singleton | Hin]%elem_of_union.
      * split; [intros [=]; lia|]. unfold running in *. simpl. lia.
      * destruct (F4 d' Hin) as (Hne & Hr & Hb). split; [intros [=]; lia|].
        split; [done|lia].
    + simpl. rewrite length_app. intros d' [= <-]. simpl. lia.
    + intros t p v Ht. apply publish_value; [done|]. by apply (F8 t).
  - pose proof (F5 d Hdb) as Hlt.
    apply Z.ltb_ge in Hpend. rewrite F1 in Hpend.
    constructor; try (by apply publish_promise); try done.
    + simpl. apply NoDup_app. split; [done|]. split; [|apply NoDup_singleton].
      intros x Hx ->%list_elem_of_singleton. destruct (F3 d Hx) as [Hne _]. done.
    + simpl. rewrite length_app.
      intros d' [Hin | ->%list_elem_of_singleton]%elem_of_app.
      * destruct (F3 d' Hin) as (Hne & Hnd & Hb). split; [intros [=]; lia|].
        split; [done|lia].
      * split; [intros [=]; lia|]. split; [|lia].
        intros Hin. destruct (F4 d Hin) as [Hne _]. done.
    + simpl. rewrite length_app. intros d' Hin. destruct (F4 d' Hin) as (Hne & Hr & Hb).
      split; [intros [=]; lia|]. split; [done|lia].
    + simpl. rewrite length_app. intros d' [= <-]. simpl. lia.
    + intros t p v Ht. apply publish_value; [done|]. by apply (F8 t).
  - constructor; try (by apply publish_promise); try done.
    + simpl. rewrite length_app. intros d' Hin. destruct (F3 d' Hin) as (Hne & Hnd & Hb).
      split; [intros [=]; lia|]. split; [done|lia].
    + simpl. rewrite length_app. intros d' Hin. destruct (F4 d' Hin) as (Hne & Hr & Hb).
      split; [intros [=]; lia|]. split; [done|lia].
    + simpl. rewrite length_app. intros d' [= <-]. simpl. lia.
    + intros t p v Ht. apply publish_value; [done|]. by apply (F8 t).
Qed.

Lemma is_running_same d c : is_running d (Running d c) = true.
Proof. simpl. by rewrite bool_decide_eq_true_2. Qed.

Lemma live_Inv_call s : Inv s -> Inv (set_lookups (lookups s ++ [Awaiting (dbPromise s) (db s)]) s).
Proof.
  intros [F1 F2 F3 F4 F5 F6 F7 F8 F9].
  constructor; simpl; try done.
  - intros d. unfold running, pending in *. simpl. rewrite count_if_snoc. simpl.
    rewrite Nat.add_0_r. apply F1.
  - intros d Hin. destruct (F4 d Hin) as (? & ? & ?). unfold running in *. simpl.
    rewrite count_if_snoc. simpl. split; [done|]. split; [lia|done].
  - intros t p v [(_ & Ht) | (_ & Heq)]%lookup_snoc_Some; [by eapply F8|].
    simplify_eq. rewrite <- H. exact F6.
  - intros t l d v [(_ & Ht) | (_ & Heq)]%lookup_snoc_Some; [by eapply F9|].
    subst l. done.
Qed.

Lemma live_Inv_resume s t p cur d :
  Inv s -> lookups s !! t = Some (Awaiting p cur) -> value s p = Some d ->
  Inv (set_lookups (<[t:=Running d cur]> (lookups s)) (set_pending d (pending s d + 1) s)).
Proof.
  intros [F1 F2 F3 F4 F5 F6 F7 F8 F9] Ht Hv.
  assert (Hrun : forall d', count_if (is_running d') (<[t:=Running d cur]> (lookups s))
                            = running s d' + (if decide (d = d') then 1 else 0)).
  { intros d'. pose proof (count_if_insert (is_running d') _ t _ (Running d cur) Ht) as Hc.
    unfold running. simpl in Hc. destruct (decide (d = d')) as [->|Hne].
    - rewrite bool_decide_eq_true_2 in Hc by done. lia.
    - rewrite bool_decide_eq_false_2 in Hc by done. lia. }
  constructor; simpl; try done.
  - intros d'. unfold running at 1. simpl. rewrite Hrun.
    pose proof (F1 d') as Hd'. unfold pending in *. simpl.
    destruct (decide (d = d')) as [->|Hne].
    + rewrite lookup_insert_eq. simpl. lia.
    + rewrite lookup_insert_ne by done. lia.
  - intros d' Hin. destruct (F4 d' Hin) as (? & ? & ?). unfold running at 1. simpl.
    rewrite Hrun. split; [done|]. split; [lia|done].
  - intros t' p' v [(_ & ? & _) | (_ & Ht')]%list_lookup_insert_Some; [done|].
    by eapply F8.
  - intros t' l d' v [(<- & <- & _) | (_ & Ht')]%list_lookup_insert_Some; [|by eapply F9].
    simpl. intros [= <-] ->. specialize (F8 _ _ _ Ht). congruence.
Qed.

(** The finally of [#useDb]: the last holder of an instance put aside
    frees it. *)
Lemma live_Inv_finish s t d cur :
  Inv s -> lookups s !! t = Some (Running d cur) ->
  Inv (set_lookups (<[t:=Finished d cur]> (lookups s)) (release d s)).
Proof.
  intros [F1 F2 F3 F4 F5 F6 F7 F8 F9] Ht.
  assert (Hrun : forall d', count_if (is_running d') (<[t:=Finished d cur]> (lookups s))
                            + (if decide (d = d') then 1 else 0) = running s d').
  { intros d'. pose proof (count_if_insert (is_running d') _ t _ (Finished d cur) Ht) as Hc.
    unfold running. simpl in Hc. destruct (decide (d = d')) as [->|Hne].
    - rewrite bool_decide_eq_true_2 in Hc by done. lia.
    - rewrite bool_decide_eq_false_2 in Hc by done. lia. }
  assert (Hpos : 1 <= running s d).
  { eapply count_if_lookup; [exact Ht | apply is_running_same]. }
  pose proof (Hrun d) as Hd. rewrite decide_True in Hd by done.
  unfold release.
  destruct (pending s d - 1 <=? 0)%Z eqn:Hle;
    [destruct (bool_decide (d ∈ discardedDbs (set_pending d (pending s d - 1) s))) eqn:Hdisc|].
  - (* the last holder of a discarded instance frees it *)
    apply Z.leb_le in Hle. rewrite F1 in Hle.
    apply bool_decide_eq_true in Hdisc. simpl in Hdisc.
    destruct (F4 d Hdisc) as (Hcur & _ & Hb).
    constructor; simpl; try done.
    + intros d'. unfold running at 1, pending. simpl. specialize (Hrun d').
      pose proof (F1 d') as Hd'. unfold pending in Hd'.
      destruct (decide (d = d')) as [->|Hne].
      * rewrite lookup_insert_eq. simpl. lia.
      * rewrite lookup_insert_ne by done. lia.
    + apply NoDup_app. split; [done|]. split; [|apply NoDup_singleton].
      intros x Hx ->%list_elem_of_singleton. by destruct (F3 d Hx) as (_ & ? & _).
    + intros d' [Hin | ->%list_elem_of_singleton]%elem_of_app.
      * destruct (F3 d' Hin) as (? & ? & ?). split; [done|]. split; [|done].
        intros [? _]%elem_of_difference. done.
      * split; [done|]. split; [|done]. intros [_ Hn]%elem_of_difference.
        apply Hn. by apply elem_of_singleton.
    + intros d' [Hin Hn]%elem_of_difference. destruct (F4 d' Hin) as (? & ? & ?).
      split; [done|]. split; [|done]. unfold running at 1. simpl. specialize (Hrun d').
      rewrite decide_False in Hrun; [lia|]. intros ->. apply Hn. by apply elem_of_singleton.
    + intros t' p' v [(_ & ? & _) | (_ & Ht')]%list_lookup_insert_Some; [done|].
      by eapply F8.
    + intros t' l d' v [(<- & <- & _) | (_ & Ht')]%list_lookup_insert_Some; [|by eapply F9].
      apply (F9 t (Running d cur)); done.
  - apply Z.leb_le in Hle. rewrite F1 in Hle.
    apply bool_decide_eq_false in Hdisc. simpl in Hdisc.
    constructor; simpl; try done.
    + intros d'. unfold running at 1, pending. simpl. specialize (Hrun d').
      pose proof (F1 d') as Hd'. unfold pending in Hd'.
      destruct (decide (d = d')) as [->|Hne].
      * rewrite lookup_insert_eq. simpl. lia.
      * rewrite lookup_insert_ne by done. lia.
    + intros d' Hin. destruct (F4 d' Hin) as (? & ? & ?).
      split; [done|]. split; [|done]. unfold running at 1. simpl. specialize (Hrun d').
      rewrite decide_False in Hrun; [lia|]. by intros ->.
    + intros t' p' v [(_ & ? & _) | (_ & Ht')]%list_lookup_insert_Some; [done|].
      by eapply F8.
    + intros t' l d' v [(<- & <- & _) | (_ & Ht')]%list_lookup_insert_Some; [|by eapply F9].
      apply (F9 t (Running d cur)); done.
  - apply Z.leb_gt in Hle. rewrite F1 in Hle.
    constructor; simpl; try done.
    + intros d'. unfold running at 1, pending. simpl. specialize (Hrun d').
      pose proof (F1 d') as Hd'. unfold pending in Hd'.
      destruct (decide (d = d')) as [->|Hne].
      * rewrite lookup_insert_eq. simpl. lia.
      * rewrite lookup_insert_ne by done. lia.
    + intros d' Hin. destruct (F4 d' Hin) as (? & ? & ?).
      split; [done|]. split; [|done]. unfold running at 1. simpl. specialize (Hrun d').
      destruct (decide (d = d')) as [->|Hne]; lia.
    + intros t' p' v [(_ & ? & _) | (_ & Ht')]%list_lookup_insert_Some; [done|].
      by eapply F8.
    + intros t' l d' v [(<- & <- & _) | (_ & Ht')]%list_lookup_insert_Some; [|by eapply F9].
      apply (F9 t (Running d cur)); done.
Qed.

Lemma live_Inv_step s e s' : Inv s -> step s e = Some s' -> Inv s'.
Proof.
  intros HI Hstep. destruct e as [b| |t|t]; simpl in Hstep.
  - simplify_eq. by apply live_Inv_loadDb.
  - simplify_eq. by apply live_Inv_call.
  - destruct (lookups s !! t) as [[p cur| |]|] eqn:Ht; try done.
    destruct (value s p) as [d|] eqn:Hv; simplify_eq. by eapply live_Inv_resume.
  - destruct (lookups s !! t) as [[|d cur|]|] eqn:Ht; simplify_eq.
    by apply live_Inv_finish.
Qed.

Lemma live_Inv_run evs : forall s0 s, Inv s0 -> run s0 evs = Some s -> Inv s.
Proof.
  induction evs as [|e evs IH]; intros s0 s HI Hrun; simpl in Hrun.
  - by simplify_eq.
  - destruct (step s0 e) as [s1|] eqn:Hstep; [|done].
    eapply IH; [eapply live_Inv_step|]; eauto.
Qed.


Lemma live_Inv_reachable evs s : run init evs = Some s -> Inv s.
Proof. apply live_Inv_run, live_Inv_init. Qed.

(** What a step frees, it frees when nobody holds it. *)
Lemma step_frees s e s' d :
  Inv s -> step s e = Some s' -> d ∈ freed s' -> d ∉ freed s ->
  pending s d = (match e with Finish _ => 1 | _ => 0 end)%Z
  /\ (forall t, e = Finish t -> exists cur, lookups s !! t = Some (Running d cur)).
Proof.
  intros HI Hstep Hin Hnot. pose proof (L_count _ HI d) as Hc.
  destruct e as [b| |t|t]; simpl in Hstep.
  - simplify_eq. unfold loadDb in Hin.
    destruct (db s) as [d0|] eqn:Hdb; [destruct (0 <? pending s d0)%Z eqn:Hp|];
      simpl in Hin; try done.
    apply elem_of_app in Hin as [? | ->%list_elem_of_singleton]; [done|].
    apply Z.ltb_ge in Hp. split; [lia | done].
  - by simplify_eq.
  - destruct (lookups s !! t) as [[p cur| |]|] eqn:Ht; try done.
    destruct (value s p) as [d0|] eqn:Hv; by simplify_eq.
  - destruct (lookups s !! t) as [[|d0 cur|]|] eqn:Ht; simplify_eq.
    simpl in Hin. unfold release in Hin.
    destruct (pending s d0 - 1 <=? 0)%Z eqn:Hle;
      [destruct (bool_decide (d0 ∈ discardedDbs (set_pending d0 (pending s d0 - 1) s)))|];
      simpl in Hin; try done.
    apply elem_of_app in Hin as [? | ->%list_elem_of_singleton]; [done|].
    apply Z.leb_le in Hle.
    assert (1 <= running s d0)
      by (eapply count_if_lookup; [exact Ht | apply is_running_same]).
    split; [lia|]. intros t' [= <-]. eauto.
Qed.

(** X23: What the count does ensure, step by step: in every step the
    handle takes from a state it reaches, each
    instance is freed at most once and a freed instance is not [#db];
    an instance freed by the step has, after it, a count of 0 and no
    call of [#useDb] holding it, and if its count was above 0 before the
    step, the step is the finally of the call that held it (so [#loadDb]
    never frees an instance whose count is above 0: it puts it aside);
    a call that holds an instance before and after the step does not see
    it freed by the step; and a call made when [#db] was [v] is given
    [v], whatever [#loadDb] has published since. *)
Theorem version_in_use_not_freed evs s e s' :
  run init evs = Some s -> step s e = Some s' ->
  NoDup (freed s')
  /\ (forall d, d ∈ freed s' -> db s' <> Some d)
  /\ (forall d, d ∈ freed s' -> d ∉ freed s ->
        pending s' d = 0%Z /\ running s' d = 0
        /\ ((0 < pending s d)%Z ->
            exists t cur, e = Finish t /\ lookups s !! t = Some (Running d cur)))
  /\ (forall t d cur, lookups s !! t = Some (Running d cur) ->
        lookups s' !! t = Some (Running d cur) -> d ∈ freed s' -> d ∈ freed s)
  /\ (forall t l d v, lookups s' !! t = Some l -> target l = Some d ->
        current_at_call l = Some v -> d = v).
Proof.
  intros Hrun Hstep. pose proof (live_Inv_reachable _ _ Hrun) as HI.
  pose proof (live_Inv_step _ _ _ HI Hstep) as HI'.
  assert (Hnew : forall d, d ∈ freed s' -> d ∉ freed s ->
        pending s' d = 0%Z /\ running s' d = 0
        /\ ((0 < pending s d)%Z ->
            exists t cur, e = Finish t /\ lookups s !! t = Some (Running d cur))).
  { intros d Hin Hnot.
    destruct (step_frees s e s' d HI Hstep Hin Hnot) as [Hp Hfin].
    assert (Hzero : running s' d = 0).
    { pose proof (L_count _ HI d) as Hc. pose proof (L_count _ HI' d) as Hc'.
      destruct e as [b| |t|t]; simpl in Hstep.
      - simplify_eq.
        assert (running (loadDb b s) d = running s d) as ->; [|lia].
        unfold loadDb. destruct (db s); [destruct (0 <? pending s n)%Z|]; done.
      - simplify_eq. simpl in Hin. done.
      - destruct (lookups s !! t) as [[p cur| |]|] eqn:Ht; try done.
        destruct (value s p) as [d0|] eqn:Hv; by simplify_eq.
      - destruct (Hfin t eq_refl) as [cur Ht]. rewrite Ht in Hstep. simplify_eq.
        pose proof (count_if_insert (is_running d) _ t _ (Finished d cur) Ht) as Hi.
        unfold running in *. simpl in *. rewrite bool_decide_eq_true_2 in Hi by done.
        lia. }
    split; [rewrite (L_count _ HI'); lia|]. split; [done|].
    intros Hpos. destruct e as [b| |t|t]; try lia.
    destruct (Hfin t eq_refl) as [cur Ht]. eauto. }
  split; [apply (L_nodup _ HI')|].
  split; [intros d Hin; by destruct (L_freed _ HI' d Hin)|].
  split; [exact Hnew|]. split; [|apply (L_target _ HI')].
  intros t d cur Ht Ht' Hin. destruct (decide (d ∈ freed s)) as [|Hnot]; [done|].
  destruct (Hnew d Hin Hnot) as (_ & Hzero & _).
  pose proof (count_if_lookup (is_running d) _ t _ Ht' (is_running_same d cur)) as Hone.
  unfold running in Hzero. lia.
Qed.

End LiveFacts.


(** ** The statements above on concrete runs *)

(** C4 on a directory whose db.mmdb has the digest the server answers. *)
Lemma updateDb_same_digest_only_checkpoint_witness :
  let out := Fetcher.updateDb Scenario.digest Scenario.csv_only Scenario.strict
               (Scenario.answers (Fetcher.Response true 200 Scenario.hash_line) Fetcher.Rejected)
               (Scenario.storage None (Some Scenario.archive)) in
  Fetcher.trace (snd out)
  = [Fetcher.Fetch "tar.gz.sha256"; Fetcher.WriteLastChecked "1700000000123"]
  /\ Fetcher.dbFile (snd out) = Some Scenario.archive
  /\ Fetcher.lastCheckedFile (snd out) = Some "1700000000123"
  /\ fst out = Fetcher.Normal tt.
Proof.
  destruct (updateDb_same_digest_only_checkpoint Scenario.digest Scenario.csv_only
              Scenario.strict
              (Scenario.answers (Fetcher.Response true 200 Scenario.hash_line) Fetcher.Rejected)
              (Scenario.storage None (Some Scenario.archive))
              200 Scenario.hash_line Scenario.archive
              eq_refl eq_refl eq_refl eq_refl)
    as (Htrace & Hdb & _ & Hchk & Hout).
  repeat split; assumption.
Defined.

(** C10 on an empty answer and an empty directory. *)
Lemma updateDb_empty_digest_skips_update_witness :
  let out := Fetcher.updateDb Scenario.digest Scenario.with_mmdb Scenario.strict
               (Scenario.answers (Fetcher.Response true 200 EmptyString)
                                 (Fetcher.Response true 200 Scenario.archive))
               (Scenario.storage None None) in
  Fetcher.trace (snd out)
  = [Fetcher.Fetch "tar.gz.sha256"; Fetcher.WriteLastChecked "1700000000123"]
  /\ Fetcher.dbFile (snd out) = None
  /\ Fetcher.lastCheckedFile (snd out) = Some "1700000000123"
  /\ fst out = Fetcher.Normal tt.
Proof.
  destruct (updateDb_empty_digest_skips_update Scenario.digest Scenario.with_mmdb
              Scenario.strict
              (Scenario.answers (Fetcher.Response true 200 EmptyString)
                                (Fetcher.Response true 200 Scenario.archive))
              (Scenario.storage None None) 200 EmptyString
              eq_refl eq_refl (or_introl eq_refl))
    as (_ & Htrace & Hdb & _ & Hchk & Hout).
  repeat split; assumption.
Defined.

(** C3 on an archive whose digest is ["00"] where the server said
    ["abc123"]. *)
Lemma updateDb_verification_failure_witness :
  let out := Fetcher.updateDb Scenario.digest Scenario.with_mmdb Scenario.strict
               (Scenario.answers (Fetcher.Response true 200 Scenario.hash_line)
                                 (Fetcher.Response true 200 [x00]))
               (Scenario.storage None (Some [x01])) in
  fst out = Fetcher.Throw Fetcher.VerificationFailed
  /\ Fetcher.dbFile (snd out) = Some [x01].
Proof.
  destruct (updateDb_verification_failure Scenario.digest Scenario.with_mmdb
              Scenario.strict
              (Scenario.answers (Fetcher.Response true 200 Scenario.hash_line)
                                (Fetcher.Response true 200 [x00]))
              (Scenario.storage None (Some [x01])) 200 Scenario.hash_line 200 [x00]
              eq_refl eq_refl eq_refl eq_refl eq_refl)
    as (Hout & _ & Hdb & _).
  - discriminate.
  - split; assumption.
Defined.

(** C9 on the archive whose only entry is GeoLite2-Country.csv. *)
Lemma updateDb_no_mmdb_entry_witness :
  let out := Fetcher.updateDb Scenario.digest Scenario.csv_only Scenario.strict
               (Scenario.answers (Fetcher.Response true 200 Scenario.hash_line)
                                 (Fetcher.Response true 200 Scenario.archive))
               (Scenario.storage None (Some [x01])) in
  fst out = Fetcher.Throw (Fetcher.NoMmdbFound ["GeoLite2-Country.csv"])
  /\ Fetcher.dbFile (snd out) = Some [x01].
Proof.
  destruct (updateDb_no_mmdb_entry Scenario.digest Scenario.csv_only
              Scenario.strict
              (Scenario.answers (Fetcher.Response true 200 Scenario.hash_line)
                                (Fetcher.Response true 200 Scenario.archive))
              (Scenario.storage None (Some [x01])) 200 Scenario.hash_line 200
              Scenario.archive
              [ {| Fetcher.path := "GeoLite2-Country.csv";
                   Fetcher.readable := Some [[x31; x2c]; [x32]] |} ]
              eq_refl eq_refl eq_refl eq_refl eq_refl eq_refl eq_refl)
    as (Hout & _ & (Hdb & _) & _).
  - intros e He. apply list_elem_of_singleton in He. subst e. reflexivity.
  - split; assumption.
Defined.

(** C5 on a second trigger while the first cycle is in flight. *)
Lemma at_most_one_cycle_in_flight_witness :
  let s := Gate.set_cycles [Gate.Checking None]
             (Gate.set_updateIsRunning true (Gate.init None)) in
  Gate.in_flight s <= 1 /\ Gate.step s Gate.Trigger = Some s.
Proof.
  intros s.
  destruct (at_most_one_cycle_in_flight None [Gate.Trigger] s eq_refl) as (Hle & Hdrop & _).
  split; [exact Hle | apply Hdrop; exact (le_n 1)].
Defined.




(** The replacement in the sequential cycle and its events agree on the
    two files, on the closed window and on whether the cycle is left by a
    throw. *)
Lemma replace_db_as_events E w dbBuffer :
  match Gate.run (Gate.of_world w dbBuffer) (Gate.replacement E) with
  | Some s =>
      Gate.dbFile s = Fetcher.dbFile (snd (Fetcher.replace_db E w))
      /\ Gate.dbTempFile s = Fetcher.dbTempFile (snd (Fetcher.replace_db E w))
      /\ Gate.rewritePromise s = None
      /\ Fetcher.rewritePromise (snd (Fetcher.replace_db E w)) = false
      /\ Gate.cycles s !! 0
         = Some (Gate.Leaving match fst (Fetcher.replace_db E w) with
                              | Fetcher.Throw _ => true
                              | _ => false
                              end)
  | None => False
  end.
Proof.
  unfold Gate.replacement, Fetcher.replace_db, Fetcher.try_finally, Fetcher.try_catch,
    Fetcher.bind, Fetcher.emit, Fetcher.remove_db, Fetcher.rename_dbTemp_db, Gate.of_world.
  destruct (Fetcher.fault_remove E), (Fetcher.fault_rename E),
    (Fetcher.dbFile w) as [old|] eqn:Hdb, (Fetcher.dbTempFile w) as [new|] eqn:Htmp.
  all: cbn -[union singleton empty]; rewrite ?Hdb, ?Htmp;
       cbn -[union singleton empty]; rewrite ?Hdb, ?Htmp;
       cbn -[union singleton empty]; auto.
Qed.

(** A lookup that holds the first instance while the second is
    loaded: the first is put aside by [#loadDb] and freed by the finally
    of the lookup. *)
Lemma version_in_use_not_freed_witness :
  match Live.run Live.init
          [Live.LoadDb [x01]; Live.Call; Live.Resume 0; Live.LoadDb [x02]] with
  | Some s =>
      Live.freed s = [] /\ Live.pending s 0 = 1%Z
      /\ match Live.step s (Live.Finish 0) with
         | Some s' => NoDup (Live.freed s') /\ Live.pending s' 0 = 0%Z
                      /\ Live.lookups s' !! 0 = Some (Live.Finished 0 (Some 0))
         | None => False
         end
  | None => False
  end.
Proof.
  pose proof (version_in_use_not_freed
                [Live.LoadDb [x01]; Live.Call; Live.Resume 0; Live.LoadDb [x02]]
                _ (Live.Finish 0) _ eq_refl eq_refl) as (Hnodup & _ & Hnew & _).
  split; [reflexivity|]. split; [reflexivity|].
  split; [exact Hnodup|]. split; [|reflexivity].
  refine (proj1 (Hnew 0 _ _)).
  - apply list_elem_of_singleton. reflexivity.
  - apply not_elem_of_nil.
Defined.

(** C1 fails on the code: the count covers a call of [#useDb] only from
    the end of its await of [#dbPromise] (line 91).  A lookup is made on
    the first version; [#loadDb] publishes the second before that await
    is over, finds no count for the first and frees it; the lookup then
    goes on with the first version and is counted on it.  In that state
    the first version has been disposed while its count is 1 and the
    lookup that holds it is not through (its finally can still run). *)
Theorem version_freed_under_counted_lookup :
  match Live.run Live.init
          [Live.LoadDb [x01]; Live.Call; Live.LoadDb [x02]; Live.Resume 0] with
  | Some s =>
      Live.freed s = [0]
      /\ Live.pending s 0 = 1%Z
      /\ Live.running s 0 = 1
      /\ Live.lookups s !! 0 = Some (Live.Running 0 (Some 0))
      /\ Live.db s = Some 1
      /\ is_Some (Live.step s (Live.Finish 0))
  | None => False
  end.
Proof.
  destruct (Live.run _ _) as [s|] eqn:Hrun; vm_compute in Hrun; [|done].
  injection Hrun as <-. split_and!; try reflexivity. by eexists.
Qed.

(** Before the count was added, [#loadDb] freed the instance it replaced
    whoever was about to use it. *)
Example loadDb_uncounted_frees :
  match LiveUncounted.run LiveUncounted.init
          [LiveUncounted.LoadDb [x01]; LiveUncounted.Call; LiveUncounted.LoadDb [x02];
           LiveUncounted.Resume 0] with
  | Some s =>
      LiveUncounted.freed s = [0]
      /\ LiveUncounted.lookups s !! 0 = Some (LiveUncounted.Done 0)
  | None => False
  end.
Proof. vm_compute. repeat split. Qed.


(** * Further properties *)

(** ** The hexadecimal digest *)

Lemma hex_digit_code n :
  (n < 16)%N ->
  N_of_ascii (Js.hex_digit n) = (if (n <? 10)%N then 48 + n else 87 + n)%N.
Proof.
  intros Hn. unfold Js.hex_digit.
  destruct (N.ltb_spec n 10); apply N_ascii_embedding; lia.
Qed.

Lemma hex_digit_inj a b :
  (a < 16)%N -> (b < 16)%N -> Js.hex_digit a = Js.hex_digit b -> a = b.
Proof.
  intros Ha Hb Heq. apply (f_equal N_of_ascii) in Heq.
  rewrite !hex_digit_code in Heq by done.
  destruct (N.ltb_spec a 10), (N.ltb_spec b 10); lia.
Qed.

Lemma hex2_inj b1 b2 : Js.hex2 b1 = Js.hex2 b2 -> b1 = b2.
Proof.
  unfold Js.hex2. intros [= H1 H2].
  pose proof (to_N_bounded b1) as B1. pose proof (to_N_bounded b2) as B2.
  assert (Hdiv : forall n, (n <= 255)%N -> (n / 16 < 16)%N)
    by (intros n Hn; apply N.Div0.div_lt_upper_bound; lia).
  assert (Hmod : forall n, (n mod 16 < 16)%N) by (intros n; apply N.mod_lt; lia).
  apply hex_digit_inj in H1; [|by apply Hdiv..].
  apply hex_digit_inj in H2; [|by apply Hmod..].
  assert (Heq : to_N b1 = to_N b2).
  { rewrite (N.div_mod (to_N b1) 16), (N.div_mod (to_N b2) 16) by lia. congruence. }
  pose proof (of_to_N b1) as E1. rewrite Heq, of_to_N in E1. congruence.
Qed.

Lemma append_empty x : x ++ EmptyString = x.
Proof.
  induction x as [|c x IH]; [done|].
  change (String c (x ++ EmptyString) = String c x). by rewrite IH.
Qed.

Lemma join_empty_cons x l : Js.join EmptyString (x :: l) = x ++ Js.join EmptyString l.
Proof.
  unfold Js.join. destruct l as [|y l]; simpl; [by rewrite append_empty | reflexivity].
Qed.

Lemma hex_join_cons b l :
  Js.join EmptyString (map Js.hex2 (b :: l))
  = String (Js.hex_digit (to_N b / 16))
      (String (Js.hex_digit (to_N b mod 16)) (Js.join EmptyString (map Js.hex2 l))).
Proof. rewrite map_cons, join_empty_cons. reflexivity. Qed.

Lemma hex_join_inj l1 : forall l2,
  Js.join EmptyString (map Js.hex2 l1) = Js.join EmptyString (map Js.hex2 l2) -> l1 = l2.
Proof.
  induction l1 as [|b1 l1 IH]; intros [|b2 l2] Heq; [done| | |].
  - rewrite hex_join_cons in Heq. discriminate.
  - rewrite hex_join_cons in Heq. discriminate.
  - rewrite !hex_join_cons in Heq. injection Heq as H1 H2 H3.
    f_equal; [|by apply IH]. apply hex2_inj. unfold Js.hex2. congruence.
Qed.

Lemma hex_join_length l :
  String.length (Js.join EmptyString (map Js.hex2 l)) = 2 * List.length l.
Proof.
  induction l as [|b l IH]; [done|]. rewrite hex_join_cons. simpl. rewrite IH. lia.
Qed.

Lemma hex_digit_is_hex n : (n < 16)%N -> Hex.is_hex (Js.hex_digit n) = true.
Proof.
  intros Hn. unfold Hex.is_hex.
  assert (Hc : nat_of_ascii (Js.hex_digit n) = N.to_nat (if (n <? 10)%N then 48 + n else 87 + n)%N).
  { unfold nat_of_ascii. by rewrite hex_digit_code. }
  rewrite Hc. destruct (N.ltb_spec n 10).
  - apply orb_true_iff. left. apply andb_true_iff. split; apply Nat.leb_le; lia.
  - apply orb_true_iff. right. apply andb_true_iff. split; apply Nat.leb_le; lia.
Qed.

Lemma hex_join_chars l :
  forallb Hex.is_hex (list_ascii_of_string (Js.join EmptyString (map Js.hex2 l))) = true.
Proof.
  induction l as [|b l IH]; [reflexivity|].
  rewrite hex_join_cons. pose proof (to_N_bounded b) as Hb. cbn [list_ascii_of_string forallb].
  rewrite IH, !hex_digit_is_hex; [reflexivity| |].
  - apply N.mod_lt. lia.
  - apply N.Div0.div_lt_upper_bound. lia.
Qed.

(** X1: The hexadecimal text of a digest loses nothing: two buffers have the
    same text exactly when they have the same digest, so comparing the
    texts, as the cycle does, is comparing the digests. *)
Theorem getSha256FromBuffer_equal_iff subtle_digest b1 b2 :
  Fetcher.getSha256FromBuffer subtle_digest b1 = Fetcher.getSha256FromBuffer subtle_digest b2
  <-> subtle_digest b1 = subtle_digest b2.
Proof.
  unfold Fetcher.getSha256FromBuffer. split; [apply hex_join_inj | by intros ->].
Qed.

(** X2: The text of a digest has two characters for each of its bytes, all of
    them digits or lower-case letters from a to f: 64 characters for the
    32 bytes of sha-256, leading zeros kept. *)
Theorem getSha256FromBuffer_format subtle_digest b :
  String.length (Fetcher.getSha256FromBuffer subtle_digest b)
  = 2 * List.length (subtle_digest b)
  /\ forallb Hex.is_hex (list_ascii_of_string (Fetcher.getSha256FromBuffer subtle_digest b)) = true.
Proof.
  unfold Fetcher.getSha256FromBuffer. split; [apply hex_join_length | apply hex_join_chars].
Qed.

(** ** The checkpoint written and read back *)

Lemma digits_string_of_uint d :
  Js.has_non_digit (NilEmpty.string_of_uint d) = false.
Proof. induction d; simpl; auto. Qed.

Lemma digit_not_whitespace c : Js.is_digit c = true -> Js.is_whitespace c = false.
Proof.
  unfold Js.is_digit, Js.is_whitespace. cbv zeta. generalize (nat_of_ascii c). intros n.
  intros [H1%Nat.leb_le H2%Nat.leb_le]%andb_true_iff.
  destruct (Nat.leb_spec 9 n), (Nat.leb_spec n 13), (Nat.eqb_spec n 32),
    (Nat.eqb_spec n 160); simpl; try reflexivity; lia.
Qed.

Lemma trimEnd_digits s : Js.has_non_digit s = false -> Js.trimEnd s = s.
Proof.
  induction s as [|c s IH]; [done|]. simpl. intros [Hc Hs]%orb_false_iff.
  rewrite (IH Hs). apply negb_false_iff in Hc.
  rewrite (digit_not_whitespace c Hc). by destruct s.
Qed.

Lemma trim_digits s : Js.has_non_digit s = false -> Js.trim s = s.
Proof.
  intros Hs. unfold Js.trim.
  assert (Js.trimStart s = s) as ->; [|by apply trimEnd_digits].
  destruct s as [|c s]; [done|]. simpl in *. apply orb_false_iff in Hs as [Hc _].
  apply negb_false_iff in Hc.
  by rewrite (digit_not_whitespace c Hc).
Qed.

Lemma digits_value_acc d : forall acc,
  Js.digits_value (Z.pos acc) (NilEmpty.string_of_uint d) = Z.pos (Pos.of_uint_acc d acc).
Proof.
  induction d; intros acc; simpl; try done;
    cbn [Js.is_digit nat_of_ascii]; simpl; rewrite <- IHd; f_equal;
    repeat match goal with
      | |- context [nat_of_ascii ?c] =>
          let v := eval vm_compute in (nat_of_ascii c) in change (nat_of_ascii c) with v
      end; lia.
Qed.

Lemma digits_value_uint d :
  Js.digits_value 0 (NilEmpty.string_of_uint d) = Z.of_N (Pos.of_uint d).
Proof.
  induction d; simpl; try done; try (rewrite <- digits_value_acc; reflexivity).
Qed.

Lemma string_of_uint_nonnil d :
  d <> Decimal.Nil -> NilZero.string_of_uint d = NilEmpty.string_of_uint d.
Proof. by destruct d. Qed.

Lemma parseInt_digits s :
  s <> EmptyString -> Js.has_non_digit s = false ->
  Js.parseInt s = Some (Js.digits_value 0 s).
Proof.
  destruct s as [|c s]; [done|]. intros _ [Hc _]%orb_false_iff.
  apply negb_false_iff in Hc. unfold Js.parseInt. by rewrite Hc.
Qed.

Lemma string_of_uint_empty d : NilEmpty.string_of_uint d = EmptyString -> d = Decimal.Nil.
Proof. by destruct d. Qed.

Lemma lastChecked_of_String_of n :
  (0 <= n)%Z -> Fetcher.lastChecked_of (Js.String_of n) = Some n.
Proof.
  intros Hn. destruct n as [|p|p]; [reflexivity| |lia].
  unfold Js.String_of, Fetcher.lastChecked_of. simpl.
  pose proof (Unsigned.to_uint_nonnil p) as Hnil.
  rewrite string_of_uint_nonnil by done.
  pose proof (digits_string_of_uint (Pos.to_uint p)) as Hdig.
  rewrite trim_digits, Hdig by done.
  rewrite parseInt_digits; [| |done].
  - by rewrite digits_value_uint, Unsigned.of_to.
  - intros He. by apply string_of_uint_empty in He.
Qed.

Lemma lastChecked_of_String_of_negative n :
  (n < 0)%Z -> Fetcher.lastChecked_of (Js.String_of n) = None.
Proof.
  intros Hn. destruct n as [|p|p]; [lia..|].
  unfold Js.String_of, Fetcher.lastChecked_of. simpl.
  pose proof (Unsigned.to_uint_nonnil p) as Hnil.
  rewrite string_of_uint_nonnil by done.
  pose proof (digits_string_of_uint (Pos.to_uint p)) as Hdig.
  unfold Js.trim. simpl. rewrite (trimEnd_digits _ Hdig).
  destruct (NilEmpty.string_of_uint (Pos.to_uint p)); reflexivity.
Qed.

(** X3: The checkpoint survives the file: what a cycle writes to
    lastChecked.txt, [String(Date.now())], the next cycle reads back as
    the same time, for every time that is a safe integer; a negative
    one, written with a sign, is taken for a corrupt file. *)
Theorem checkpoint_round_trip n :
  (- 2 ^ 53 < n < 2 ^ 53)%Z ->
  Fetcher.lastChecked_of (Js.String_of n) = if (0 <=? n)%Z then Some n else None.
Proof.
  intros _. destruct (Z.leb_spec 0 n).
  - by apply lastChecked_of_String_of.
  - by apply lastChecked_of_String_of_negative.
Qed.

(** ** The name of a database in the archive *)

Lemma substring_whole s : substring 0 (String.length s) s = s.
Proof. induction s as [|c s IH]; [done|]. simpl. by rewrite IH. Qed.

Lemma substring_split n : forall s,
  n <= String.length s ->
  s = substring 0 n s ++ substring n (String.length s - n) s.
Proof.
  induction n as [|n IH]; intros s Hn.
  - rewrite Nat.sub_0_r, substring_whole. by destruct s.
  - destruct s as [|c s]; simpl in Hn; [lia|].
    change (String c s = String c (substring 0 n s ++ substring n (String.length s - n) s)).
    f_equal. apply IH. lia.
Qed.

Lemma substring_append_r p : forall x,
  substring (String.length p) (String.length x) (p ++ x) = x.
Proof.
  induction p as [|c p IH]; intros x.
  - apply substring_whole.
  - apply IH.
Qed.

Lemma length_append_string p : forall x,
  String.length (p ++ x) = String.length p + String.length x.
Proof.
  induction p as [|c p IH]; intros x; [done|].
  change (S (String.length (p ++ x)) = S (String.length p + String.length x)).
  by rewrite IH.
Qed.

(** [endsWith]: the text is something followed by the suffix. *)
Lemma endsWith_iff s suffix :
  Js.endsWith s suffix = true <-> exists p, s = p ++ suffix.
Proof.
  unfold Js.endsWith. cbv zeta. rewrite andb_true_iff, Nat.leb_le, String.eqb_eq. split.
  - intros [Hle Hsub]. exists (substring 0 (String.length s - String.length suffix) s).
    pose proof (substring_split (String.length s - String.length suffix) s) as Hs.
    replace (String.length s - (String.length s - String.length suffix))
      with (String.length suffix) in Hs by lia.
    rewrite Hsub in Hs. apply Hs. lia.
  - intros [p ->]. rewrite length_append_string. split; [lia|].
    replace (String.length p + String.length suffix - String.length suffix)
      with (String.length p) by lia.
    apply substring_append_r.
Qed.

Section Suffix.
Import Fetcher.

(** X4: What the loop takes for a database: an entry with a content is
    written to tempDb.mmdb and kept exactly when its path is some text
    followed by ".mmdb", in lower case and at the very end; any other
    entry with a content is named and cancelled, and what was kept before
    it stays. *)
Theorem visit_entry_takes_mmdb_suffix E dbBuffer entryNames e chunks w :
  readable e = Some chunks ->
  fault_writeTemp E = false ->
  ((exists p, path e = p ++ ".mmdb") ->
   visit_entry E (dbBuffer, entryNames) e w
   = (Normal (Some (List.concat chunks), (entryNames ++ [path e])%list),
      record (WriteTemp (List.concat chunks))
        (set_dbTempFile (Some (List.concat chunks)) w)))
  /\ (~ (exists p, path e = p ++ ".mmdb") ->
      visit_entry E (dbBuffer, entryNames) e w
      = (Normal (dbBuffer, (entryNames ++ [path e])%list), record (Cancel (path e)) w)).
Proof.
  intros Hr Hw. unfold visit_entry. rewrite Hr.
  destruct (Js.endsWith (path e) ".mmdb") eqn:Hends.
  - split; [|intros Hn; destruct Hn; by apply endsWith_iff].
    intros _. cbn. unfold bind, write_dbTemp. by rewrite Hw.
  - split; [|done]. intros Hp%endsWith_iff. congruence.
Qed.

End Suffix.

(** ** The cycle in all its branches *)

Section Anatomy.

Import Fetcher Archive Trace Timer.

Variable subtle_digest : bytes -> bytes.
Variable untar : bytes -> list entry * bool.

Local Abbreviation sha256 := (getSha256FromBuffer subtle_digest).
Local Abbreviation updateDb := (Fetcher.updateDb subtle_digest untar).
Local Abbreviation download := (Fetcher.download subtle_digest untar).

Local Ltac reduce_cycle :=
  cbn -[hash_check_due lastChecked_of Fetcher.download writeTextFile_lastChecked
        serverSha256_of differs Js.truthy].

(** One turn of the loop. *)
Lemma visit_entry_cases E buf names e w :
  visit_entry E (buf, names) e w =
    match readable e with
    | None => (Normal (buf, names), w)
    | Some chunks =>
        if Js.endsWith (path e) ".mmdb" then
          if fault_writeTemp E
          then (Throw (IoFailure "pipeTo"), set_dbTempFile (Some []) w)
          else (Normal (Some (List.concat chunks), (names ++ [path e])%list),
                record (WriteTemp (List.concat chunks))
                  (set_dbTempFile (Some (List.concat chunks)) w))
        else (Normal (buf, (names ++ [path e])%list), record (Cancel (path e)) w)
    end.
Proof.
  unfold visit_entry. destruct (readable e) as [chunks|]; [|reflexivity].
  destruct (Js.endsWith (path e) ".mmdb"); cbn; [|reflexivity].
  unfold bind, write_dbTemp. destruct (fault_writeTemp E); reflexivity.
Qed.

(** The loop when writing tempDb.mmdb does not fail: the buffer kept is
    the last database of the archive, which is also what tempDb.mmdb
    holds. *)
Lemma visit_entries_writes E es :
  fault_writeTemp E = false ->
  forall buf names w,
    let out := visit_entries E (buf, names) es w in
    fst out = Normal (from_option Some buf (last (omap database_of es)),
                      (names ++ map path (List.filter has_readable es))%list)
    /\ trace (snd out) = (trace w ++ omap extraction_effect es)%list
    /\ dbTempFile (snd out) = from_option Some (dbTempFile w) (last (omap database_of es))
    /\ dbFile (snd out) = dbFile w
    /\ lastCheckedFile (snd out) = lastCheckedFile w
    /\ onDbChangeCbs (snd out) = onDbChangeCbs w
    /\ rewritePromise (snd out) = rewritePromise w.
Proof.
  intros Hw. induction es as [|e es IH]; intros buf names w.
  - cbn. rewrite !app_nil_r. auto 10.
  - cbv zeta. cbn [visit_entries]. unfold bind. rewrite visit_entry_cases, Hw.
    assert (Hd : database_of e = match readable e with
                 | Some chunks => if Js.endsWith (path e) ".mmdb"
                                  then Some (List.concat chunks) else None
                 | None => None end) by reflexivity.
    assert (Hx : extraction_effect e = match readable e with
                 | Some chunks => Some (if Js.endsWith (path e) ".mmdb"
                                        then WriteTemp (List.concat chunks)
                                        else Cancel (path e))
                 | None => None end) by reflexivity.
    assert (Hh : has_readable e = match readable e with Some _ => true | None => false end)
      by reflexivity.
    cbn [omap list_omap List.filter map]. rewrite Hd, Hx, Hh. clear Hd Hx Hh.
    destruct (readable e) as [chunks|]; [destruct (Js.endsWith (path e) ".mmdb")|].
    + specialize (IH (Some (List.concat chunks)) (names ++ [path e])%list
                    (record (WriteTemp (List.concat chunks))
                       (set_dbTempFile (Some (List.concat chunks)) w))).
      cbv zeta in IH. destruct IH as (H1 & H2 & H3 & H4 & H5 & H6 & H7).
      rewrite H1, H2, H3, H4, H5, H6, H7. cbn.
      rewrite <- !app_assoc. cbn.
      rewrite last_cons. destruct (last (omap database_of es)); cbn; auto 10.
    + specialize (IH buf (names ++ [path e])%list (record (Cancel (path e)) w)).
      cbv zeta in IH. destruct IH as (H1 & H2 & H3 & H4 & H5 & H6 & H7).
      rewrite H1, H2, H3, H4, H5, H6, H7. cbn. rewrite <- !app_assoc. cbn. auto 10.
    + apply IH.
Qed.

Lemma notifications_app t1 t2 :
  notifications (t1 ++ t2) = (notifications t1 ++ notifications t2)%list.
Proof. apply omap_app. Qed.

Lemma requests_app t1 t2 : requests (t1 ++ t2) = (requests t1 ++ requests t2)%list.
Proof. apply omap_app. Qed.

(** The loop, whatever happens to tempDb.mmdb: it leaves db.mmdb and the
    checkpoint alone, sends no request and calls no callback. *)
Lemma visit_entries_frame E es : forall acc w,
  let out := visit_entries E acc es w in
  dbFile (snd out) = dbFile w
  /\ lastCheckedFile (snd out) = lastCheckedFile w
  /\ onDbChangeCbs (snd out) = onDbChangeCbs w
  /\ rewritePromise (snd out) = rewritePromise w
  /\ notifications (trace (snd out)) = notifications (trace w)
  /\ requests (trace (snd out)) = requests (trace w)
  /\ fst out <> Return.
Proof.
  induction es as [|e es IH]; intros [buf names] w.
  - cbn. auto 10.
  - cbv zeta. cbn [visit_entries]. unfold bind. rewrite visit_entry_cases.
    destruct (readable e) as [chunks|];
      [destruct (Js.endsWith (path e) ".mmdb"); [destruct (fault_writeTemp E)|]|].
    + cbn. auto 10.
    + match goal with |- context [visit_entries E ?a es ?w0] =>
        specialize (IH a w0); cbv zeta in IH; destruct IH as (H1 & H2 & H3 & H4 & H5 & H6 & H7);
        destruct (visit_entries E a es w0) as [[x| |] w1] end;
      cbn in *; rewrite ?notifications_app, ?requests_app, ?app_nil_r in *; auto 10.
    + match goal with |- context [visit_entries E ?a es ?w0] =>
        specialize (IH a w0); cbv zeta in IH; destruct IH as (H1 & H2 & H3 & H4 & H5 & H6 & H7);
        destruct (visit_entries E a es w0) as [[x| |] w1] end;
      cbn in *; rewrite ?notifications_app, ?requests_app, ?app_nil_r in *; auto 10.
    + apply IH.
Qed.

(** The loop when writing tempDb.mmdb fails: it throws at the first
    database of the archive. *)
Lemma visit_entries_write_fails E es :
  fault_writeTemp E = true ->
  forall buf names w,
    let out := visit_entries E (buf, names) es w in
    match omap database_of es with
    | [] => fst out = Normal (buf, (names ++ map path (List.filter has_readable es))%list)
    | _ :: _ => fst out = Throw (IoFailure "pipeTo")
    end.
Proof.
  intros Hw. induction es as [|e es IH]; intros buf names w.
  - cbn. by rewrite app_nil_r.
  - cbv zeta. cbn [visit_entries]. unfold bind. rewrite visit_entry_cases, Hw.
    assert (Hd : database_of e = match readable e with
                 | Some chunks => if Js.endsWith (path e) ".mmdb"
                                  then Some (List.concat chunks) else None
                 | None => None end) by reflexivity.
    assert (Hh : has_readable e = match readable e with Some _ => true | None => false end)
      by reflexivity.
    cbn [omap list_omap List.filter map]. rewrite Hd, Hh. clear Hd Hh.
    destruct (readable e) as [chunks|]; [destruct (Js.endsWith (path e) ".mmdb")|].
    + reflexivity.
    + specialize (IH buf (names ++ [path e])%list (record (Cancel (path e)) w)).
      cbv zeta in IH. cbn [map]. rewrite <- app_assoc in IH. exact IH.
    + apply IH.
Qed.

(** The replacement, once tempDb.mmdb holds the new database. *)
Lemma replace_db_cases E w b :
  dbTempFile w = Some b ->
  let out := replace_db E w in
  fst out = (if fault_remove E then Throw (IoFailure "remove")
             else if fault_rename E then Throw (IoFailure "rename") else Normal tt)
  /\ trace (snd out) =
       (trace w ++ OpenWindow
          :: (if fault_remove E then []
              else (if dbFile w then [Remove] else [])
                     ++ (if fault_rename E then [] else [Rename]))
          ++ [CloseWindow])%list
  /\ dbFile (snd out) = (if fault_remove E then dbFile w
                         else if fault_rename E then None else Some b)
  /\ dbTempFile (snd out) = (if fault_remove E || fault_rename E then Some b else None)
  /\ lastCheckedFile (snd out) = lastCheckedFile w
  /\ onDbChangeCbs (snd out) = onDbChangeCbs w
  /\ rewritePromise (snd out) = false.
Proof.
  intros Ht. unfold replace_db, bind, emit, try_finally, try_catch, remove_db,
    rename_dbTemp_db, ret, throw.
  destruct (fault_remove E); cbn; [rewrite <- !app_assoc; auto 10|].
  destruct (dbFile w) eqn:Hdb; cbn; destruct (fault_rename E); cbn; rewrite ?Ht; cbn;
    rewrite <- ?app_assoc, ?Hdb; auto 10.
Qed.

(** [forEach] over the callbacks: each is called in turn until one
    throws; what it throws is what the loop throws. *)
Lemma notify_cases E cbs s b : forall w,
  let out := notify E cbs s b w in
  fst out = match List.find (cb_throws E) cbs with
            | Some cb => Throw (CallbackThrew cb)
            | None => Normal tt
            end
  /\ trace (snd out) = (trace w ++ map (fun cb => Notify cb s b) (called (cb_throws E) cbs))%list
  /\ dbFile (snd out) = dbFile w
  /\ dbTempFile (snd out) = dbTempFile w
  /\ lastCheckedFile (snd out) = lastCheckedFile w
  /\ onDbChangeCbs (snd out) = onDbChangeCbs w
  /\ rewritePromise (snd out) = rewritePromise w.
Proof.
  induction cbs as [|cb cbs IH]; intros w.
  - cbn. rewrite app_nil_r. auto 10.
  - cbv zeta. cbn [notify List.find called]. unfold bind, emit.
    destruct (cb_throws E cb) eqn:Hcb; [cbn; auto 10|]. cbn [ret].
    specialize (IH (record (Notify cb s b) w)). cbv zeta in IH.
    destruct IH as (H1 & H2 & H3 & H4 & H5 & H6 & H7).
    rewrite H1, H2, H3, H4, H5, H6, H7. cbn. rewrite <- app_assoc.
    destruct (notify E cbs s b (record (Notify cb s b) w)) as [[[]| |] w1]; cbn in *;
      destruct (List.find (cb_throws E) cbs); simplify_eq; auto 10.
Qed.

(** The callbacks called: all of them when none throws, else those
    before the first that throws, and that one. *)
Lemma called_cases throws cbs :
  ((forall cb, cb ∈ cbs -> throws cb = false)
   /\ called throws cbs = cbs /\ List.find throws cbs = None)
  \/ exists before cb after,
       cbs = (before ++ cb :: after)%list
       /\ (forall cb', cb' ∈ before -> throws cb' = false)
       /\ throws cb = true
       /\ called throws cbs = (before ++ [cb])%list
       /\ List.find throws cbs = Some cb.
Proof.
  induction cbs as [|c cbs IH].
  - left. split; [|done]. intros cb Hin. by apply elem_of_nil in Hin.
  - cbn. destruct (throws c) eqn:Hc.
    + right. exists [], c, cbs. split_and!; try done.
      intros cb' Hin. by apply elem_of_nil in Hin.
    + destruct IH as [(Hno & Hall & Hfind)
                     |(before & cb & after & Hsplit & Hbefore & Hcb & Hcalls & Hfind)].
      * left. rewrite Hall, Hfind. split; [|done].
        intros cb [->|Hin]%elem_of_cons; [done|by apply Hno].
      * right. exists (c :: before), cb, after. rewrite Hsplit at 1. rewrite Hcalls, Hfind.
        split_and!; try done.
        intros cb' [->|Hin]%elem_of_cons; [done|by apply Hbefore].
Qed.

(** When no callback of the set throws, all are called. *)
Lemma called_all throws cbs :
  (forall cb, cb ∈ cbs -> throws cb = false) ->
  called throws cbs = cbs /\ List.find throws cbs = None.
Proof.
  induction cbs as [|cb cbs IH]; intros Hno; [done|]. cbn.
  rewrite (Hno cb) by left. destruct IH as [-> ->]; [|done].
  intros cb' Hin. apply Hno. by right.
Qed.

Lemma notifications_notify s b cbs :
  notifications (map (fun cb => Notify cb s b) cbs) = map (fun cb => (cb, s, b)) cbs.
Proof. induction cbs as [|cb cbs IH]; [reflexivity|]. cbn. by f_equal. Qed.

Lemma notifications_extraction es : notifications (omap extraction_effect es) = [].
Proof.
  induction es as [|e es IH]; [reflexivity|]. cbn. unfold extraction_effect at 1.
  destruct (readable e); [|exact IH]. by destruct (Js.endsWith (path e) ".mmdb").
Qed.

Lemma requests_notify s b cbs : requests (map (fun cb => Notify cb s b) cbs) = [].
Proof. by induction cbs. Qed.

Lemma requests_extraction es : requests (omap extraction_effect es) = [].
Proof.
  induction es as [|e es IH]; [reflexivity|]. cbn. unfold extraction_effect at 1.
  destruct (readable e); [|exact IH]. by destruct (Js.endsWith (path e) ".mmdb").
Qed.

(** The branch that fetches a new database, step by step. *)
Lemma download_unfold C E s w :
  download C E s w =
    let w0 := if verbose C
              then record (Log "Downloading new database from Maxmind servers.") w else w in
    let w1 := record (Fetch "tar.gz") w0 in
    match tar_response E with
    | Rejected => (Throw (FetchRejected "tar.gz"), w1)
    | Response false status _ => (Throw (RequestFailed "tar.gz" status), w1)
    | Response true _ tarBuffer =>
        if negb (String.eqb (sha256 tarBuffer) s) then (Throw VerificationFailed, w1)
        else
          match visit_entries E (None, []) (fst (untar tarBuffer)) w1 with
          | (Normal (dbBuffer, entryNames), w2) =>
              if snd (untar tarBuffer) then (Throw StreamFailure, w2)
              else match dbBuffer with
                   | None => (Throw (NoMmdbFound entryNames), w2)
                   | Some b =>
                       match replace_db E w2 with
                       | (Normal _, w3) =>
                           notify E (onDbChangeCbs w3) s b
                             (if verbose C then record (Log "Geoip db updated.") w3 else w3)
                       | (Throw e, w3) => (Throw e, w3)
                       | (Return, w3) => (Return, w3)
                       end
                   end
          | (Throw e, w2) => (Throw e, w2)
          | (Return, w2) => (Return, w2)
          end
    end.
Proof.
  unfold Fetcher.download, maxMindRequest, bind, emit, ret, throw.
  destruct (verbose C); cbn -[visit_entries replace_db notify];
    (destruct (tar_response E) as [|[] status tarBuffer]; [reflexivity| |reflexivity]);
    (destruct (negb (String.eqb (sha256 tarBuffer) s)); [reflexivity|]);
    destruct (untar tarBuffer) as [entries broken]; cbn -[visit_entries replace_db notify];
    (match goal with |- context [visit_entries E ?a entries ?w0] =>
       destruct (visit_entries E a entries w0) as [[[buf names]| |] w2] end; try reflexivity);
    (destruct broken; [reflexivity|]); (destruct buf as [b|]; [|reflexivity]);
    (destruct (replace_db E w2) as [[[]| |] w3]; reflexivity).
Qed.

(** What the loop keeps, when it ends: the last database of the archive,
    which tempDb.mmdb then holds. *)
Lemma visit_entries_kept E es names w b names' w' :
  visit_entries E (None, names) es w = (Normal (Some b, names'), w') ->
  last (omap database_of es) = Some b /\ dbTempFile w' = Some b.
Proof.
  intros Hv. destruct (fault_writeTemp E) eqn:Hw.
  - pose proof (visit_entries_write_fails E es Hw None names w) as H. cbv zeta in H.
    rewrite Hv in H. destruct (omap database_of es); discriminate.
  - pose proof (visit_entries_writes E es Hw None names w) as H. cbv zeta in H.
    rewrite Hv in H. cbn [fst snd] in H. destruct H as (H1 & _ & H3 & _).
    destruct (last (omap database_of es)) as [b'|]; cbn in *; [|discriminate].
    by simplify_eq.
Qed.

(** How the branch that fetches a new database ends. *)
Lemma download_cases C E s w :
  let out := download C E s w in
  lastCheckedFile (snd out) = lastCheckedFile w
  /\ onDbChangeCbs (snd out) = onDbChangeCbs w
  /\ fst out <> Return
  /\ requests (trace (snd out)) = (requests (trace w) ++ ["tar.gz"])%list
  /\ ((dbFile (snd out) = dbFile w
       /\ notifications (trace (snd out)) = notifications (trace w)
       /\ exists e, fst out = Throw e)
      \/ exists status tarBuffer entries b,
           tar_response E = Response true status tarBuffer
           /\ sha256 tarBuffer = s
           /\ untar tarBuffer = (entries, false)
           /\ last (omap database_of entries) = Some b
           /\ fault_remove E = false
           /\ rewritePromise (snd out) = false
           /\ notifications (trace (snd out)) =
                (notifications (trace w) ++
                   (if fault_rename E then []
                    else map (fun cb => (cb, s, b))
                           (called (cb_throws E) (onDbChangeCbs w))))%list
           /\ fst out = (if fault_rename E then Throw (IoFailure "rename")
                         else match List.find (cb_throws E) (onDbChangeCbs w) with
                              | Some cb => Throw (CallbackThrew cb)
                              | None => Normal tt
                              end)
           /\ dbFile (snd out) = (if fault_rename E then None else Some b)
           /\ dbTempFile (snd out) = (if fault_rename E then Some b else None)).
Proof.
  rewrite download_unfold. cbv zeta.
  set (w0 := if verbose C then _ else w).
  assert (Hw0 : lastCheckedFile w0 = lastCheckedFile w /\ onDbChangeCbs w0 = onDbChangeCbs w
                /\ dbFile w0 = dbFile w
                /\ notifications (trace w0) = notifications (trace w)
                /\ requests (trace w0) = requests (trace w)).
  { subst w0. destruct (verbose C); cbn; rewrite ?notifications_app, ?requests_app, ?app_nil_r;
      auto. }
  destruct Hw0 as (L0 & C0 & D0 & N0 & R0). clearbody w0.
  set (w1 := record (Fetch "tar.gz") w0).
  assert (Hw1 : lastCheckedFile w1 = lastCheckedFile w /\ onDbChangeCbs w1 = onDbChangeCbs w
                /\ dbFile w1 = dbFile w
                /\ notifications (trace w1) = notifications (trace w)
                /\ requests (trace w1) = (requests (trace w) ++ ["tar.gz"])%list).
  { subst w1. cbn. rewrite notifications_app, requests_app, N0, R0, app_nil_r. auto. }
  destruct Hw1 as (L1 & C1 & D1 & N1 & R1). clearbody w1. clear w0 L0 C0 D0 N0 R0.
  destruct (tar_response E) as [|[] status tarBuffer] eqn:Htar;
    [cbn; split_and!; [done..|left; eauto]| |cbn; split_and!; [done..|left; eauto]].
  destruct (String.eqb (sha256 tarBuffer) s) eqn:Hsha; cbn [negb];
    [apply String.eqb_eq in Hsha|cbn; split_and!; [done..|left; eauto]].
  destruct (untar tarBuffer) as [entries broken] eqn:Hun. cbn [fst snd].
  pose proof (visit_entries_frame E entries (None, []) w1) as Hf. cbv zeta in Hf.
  destruct (visit_entries E (None, []) entries w1) as [[[buf names]|e|] w2] eqn:Hv;
    cbn [fst snd] in Hf; destruct Hf as (D2 & L2 & C2 & P2 & N2 & R2 & Hret);
    [|cbn; split_and!; [congruence..|left; split_and!; eauto; congruence]|done].
  destruct broken; [cbn; split_and!; [congruence..|left; split_and!; eauto; congruence]|].
  destruct buf as [b|]; [|cbn; split_and!; [congruence..|left; split_and!; eauto; congruence]].
  apply visit_entries_kept in Hv as [Hlast Htemp].
  pose proof (replace_db_cases E w2 b Htemp) as Hr. cbv zeta in Hr.
  destruct Hr as (F3 & T3 & D3 & Tm3 & L3 & C3 & P3).
  destruct (replace_db E w2) as [[[]|e|] w3]; cbn [fst snd] in *.
  - destruct (fault_remove E) eqn:Hrm; [discriminate|].
    destruct (fault_rename E) eqn:Hrn; [discriminate|]. cbn [orb] in Tm3.
    set (w4 := if verbose C then _ else w3).
    assert (Hw4 : lastCheckedFile w4 = lastCheckedFile w3 /\ onDbChangeCbs w4 = onDbChangeCbs w3
                  /\ dbFile w4 = dbFile w3 /\ dbTempFile w4 = dbTempFile w3
                  /\ rewritePromise w4 = rewritePromise w3
                  /\ notifications (trace w4) = notifications (trace w3)
                  /\ requests (trace w4) = requests (trace w3)).
    { subst w4. destruct (verbose C); cbn;
        rewrite ?notifications_app, ?requests_app, ?app_nil_r; auto 10. }
    destruct Hw4 as (L4 & C4 & D4 & Tm4 & P4 & N4 & R4). clearbody w4.
    pose proof (notify_cases E (onDbChangeCbs w3) s b w4) as Hn. cbv zeta in Hn.
    destruct Hn as (F5 & T5 & D5 & Tm5 & L5 & C5 & P5).
    assert (N3 : notifications (trace w3) = notifications (trace w)).
    { rewrite T3, notifications_app, N2, N1.
      destruct (dbFile w2); cbn; by rewrite app_nil_r. }
    assert (R3 : requests (trace w3) = (requests (trace w) ++ ["tar.gz"])%list).
    { rewrite T3, requests_app, R2, R1.
      destruct (dbFile w2); cbn; by rewrite app_nil_r. }
    assert (Cw : onDbChangeCbs w3 = onDbChangeCbs w) by congruence.
    rewrite Cw in *.
    split_and!; [congruence|congruence|rewrite F5; by destruct (List.find _ _)| |].
    + rewrite T5, requests_app, requests_notify, app_nil_r. congruence.
    + right. exists status, tarBuffer, entries, b.
      split_and!; try done; try congruence.
      rewrite T5, notifications_app, notifications_notify. congruence.
  - assert (N3 : notifications (trace w3) = notifications (trace w)).
    { rewrite T3, notifications_app, N2, N1.
      destruct (fault_remove E), (dbFile w2), (fault_rename E); cbn; by rewrite app_nil_r. }
    assert (R3 : requests (trace w3) = (requests (trace w) ++ ["tar.gz"])%list).
    { rewrite T3, requests_app, R2, R1.
      destruct (fault_remove E), (dbFile w2), (fault_rename E); cbn; by rewrite app_nil_r. }
    split_and!; [congruence|congruence|done|done|].
    destruct (fault_remove E) eqn:Hrm; [left; split_and!; eauto; congruence|].
    destruct (fault_rename E) eqn:Hrn; [|discriminate]. cbn [orb] in Tm3.
    right. exists status, tarBuffer, entries, b.
    split_and!; try done. by rewrite app_nil_r.
  - destruct (fault_remove E), (fault_rename E); discriminate.
Qed.

(** The cycle, step by step. *)
Lemma updateDb_unfold C E w :
  updateDb C E w =
    if fault_readLastChecked E then (Throw (IoFailure "readTextFile"), w)
    else if fault_readDb E then (Throw (IoFailure "readFile"), w)
    else
      let checkpoint := writeTextFile_lastChecked E (Js.String_of (now_write E)) in
      if hash_check_due (lastChecked_of (default EmptyString (lastCheckedFile w))) (now_check E)
      then
        let w1 := record (Fetch "tar.gz.sha256") w in
        match sha_response E with
        | Rejected =>
            (if ignoreNetworkErrors C then Normal tt
             else Throw (FetchRejected "tar.gz.sha256"), w1)
        | Response false status _ =>
            (if ignoreNetworkErrors C then Normal tt
             else Throw (RequestFailed "tar.gz.sha256" status), w1)
        | Response true _ body =>
            let s := serverSha256_of body in
            if Js.truthy s && differs s (option_map sha256 (dbFile w))
            then match download C E s w1 with
                 | (Normal _, w2) => checkpoint w2
                 | (Throw e, w2) => (Throw e, w2)
                 | (Return, w2) => (Normal tt, w2)
                 end
            else checkpoint w1
        end
      else checkpoint w.
Proof.
  unfold Fetcher.updateDb, updateDb_body, call, bind, try_catch,
    readTextFile_lastChecked, readFile_db, maxMindRequest, emit, ret, throw, return_.
  destruct (fault_readLastChecked E); [reflexivity|].
  destruct (lastCheckedFile w) as [text|]; cbn [default from_option id is_NotFound];
    (destruct (fault_readDb E); [reflexivity|]);
    destruct (dbFile w) as [local|]; cbn [is_NotFound option_map];
    (destruct (hash_check_due _ _);
     [ destruct (sha_response E) as [|[] status body]; reduce_cycle
     | reduce_cycle ]);
    try (destruct (ignoreNetworkErrors C); reflexivity);
    try (unfold writeTextFile_lastChecked; destruct (fault_writeLastChecked E); reflexivity);
    (match goal with |- context [Js.truthy ?s && differs ?s ?l] =>
       destruct (Js.truthy s && differs s l) end;
     [ match goal with |- context [Fetcher.download ?d ?u C E ?s ?w0] =>
         destruct (Fetcher.download d u C E s w0) as [[[]| |] w2] end; try reflexivity
     | idtac ];
     unfold writeTextFile_lastChecked; destruct (fault_writeLastChecked E); reflexivity).
Qed.

Lemma writeTextFile_lastChecked_cases E text w :
  let out := writeTextFile_lastChecked E text w in
  fst out = (if fault_writeLastChecked E then Throw (IoFailure "writeTextFile") else Normal tt)
  /\ lastCheckedFile (snd out) = (if fault_writeLastChecked E then lastCheckedFile w else Some text)
  /\ trace (snd out) = (trace w ++ if fault_writeLastChecked E then []
                                   else [WriteLastChecked text])%list
  /\ dbFile (snd out) = dbFile w
  /\ dbTempFile (snd out) = dbTempFile w
  /\ onDbChangeCbs (snd out) = onDbChangeCbs w
  /\ rewritePromise (snd out) = rewritePromise w.
Proof.
  unfold writeTextFile_lastChecked. destruct (fault_writeLastChecked E); cbn;
    rewrite ?app_nil_r; auto 10.
Qed.

(** X5: The checkpoint is the last thing a cycle writes: a cycle that throws
    leaves lastChecked.txt as it was, and a cycle that ends without
    throwing has written the time of its end to it, unless it ended on a
    failed digest request that [ignoreNetworkErrors] made it ignore. *)
Theorem updateDb_checkpoint_written_last C E w :
  let out := updateDb C E w in
  (forall e, fst out = Throw e -> lastCheckedFile (snd out) = lastCheckedFile w)
  /\ (fst out = Normal tt ->
      lastCheckedFile (snd out) = Some (Js.String_of (now_write E))
      \/ (ignoreNetworkErrors C = true
          /\ (sha_response E = Rejected
              \/ exists status body, sha_response E = Response false status body)
          /\ snd out = record (Fetch "tar.gz.sha256") w))
  /\ fst out <> Return.
Proof.
  cbv zeta. rewrite updateDb_unfold. cbv zeta.
  pose proof (fun w0 => writeTextFile_lastChecked_cases E (Js.String_of (now_write E)) w0) as Hc.
  cbv zeta in Hc.
  destruct (fault_readLastChecked E); [cbn; split_and!; done|].
  destruct (fault_readDb E); [cbn; split_and!; done|].
  destruct (hash_check_due _ _).
  - destruct (sha_response E) as [|[] status body] eqn:Hsha.
    + destruct (ignoreNetworkErrors C); cbn; split_and!; try done; eauto 10.
    + destruct (Js.truthy _ && differs _ _).
      * pose proof (download_cases C E (serverSha256_of body) (record (Fetch "tar.gz.sha256") w))
          as Hd. cbv zeta in Hd. destruct Hd as (L & _ & Hret & _).
        destruct (download C E _ _) as [[[]|e|] w2]; cbn [fst snd] in *; [|by split_and!|done].
        destruct (Hc w2) as (F & L' & _). rewrite F, L'.
        destruct (fault_writeLastChecked E); split_and!; try done; try (cbn in L; congruence); auto.
      * destruct (Hc (record (Fetch "tar.gz.sha256") w)) as (F & L' & _). rewrite F, L'.
        destruct (fault_writeLastChecked E); split_and!; try done; auto.
    + destruct (ignoreNetworkErrors C); cbn; split_and!; try done; eauto 10.
  - destruct (Hc w) as (F & L' & _). rewrite F, L'.
    destruct (fault_writeLastChecked E); split_and!; try done; auto.
Qed.

Lemma truthy_nonempty s : Js.truthy s = true -> s <> EmptyString.
Proof. by destruct s. Qed.

(** X6: db.mmdb is replaced only by a verified download: whenever a cycle
    leaves db.mmdb other than it found it, both requests were answered,
    the digest of the archive is the non-empty digest the server gave,
    the archive was read to its end, and db.mmdb now holds the last
    database of the archive; or, when the rename failed, db.mmdb is gone,
    that database is still in tempDb.mmdb and the cycle threw. *)
Theorem updateDb_replaces_only_verified C E w :
  let out := updateDb C E w in
  dbFile (snd out) = dbFile w
  \/ exists status body status' tarBuffer entries b,
       sha_response E = Response true status body
       /\ tar_response E = Response true status' tarBuffer
       /\ sha256 tarBuffer = serverSha256_of body
       /\ serverSha256_of body <> EmptyString
       /\ untar tarBuffer = (entries, false)
       /\ last (omap database_of entries) = Some b
       /\ ((fault_rename E = false /\ dbFile (snd out) = Some b
            /\ dbTempFile (snd out) = None)
           \/ (fault_rename E = true /\ dbFile (snd out) = None
               /\ dbTempFile (snd out) = Some b
               /\ fst out = Throw (IoFailure "rename"))).
Proof.
  cbv zeta. rewrite updateDb_unfold. cbv zeta.
  pose proof (fun w0 => writeTextFile_lastChecked_cases E (Js.String_of (now_write E)) w0) as Hc.
  cbv zeta in Hc.
  destruct (fault_readLastChecked E); [by left|].
  destruct (fault_readDb E); [by left|].
  destruct (hash_check_due _ _).
  - destruct (sha_response E) as [|[] status body] eqn:Hsha; [by left| |by left].
    destruct (Js.truthy _ && differs _ _) eqn:Hgo.
    + apply andb_true_iff in Hgo as [Ht%truthy_nonempty _].
      pose proof (download_cases C E (serverSha256_of body) (record (Fetch "tar.gz.sha256") w))
        as Hd. cbv zeta in Hd. destruct Hd as (_ & _ & Hret & _ & Hd).
      destruct (download C E _ _) as [[[]|e|] w2]; cbn [fst snd] in *; [| |done].
      * destruct (Hc w2) as (_ & _ & _ & D & T & _). rewrite D, T.
        destruct Hd as [(Hd & _ & (e & He))|Hd]; [discriminate|].
        destruct Hd as (st & tarBuffer & entries & b & H1 & H2 & H3 & H4 & H5 & H6 & H7 & H8 & H9 & H10).
        destruct (fault_rename E); [discriminate|].
        right. exists status, body, st, tarBuffer, entries, b. split_and!; auto.
      * destruct Hd as [(Hd & _)|Hd]; [by left|].
        destruct Hd as (st & tarBuffer & entries & b & H1 & H2 & H3 & H4 & H5 & H6 & H7 & H8 & H9 & H10).
        destruct (fault_rename E) eqn:Hrn;
          right; exists status, body, st, tarBuffer, entries, b; split_and!; auto.
    + destruct (Hc (record (Fetch "tar.gz.sha256") w)) as (_ & _ & _ & D & _). rewrite D. by left.
  - destruct (Hc w) as (_ & _ & _ & D & _). rewrite D. by left.
Qed.

(** X7: The callbacks are called only for a replacement that went through:
    a cycle calls either no callback, or the callbacks of the set in the
    order of the set, each with the content db.mmdb holds when the cycle
    ends and with the digest of the archive that content came from, and
    with [#rewritePromise] null again: every callback once when none
    throws; else those up to the first that throws, that one included
    and none after it, and then the cycle throws what the callback threw
    and leaves lastChecked.txt as it was. *)
Theorem updateDb_notifies_after_replacement C E w :
  let out := updateDb C E w in
  notifications (trace (snd out)) = notifications (trace w)
  \/ exists status tarBuffer b calls,
       tar_response E = Response true status tarBuffer
       /\ dbFile (snd out) = Some b
       /\ rewritePromise (snd out) = false
       /\ notifications (trace (snd out)) =
            (notifications (trace w)
               ++ map (fun cb => (cb, sha256 tarBuffer, b)) calls)%list
       /\ (((forall cb, cb ∈ onDbChangeCbs w -> cb_throws E cb = false)
            /\ calls = onDbChangeCbs w)
           \/ exists before cb after,
                onDbChangeCbs w = (before ++ cb :: after)%list
                /\ (forall cb', cb' ∈ before -> cb_throws E cb' = false)
                /\ cb_throws E cb = true
                /\ calls = (before ++ [cb])%list
                /\ fst out = Throw (CallbackThrew cb)
                /\ lastCheckedFile (snd out) = lastCheckedFile w).
Proof.
  cbv zeta. rewrite updateDb_unfold. cbv zeta.
  pose proof (fun w0 => writeTextFile_lastChecked_cases E (Js.String_of (now_write E)) w0) as Hc.
  cbv zeta in Hc.
  assert (Hn : forall w0, notifications
                 (trace (snd (writeTextFile_lastChecked E (Js.String_of (now_write E)) w0)))
               = notifications (trace w0)).
  { intros w0. destruct (Hc w0) as (_ & _ & T & _). rewrite T, notifications_app.
    destruct (fault_writeLastChecked E); cbn; by rewrite app_nil_r. }
  assert (Hf : notifications (trace (record (Fetch "tar.gz.sha256") w)) = notifications (trace w)).
  { cbn. by rewrite notifications_app, app_nil_r. }
  destruct (fault_readLastChecked E); [by left|].
  destruct (fault_readDb E); [by left|].
  destruct (hash_check_due _ _).
  - destruct (sha_response E) as [|[] status body] eqn:Hsha; [by left| |by left].
    destruct (Js.truthy _ && differs _ _) eqn:Hgo.
    + pose proof (download_cases C E (serverSha256_of body) (record (Fetch "tar.gz.sha256") w))
        as Hd. cbv zeta in Hd. destruct Hd as (L & _ & Hret & _ & Hd).
      pose proof (called_cases (cb_throws E) (onDbChangeCbs w)) as Hcalled.
      change (onDbChangeCbs (record (Fetch "tar.gz.sha256") w)) with (onDbChangeCbs w) in Hd.
      destruct (download C E _ _) as [[[]|e|] w2]; cbn [fst snd] in *; [| |done].
      * destruct (Hc w2) as (_ & _ & _ & D & _ & _ & P). rewrite Hn, D, P.
        destruct Hd as [(_ & _ & (e & He))|Hd]; [discriminate|].
        destruct Hd as (st & tarBuffer & entries & b & H1 & H2 & H3 & H4 & H5 & H6 & H7 & H8 & H9 & H10).
        destruct (fault_rename E); [discriminate|].
        destruct Hcalled as [(Hno & Hall & Hfind)
                            |(before & cb & after & _ & _ & _ & _ & Hfind)];
          rewrite Hfind in H8; [|discriminate].
        right. exists st, tarBuffer, b, (onDbChangeCbs w). split_and!; auto.
        rewrite H7, Hf, H2, Hall. reflexivity.
      * destruct Hd as [(_ & Hd & _)|Hd]; [left; congruence|].
        destruct Hd as (st & tarBuffer & entries & b & H1 & H2 & H3 & H4 & H5 & H6 & H7 & H8 & H9 & H10).
        destruct (fault_rename E) eqn:Hrn; [left; rewrite H7, app_nil_r; exact Hf|].
        destruct Hcalled as [(Hno & Hall & Hfind)
                            |(before & cb & after & Hsplit & Hbefore & Hcb & Hcalls & Hfind)];
          rewrite Hfind in H8; [discriminate|].
        right. exists st, tarBuffer, b, (before ++ [cb])%list. split_and!; auto.
        -- rewrite H7, Hf, H2, Hcalls. reflexivity.
        -- right. exists before, cb, after. split_and!; auto.
    + left. by rewrite Hn.
  - left. by rewrite Hn.
Qed.

(** X8: What a cycle asks the server: nothing when it does not get as far as
    the digest request; else the digest, and after it the archive exactly
    when the digest answered is not empty and differs from the digest of
    db.mmdb (or db.mmdb is absent). *)
Theorem updateDb_requests C E w :
  requests (trace (snd (updateDb C E w))) =
    (requests (trace w) ++
       if asks_server E w then
         "tar.gz.sha256" ::
           match sha_response E with
           | Response true _ body =>
               if Js.truthy (serverSha256_of body)
                  && differs (serverSha256_of body) (option_map sha256 (dbFile w))
               then ["tar.gz"] else []
           | _ => []
           end
       else [])%list.
Proof.
  rewrite updateDb_unfold. cbv zeta. unfold asks_server.
  pose proof (fun w0 => writeTextFile_lastChecked_cases E (Js.String_of (now_write E)) w0) as Hc.
  cbv zeta in Hc.
  assert (Hn : forall w0, requests
                 (trace (snd (writeTextFile_lastChecked E (Js.String_of (now_write E)) w0)))
               = requests (trace w0)).
  { intros w0. destruct (Hc w0) as (_ & _ & T & _). rewrite T, requests_app.
    destruct (fault_writeLastChecked E); cbn; by rewrite app_nil_r. }
  destruct (fault_readLastChecked E); [cbn; by rewrite app_nil_r|].
  destruct (fault_readDb E); [cbn; by rewrite app_nil_r|]. cbn [negb andb].
  destruct (hash_check_due _ _); [|by rewrite Hn, app_nil_r].
  destruct (sha_response E) as [|[] status body] eqn:Hsha;
    [cbn; by rewrite requests_app| |cbn; by rewrite requests_app].
  destruct (Js.truthy _ && differs _ _) eqn:Hgo; [|rewrite Hn; cbn; by rewrite requests_app].
  pose proof (download_cases C E (serverSha256_of body) (record (Fetch "tar.gz.sha256") w))
    as Hd. cbv zeta in Hd. destruct Hd as (_ & _ & Hret & R & _).
  destruct (download C E _ _) as [[[]|e|] w2]; cbn [fst snd] in *; [| |done];
    rewrite ?Hn, R; cbn; rewrite requests_app, <- app_assoc; reflexivity.
Qed.

(** A cycle that finds a checkpoint not older than the interval. *)
Lemma updateDb_not_due C E w text t :
  fault_readLastChecked E = false ->
  fault_readDb E = false ->
  lastCheckedFile w = Some text ->
  lastChecked_of text = Some t ->
  (now_check E - t <= HASH_CHECK_UPDATE_INTERVAL_MS)%Z ->
  updateDb C E w = writeTextFile_lastChecked E (Js.String_of (now_write E)) w.
Proof.
  intros Hf1 Hf2 Hfile Htext Hle. rewrite updateDb_unfold, Hf1, Hf2, Hfile. cbv zeta.
  cbn [default from_option id]. rewrite Htext. unfold hash_check_due.
  destruct (Z.ltb_spec HASH_CHECK_UPDATE_INTERVAL_MS (now_check E - t)); [lia|reflexivity].
Qed.

(** X9: The throttle: a cycle that finds in lastChecked.txt a time not more
    than an hour before its own (an hour exactly included) sends no
    request and touches neither db.mmdb nor tempDb.mmdb; all it does is
    write its own time to lastChecked.txt. *)
Theorem updateDb_recently_checked C E w text t :
  fault_readLastChecked E = false ->
  fault_readDb E = false ->
  lastCheckedFile w = Some text ->
  lastChecked_of text = Some t ->
  (now_check E - t <= 60 * 60 * 1000)%Z ->
  let out := updateDb C E w in
  trace (snd out) =
    (trace w ++ if fault_writeLastChecked E then []
                else [WriteLastChecked (Js.String_of (now_write E))])%list
  /\ dbFile (snd out) = dbFile w
  /\ dbTempFile (snd out) = dbTempFile w
  /\ lastCheckedFile (snd out) =
       (if fault_writeLastChecked E then lastCheckedFile w
        else Some (Js.String_of (now_write E)))
  /\ fst out = (if fault_writeLastChecked E then Throw (IoFailure "writeTextFile")
                else Normal tt).
Proof.
  intros Hf1 Hf2 Hfile Htext Hle out. subst out.
  rewrite (updateDb_not_due C E w text t Hf1 Hf2 Hfile Htext Hle).
  destruct (writeTextFile_lastChecked_cases E (Js.String_of (now_write E)) w)
    as (F & L & T & D & Tm & _). auto.
Qed.

(** X10: The checkpoint moves with every cycle, so cycles that follow one
    another within the interval never get to ask the server: from a
    checkpoint written by [String(Date.now())], cycles that each begin no
    more than an hour after the one before wrote its checkpoint all end
    normally having done nothing but write the checkpoint again. *)
Theorem ticks_within_interval_never_ask C Es : forall w t,
  lastCheckedFile w = Some (Js.String_of t) ->
  (0 <= t < 2 ^ 53)%Z ->
  within_interval t Es ->
  let out := ticks subtle_digest untar C Es w in
  fst out = Normal tt
  /\ trace (snd out) =
       (trace w ++ map (fun E => WriteLastChecked (Js.String_of (now_write E))) Es)%list
  /\ requests (trace (snd out)) = requests (trace w)
  /\ dbFile (snd out) = dbFile w
  /\ dbTempFile (snd out) = dbTempFile w.
Proof.
  induction Es as [|E Es IH]; intros w t Hfile [Ht Ht'] Hin.
  - cbn. rewrite app_nil_r. auto.
  - destruct Hin as (Hle & Hnow & Hf1 & Hf2 & Hf3 & Hin). cbv zeta.
    cbn [ticks]. unfold bind.
    rewrite (updateDb_not_due C E w _ t Hf1 Hf2 Hfile (lastChecked_of_String_of t Ht) Hle).
    unfold writeTextFile_lastChecked. rewrite Hf3.
    match goal with |- context [ticks _ _ C Es ?w0] =>
      specialize (IH w0 (now_write E) eq_refl Hnow Hin) end.
    cbv zeta in IH. destruct IH as (F & T & R & D & Tm).
    rewrite F, R, T, D, Tm. cbn. rewrite <- app_assoc, requests_app. cbn.
    rewrite app_nil_r. auto.
Qed.

(** A cycle that installs a new database, from the digest request to the
    checkpoint. *)
Lemma updateDb_installs C E w status body status' tarBuffer entries b :
  asks_server E w = true ->
  sha_response E = Response true status body ->
  Js.truthy (serverSha256_of body) = true ->
  differs (serverSha256_of body) (option_map sha256 (dbFile w)) = true ->
  tar_response E = Response true status' tarBuffer ->
  sha256 tarBuffer = serverSha256_of body ->
  untar tarBuffer = (entries, false) ->
  last (omap database_of entries) = Some b ->
  fault_writeTemp E = false ->
  fault_remove E = false ->
  fault_rename E = false ->
  fault_writeLastChecked E = false ->
  (forall cb, cb ∈ onDbChangeCbs w -> cb_throws E cb = false) ->
  let out := updateDb C E w in
  fst out = Normal tt
  /\ dbFile (snd out) = Some b
  /\ dbTempFile (snd out) = None
  /\ lastCheckedFile (snd out) = Some (Js.String_of (now_write E))
  /\ rewritePromise (snd out) = false
  /\ onDbChangeCbs (snd out) = onDbChangeCbs w
  /\ trace (snd out) =
       (trace w ++ [Fetch "tar.gz.sha256"]
          ++ (if verbose C then [Log "Downloading new database from Maxmind servers."] else [])
          ++ [Fetch "tar.gz"]
          ++ omap extraction_effect entries
          ++ [OpenWindow] ++ (if dbFile w then [Remove] else []) ++ [Rename; CloseWindow]
          ++ (if verbose C then [Log "Geoip db updated."] else [])
          ++ map (fun cb => Notify cb (serverSha256_of body) b) (onDbChangeCbs w)
          ++ [WriteLastChecked (Js.String_of (now_write E))])%list.
Proof.
  intros Hasks Hsha Ht Hd Htar Heq Hun Hlast Hw Hrm Hrn Hwl Hno. cbv zeta.
  apply asks_server_true in Hasks as (Hf1 & Hf2 & Hdue).
  rewrite updateDb_unfold, Hf1, Hf2, Hdue, Hsha. cbv zeta. rewrite Ht, Hd. cbn [andb].
  rewrite download_unfold, Htar. cbv zeta.
  apply String.eqb_eq in Heq. rewrite Heq, Hun. cbn [negb fst snd].
  set (w1 := record (Fetch "tar.gz") _).
  pose proof (visit_entries_writes E entries Hw None [] w1) as Hv. cbv zeta in Hv.
  rewrite Hlast in Hv. cbn [from_option] in Hv.
  destruct Hv as (V1 & V2 & V3 & V4 & V5 & V6 & V7).
  destruct (visit_entries E (None, []) entries w1) as [r w2]. cbn [fst snd] in *. subst r.
  pose proof (replace_db_cases E w2 b V3) as Hr. cbv zeta in Hr.
  rewrite Hrm, Hrn in Hr. cbn [orb] in Hr. destruct Hr as (R1 & R2 & R3 & R4 & R5 & R6 & R7).
  destruct (replace_db E w2) as [r w3]. cbn [fst snd] in *. subst r.
  set (w4 := if verbose C then _ else w3).
  assert (W4 : dbFile w4 = dbFile w3 /\ dbTempFile w4 = dbTempFile w3
               /\ onDbChangeCbs w4 = onDbChangeCbs w3 /\ rewritePromise w4 = rewritePromise w3
               /\ trace w4 = (trace w3 ++ if verbose C then [Log "Geoip db updated."] else [])%list).
  { subst w4. destruct (verbose C); cbn; rewrite ?app_nil_r; auto. }
  destruct W4 as (W1 & W2 & W3 & W5 & W6). clearbody w4.
  assert (T1 : trace w1 = (trace w ++ [Fetch "tar.gz.sha256"]
            ++ (if verbose C then [Log "Downloading new database from Maxmind servers."] else [])
            ++ [Fetch "tar.gz"])%list
          /\ dbFile w1 = dbFile w /\ onDbChangeCbs w1 = onDbChangeCbs w).
  { subst w1. destruct (verbose C); cbn; rewrite <- ?app_assoc; auto. }
  destruct T1 as (T1 & D1 & C1). clearbody w1.
  assert (Cw : onDbChangeCbs w3 = onDbChangeCbs w) by congruence.
  destruct (called_all (cb_throws E) (onDbChangeCbs w) Hno) as [Hall Hfind].
  pose proof (notify_cases E (onDbChangeCbs w3) (serverSha256_of body) b w4) as Hn.
  cbv zeta in Hn. rewrite Cw, Hall, Hfind in Hn.
  destruct Hn as (N1 & N2 & N3 & N4 & N5 & N6 & N7). rewrite Cw.
  destruct (notify _ _ _ _ w4) as [r w5]. cbn [fst snd] in *. subst r.
  unfold writeTextFile_lastChecked. rewrite Hwl. cbn.
  split_and!; try done; try congruence.
  rewrite N2, W6, R2, V2, T1, V4, D1.
  rewrite <- !app_assoc. cbn. rewrite <- !app_assoc. reflexivity.
Qed.

(** X11: An update that goes through: when the digest answered differs from
    that of db.mmdb, the archive has that digest and no file operation
    fails, the cycle ends normally; db.mmdb holds the last database of
    the archive (an entry with a content whose name ends in .mmdb),
    tempDb.mmdb is gone, lastChecked.txt holds the time of the end, and
    the effects are, in this order: the two requests, every entry with a
    content written to tempDb.mmdb or cancelled, the replacement under
    the rewrite promise, one call of each callback, the checkpoint,
    provided that no callback of the set throws. *)
Theorem updateDb_installs_last_database C E w status body status' tarBuffer entries b :
  asks_server E w = true ->
  sha_response E = Response true status body ->
  Js.truthy (serverSha256_of body) = true ->
  differs (serverSha256_of body) (option_map sha256 (dbFile w)) = true ->
  tar_response E = Response true status' tarBuffer ->
  sha256 tarBuffer = serverSha256_of body ->
  untar tarBuffer = (entries, false) ->
  last (omap database_of entries) = Some b ->
  fault_writeTemp E = false ->
  fault_remove E = false ->
  fault_rename E = false ->
  fault_writeLastChecked E = false ->
  (forall cb, cb ∈ onDbChangeCbs w -> cb_throws E cb = false) ->
  let out := updateDb C E w in
  fst out = Normal tt
  /\ dbFile (snd out) = Some b
  /\ dbTempFile (snd out) = None
  /\ lastCheckedFile (snd out) = Some (Js.String_of (now_write E))
  /\ trace (snd out) =
       (trace w ++ [Fetch "tar.gz.sha256"]
          ++ (if verbose C then [Log "Downloading new database from Maxmind servers."] else [])
          ++ [Fetch "tar.gz"]
          ++ omap extraction_effect entries
          ++ [OpenWindow] ++ (if dbFile w then [Remove] else []) ++ [Rename; CloseWindow]
          ++ (if verbose C then [Log "Geoip db updated."] else [])
          ++ map (fun cb => Notify cb (serverSha256_of body) b) (onDbChangeCbs w)
          ++ [WriteLastChecked (Js.String_of (now_write E))])%list.
Proof.
  intros Hasks Hsha Ht Hd Htar Heq Hun Hlast Hw Hrm Hrn Hwl Hno.
  destruct (updateDb_installs C E w status body status' tarBuffer entries b
              Hasks Hsha Ht Hd Htar Heq Hun Hlast Hw Hrm Hrn Hwl Hno)
    as (H1 & H2 & H3 & H4 & _ & _ & H7).
  cbv zeta. auto.
Qed.

Lemma requests_installed (v : bool) (old : option bytes) l1 l2 es cbs s b text :
  requests
    ([Fetch "tar.gz.sha256"] ++ (if v then [Log l1] else []) ++ [Fetch "tar.gz"]
       ++ omap extraction_effect es
       ++ [OpenWindow] ++ (if old then [Remove] else []) ++ [Rename; CloseWindow]
       ++ (if v then [Log l2] else [])
       ++ map (fun cb => Notify cb s b) cbs ++ [WriteLastChecked text])%list
  = ["tar.gz.sha256"; "tar.gz"].
Proof.
  rewrite !requests_app, requests_extraction, requests_notify.
  by destruct v, old.
Qed.

Lemma notifications_installed (v : bool) (old : option bytes) l1 l2 es cbs s b text :
  notifications
    ([Fetch "tar.gz.sha256"] ++ (if v then [Log l1] else []) ++ [Fetch "tar.gz"]
       ++ omap extraction_effect es
       ++ [OpenWindow] ++ (if old then [Remove] else []) ++ [Rename; CloseWindow]
       ++ (if v then [Log l2] else [])
       ++ map (fun cb => Notify cb s b) cbs ++ [WriteLastChecked text])%list
  = map (fun cb => (cb, s, b)) cbs.
Proof.
  rewrite !notifications_app, notifications_extraction, notifications_notify.
  destruct v, old; cbn; by rewrite app_nil_r.
Qed.

(** X12: The digest the cycle compares with the server's is that of db.mmdb,
    which holds the database taken out of the archive, while the server's
    is that of the archive.  So a cycle that installs a database is
    followed, once the interval has passed and the server still offers
    the same archive, by a cycle that installs it again, unless the
    digest of the database happens to be that of the archive: two cycles,
    twice the two requests, and, no callback throwing, every callback
    called twice with the same content. *)
Theorem ticks_install_the_same_archive_again
    C E1 E2 w status body status' tarBuffer entries b :
  asks_server E1 w = true ->
  sha_response E1 = Response true status body ->
  Js.truthy (serverSha256_of body) = true ->
  differs (serverSha256_of body) (option_map sha256 (dbFile w)) = true ->
  tar_response E1 = Response true status' tarBuffer ->
  sha256 tarBuffer = serverSha256_of body ->
  untar tarBuffer = (entries, false) ->
  last (omap database_of entries) = Some b ->
  fault_writeTemp E1 = false -> fault_remove E1 = false ->
  fault_rename E1 = false -> fault_writeLastChecked E1 = false ->
  sha_response E2 = sha_response E1 ->
  tar_response E2 = tar_response E1 ->
  fault_readLastChecked E2 = false -> fault_readDb E2 = false ->
  fault_writeTemp E2 = false -> fault_remove E2 = false ->
  fault_rename E2 = false -> fault_writeLastChecked E2 = false ->
  (0 <= now_write E1 < 2 ^ 53)%Z ->
  (60 * 60 * 1000 < now_check E2 - now_write E1)%Z ->
  subtle_digest b <> subtle_digest tarBuffer ->
  (forall cb, cb ∈ onDbChangeCbs w -> cb_throws E1 cb = false /\ cb_throws E2 cb = false) ->
  let out := ticks subtle_digest untar C [E1; E2] w in
  fst out = Normal tt
  /\ dbFile (snd out) = Some b
  /\ requests (trace (snd out)) =
       (requests (trace w) ++ ["tar.gz.sha256"; "tar.gz"; "tar.gz.sha256"; "tar.gz"])%list
  /\ notifications (trace (snd out)) =
       (notifications (trace w)
          ++ map (fun cb => (cb, sha256 tarBuffer, b)) (onDbChangeCbs w)
          ++ map (fun cb => (cb, sha256 tarBuffer, b)) (onDbChangeCbs w))%list.
Proof.
  intros Hasks Hsha Ht Hd Htar Heq Hun Hlast Hw Hrm Hrn Hwl
    Hsha2 Htar2 Hf1 Hf2 Hw2 Hrm2 Hrn2 Hwl2 Hnow Hdue Hne Hno. cbv zeta.
  cbn [ticks]. unfold bind, ret.
  destruct (updateDb_installs C E1 w status body status' tarBuffer entries b
              Hasks Hsha Ht Hd Htar Heq Hun Hlast Hw Hrm Hrn Hwl
              (fun cb Hin => proj1 (Hno cb Hin)))
    as (F1 & D1 & _ & L1 & _ & C1 & T1).
  destruct (updateDb C E1 w) as [r1 w1]. cbn [fst snd] in *. subst r1.
  assert (Hasks2 : asks_server E2 w1 = true).
  { unfold asks_server. rewrite Hf1, Hf2, L1. cbn [negb andb default from_option id].
    rewrite (lastChecked_of_String_of _ (proj1 Hnow)). unfold hash_check_due.
    apply Z.ltb_lt. exact Hdue. }
  assert (Hd2 : differs (serverSha256_of body) (option_map sha256 (dbFile w1)) = true).
  { rewrite D1. cbn [option_map differs]. apply negb_true_iff, String.eqb_neq.
    rewrite <- Heq. intros Hsame. apply Hne. symmetry. by apply hex_join_inj. }
  rewrite Hsha in Hsha2. rewrite Htar in Htar2.
  assert (Hno2 : forall cb, cb ∈ onDbChangeCbs w1 -> cb_throws E2 cb = false).
  { intros cb Hin. rewrite C1 in Hin. by destruct (Hno cb Hin). }
  destruct (updateDb_installs C E2 w1 status body status' tarBuffer entries b
              Hasks2 Hsha2 Ht Hd2 Htar2 Heq Hun Hlast Hw2 Hrm2 Hrn2 Hwl2 Hno2)
    as (F2 & D2 & _ & _ & _ & _ & T2).
  destruct (updateDb C E2 w1) as [r2 w2]. cbn [fst snd] in *. subst r2.
  cbn [fst snd]. split_and!; [done|done| |].
  - rewrite T2, requests_app, requests_installed, T1, requests_app, requests_installed.
    by rewrite <- app_assoc.
  - rewrite T2, notifications_app, notifications_installed, T1, notifications_app,
      notifications_installed, C1, Heq. by rewrite <- app_assoc.
Qed.

(** A cycle that gets as far as the digest request sends it first. *)
Lemma updateDb_asks_first C E w :
  asks_server E w = true ->
  exists rest,
    requests (trace (snd (updateDb C E w)))
    = (requests (trace w) ++ "tar.gz.sha256" :: rest)%list.
Proof.
  intros (Hf1 & Hf2 & Hdue)%asks_server_true.
  rewrite updateDb_unfold, Hf1, Hf2, Hdue. cbv zeta.
  assert (Hn : forall w0, requests
                 (trace (snd (writeTextFile_lastChecked E (Js.String_of (now_write E)) w0)))
               = requests (trace w0)).
  { intros w0.
    destruct (writeTextFile_lastChecked_cases E (Js.String_of (now_write E)) w0)
      as (_ & _ & T & _). rewrite T, requests_app.
    destruct (fault_writeLastChecked E); cbn; by rewrite app_nil_r. }
  destruct (sha_response E) as [|[] status body];
    [exists []; cbn; by rewrite requests_app| |exists []; cbn; by rewrite requests_app].
  destruct (Js.truthy _ && differs _ _); [|exists []; rewrite Hn; cbn; by rewrite requests_app].
  pose proof (download_cases C E (serverSha256_of body) (record (Fetch "tar.gz.sha256") w))
    as Hd. cbv zeta in Hd. destruct Hd as (_ & _ & Hret & R & _).
  exists ["tar.gz"].
  destruct (download C E _ _) as [[[]|e|] w2]; cbn [fst snd] in *; [| |done];
    rewrite ?Hn, R; cbn; rewrite requests_app, <- app_assoc; reflexivity.
Qed.

(** X13: A checkpoint that cannot be read as a time does not hold the cycle
    back: when lastChecked.txt is absent, blank, or holds anything but
    digits between its leading and trailing white space, the cycle asks
    the server for the digest whatever the clock says. *)
Theorem updateDb_unreadable_checkpoint_asks C E w :
  fault_readLastChecked E = false ->
  fault_readDb E = false ->
  (lastCheckedFile w = None
   \/ exists text, lastCheckedFile w = Some text
                   /\ (Js.trim text = EmptyString \/ Js.has_non_digit (Js.trim text) = true)) ->
  exists rest,
    requests (trace (snd (updateDb C E w)))
    = (requests (trace w) ++ "tar.gz.sha256" :: rest)%list.
Proof.
  intros Hf1 Hf2 Hfile.
  assert (Hasks : asks_server E w = true).
  { unfold asks_server. rewrite Hf1, Hf2. cbn [negb andb].
    destruct Hfile as [-> | (text & -> & Htext)]; [reflexivity|].
    cbn [default from_option id]. unfold lastChecked_of. cbv zeta.
    destruct Htext as [-> | ->]; reflexivity. }
  by apply updateDb_asks_first.
Qed.

(** X14: A digest request that fails, by a rejected [fetch] or by a status
    that is not ok: with [ignoreNetworkErrors] the cycle returns at once,
    without it the failure is thrown; either way the request is all the
    cycle has done: no archive request, no file touched, no checkpoint. *)
Theorem updateDb_digest_request_fails C E w :
  asks_server E w = true ->
  (sha_response E = Rejected \/ exists status body, sha_response E = Response false status body) ->
  let out := updateDb C E w in
  snd out = record (Fetch "tar.gz.sha256") w
  /\ fst out =
       (if ignoreNetworkErrors C then Normal tt
        else Throw match sha_response E with
                   | Response _ status _ => RequestFailed "tar.gz.sha256" status
                   | Rejected => FetchRejected "tar.gz.sha256"
                   end).
Proof.
  intros Hasks Hsha. cbv zeta.
  apply asks_server_true in Hasks as (Hf1 & Hf2 & Hdue).
  rewrite updateDb_unfold, Hf1, Hf2, Hdue. cbv zeta.
  destruct Hsha as [-> | (status & body & ->)]; cbn [fst snd];
    (split; [reflexivity|]); by destruct (ignoreNetworkErrors C).
Qed.

End Anatomy.

(** ** [onDbChange] and the callbacks *)

Section ApiFacts.
Import Fetcher Api Trace.

Lemma onDbChange_cbs cb w :
  onDbChangeCbs (onDbChange cb w)
  = if bool_decide (cb ∈ onDbChangeCbs w) then onDbChangeCbs w
    else (onDbChangeCbs w ++ [cb])%list.
Proof. unfold onDbChange. by destruct (bool_decide _). Qed.

Lemma onDbChange_fold regs : forall w,
  NoDup (onDbChangeCbs w) ->
  let w' := foldl (fun w cb => onDbChange cb w) w regs in
  NoDup (onDbChangeCbs w')
  /\ (forall cb, cb ∈ onDbChangeCbs w' <-> cb ∈ onDbChangeCbs w \/ cb ∈ regs)
  /\ trace w' = trace w /\ dbFile w' = dbFile w.
Proof.
  induction regs as [|cb regs IH]; intros w Hnd; cbv zeta.
  - cbn. split; [done|]. split; [|done]. intros cb. rewrite elem_of_nil. tauto.
  - cbn [foldl]. specialize (IH (onDbChange cb w)). cbv zeta in IH.
    destruct IH as (H1 & H2 & H3 & H4).
    { rewrite onDbChange_cbs. destruct (bool_decide_reflect (cb ∈ onDbChangeCbs w)); [done|].
      apply NoDup_app. split; [done|]. split; [|apply NoDup_singleton].
      by intros x Hx ->%list_elem_of_singleton. }
    split; [done|]. split.
    + intros cb'. rewrite H2, onDbChange_cbs, elem_of_cons.
      destruct (bool_decide_reflect (cb ∈ onDbChangeCbs w)).
      * split; [tauto|]. intros [?|[->|?]]; auto.
      * rewrite elem_of_app, list_elem_of_singleton. tauto.
    + rewrite H3, H4. unfold onDbChange. by destruct (bool_decide _).
Qed.

(** The order of the set is the order of the first registrations: a
    callback ahead of another in the set was registered before the other
    ever was. *)
Lemma onDbChange_fold_order regs : forall w,
  onDbChangeCbs w = [] ->
  forall i j cb1 cb2,
    onDbChangeCbs (foldl (fun w cb => onDbChange cb w) w regs) !! i = Some cb1 ->
    onDbChangeCbs (foldl (fun w cb => onDbChange cb w) w regs) !! j = Some cb2 ->
    i < j ->
    exists i', regs !! i' = Some cb1 /\ forall j', regs !! j' = Some cb2 -> i' < j'.
Proof.
  induction regs as [|x regs IH] using rev_ind; intros w Hempty i j cb1 cb2 Hi Hj Hlt.
  - cbn in Hi. by rewrite Hempty in Hi.
  - rewrite foldl_snoc, onDbChange_cbs in Hi, Hj.
    destruct (onDbChange_fold regs w) as (_ & Hmem & _).
    { rewrite Hempty. apply NoDup_nil_2. }
    cbv zeta in Hmem.
    assert (Hin : forall cb, cb ∈ onDbChangeCbs (foldl (fun w cb => onDbChange cb w) w regs)
                             <-> cb ∈ regs).
    { intros cb. rewrite Hmem, Hempty, elem_of_nil. tauto. }
    assert (Hold : forall i0 j0,
              onDbChangeCbs (foldl (fun w cb => onDbChange cb w) w regs) !! i0 = Some cb1 ->
              onDbChangeCbs (foldl (fun w cb => onDbChange cb w) w regs) !! j0 = Some cb2 ->
              i0 < j0 ->
              exists i', (regs ++ [x])%list !! i' = Some cb1
                         /\ forall j', (regs ++ [x])%list !! j' = Some cb2 -> i' < j').
    { intros i0 j0 Hi0 Hj0 Hlt0.
      destruct (IH w Hempty i0 j0 cb1 cb2 Hi0 Hj0 Hlt0) as (i' & Hi' & Hfirst).
      exists i'. split; [by apply lookup_app_l_Some|].
      intros j' [[_ Hj']|[Hlen _]]%lookup_snoc_Some; [by apply Hfirst|].
      apply lookup_lt_Some in Hi'. lia. }
    destruct (bool_decide_reflect
                (x ∈ onDbChangeCbs (foldl (fun w cb => onDbChange cb w) w regs))) as [Hx|Hx];
      [by eapply Hold|].
    apply lookup_snoc_Some in Hj as [(Hjl & Hj)|(Hjl & <-)].
    + apply lookup_snoc_Some in Hi as [(_ & Hi)|(Hil & _)]; [by eapply Hold|lia].
    + apply lookup_snoc_Some in Hi as [(_ & Hi)|(Hil & _)]; [|lia].
      apply list_elem_of_lookup_2, Hin, list_elem_of_lookup_1 in Hi as (i' & Hi').
      exists i'. split; [by apply lookup_app_l_Some|].
      intros j' [[_ Hj']|[Hlen _]]%lookup_snoc_Some.
      * destruct Hx. apply Hin. by eapply list_elem_of_lookup_2.
      * apply lookup_lt_Some in Hi'. lia.
Qed.

(** X15: Registering a callback again changes nothing: after any sequence of
    calls of [onDbChange] on a new object, the set holds each callback
    registered once, in the order of the first registrations (a callback
    ahead of another in the set was registered before the other ever
    was); and the callbacks then called for a new database, when none of
    them throws, are those, each once, in that order. *)
Theorem onDbChange_registers_once regs w :
  onDbChangeCbs w = [] ->
  let w' := foldl (fun w cb => onDbChange cb w) w regs in
  NoDup (onDbChangeCbs w')
  /\ (forall cb, cb ∈ onDbChangeCbs w' <-> cb ∈ regs)
  /\ (forall i j cb1 cb2,
        onDbChangeCbs w' !! i = Some cb1 -> onDbChangeCbs w' !! j = Some cb2 -> i < j ->
        exists i', regs !! i' = Some cb1 /\ forall j', regs !! j' = Some cb2 -> i' < j')
  /\ (forall cb, onDbChange cb (onDbChange cb w') = onDbChange cb w')
  /\ (forall E s b,
        (forall cb, cb ∈ regs -> cb_throws E cb = false) ->
        notifications (trace (snd (notify E (onDbChangeCbs w') s b w')))
        = (notifications (trace w) ++ map (fun cb => (cb, s, b)) (onDbChangeCbs w'))%list).
Proof.
  intros Hempty. cbv zeta.
  destruct (onDbChange_fold regs w) as (H1 & H2 & H3 & H4).
  { rewrite Hempty. apply NoDup_nil_2. }
  cbv zeta in *.
  assert (Hin : forall cb, cb ∈ onDbChangeCbs (foldl (fun w0 cb0 => onDbChange cb0 w0) w regs)
                           <-> cb ∈ regs).
  { intros cb. rewrite H2, Hempty, elem_of_nil. tauto. }
  split; [done|]. split; [done|]. split; [by apply onDbChange_fold_order|]. split.
  - intros cb. unfold onDbChange at 1.
    destruct (bool_decide_reflect (cb ∈ onDbChangeCbs (onDbChange cb
                (foldl (fun w0 cb0 => onDbChange cb0 w0) w regs)))) as [|Hn]; [done|].
    destruct Hn. rewrite onDbChange_cbs.
    destruct (bool_decide_reflect (cb ∈ onDbChangeCbs
                (foldl (fun w0 cb0 => onDbChange cb0 w0) w regs))); [done|].
    apply elem_of_app. right. by apply list_elem_of_singleton.
  - intros E s b Hno.
    destruct (notify_cases E (onDbChangeCbs (foldl (fun w0 cb0 => onDbChange cb0 w0) w regs))
                s b (foldl (fun w0 cb0 => onDbChange cb0 w0) w regs)) as (_ & T & _).
    destruct (called_all (cb_throws E)
                (onDbChangeCbs (foldl (fun w0 cb0 => onDbChange cb0 w0) w regs))) as [Hall _].
    { intros cb Hcb. by apply Hno, Hin. }
    by rewrite T, Hall, notifications_app, notifications_notify, H3.
Qed.

End ApiFacts.

(** ** The handle of the loaded database: what is freed, and when *)

Section LiveAccounts.
Import Live.

(** [#loadDb] and the finally of [#useDb] keep every instance accounted
    for: it is [#db], it has been freed, or it is put aside. *)
Lemma live_accounted_step s e s' :
  (forall d, d < List.length (instances s) ->
             db s = Some d \/ d ∈ freed s \/ d ∈ discardedDbs s) ->
  (forall d, db s = Some d -> S d = List.length (instances s)) ->
  step s e = Some s' ->
  (forall d, d < List.length (instances s') ->
             db s' = Some d \/ d ∈ freed s' \/ d ∈ discardedDbs s')
  /\ (forall d, db s' = Some d -> S d = List.length (instances s')).
Proof.
  intros Hacc Hnew Hstep. destruct e as [b| |t|t]; simpl in Hstep.
  - simplify_eq. unfold loadDb.
    destruct (db s) as [d0|] eqn:Hdb; [destruct (0 <? pending s d0)%Z|]; simpl;
      rewrite length_app; simpl; (split; [|intros d [= <-]; lia]); intros d Hd;
      (destruct (decide (d = List.length (instances s))) as [->|Hne]; [by left|]);
      (destruct (Hacc d ltac:(lia)) as [Hc|[Hf|Hx]]; simplify_eq).
    + right; right. apply elem_of_union. left. by apply elem_of_singleton.
    + by right; left.
    + right; right. apply elem_of_union. by right.
    + right; left. apply elem_of_app. right. by apply list_elem_of_singleton.
    + right; left. apply elem_of_app. by left.
    + by right; right.
    + by right; left.
    + by right; right.
  - simplify_eq. simpl. by split.
  - destruct (lookups s !! t) as [[p cur| |]|] eqn:Ht; try done.
    destruct (value s p) as [d0|] eqn:Hv; simplify_eq. simpl. by split.
  - destruct (lookups s !! t) as [[|d0 cur|]|] eqn:Ht; simplify_eq. simpl.
    unfold release.
    destruct (pending s d0 - 1 <=? 0)%Z;
      [destruct (bool_decide (d0 ∈ discardedDbs (set_pending d0 (pending s d0 - 1) s))) eqn:Hin|];
      simpl; (split; [|done]); try done.
    intros d Hd. destruct (Hacc d Hd) as [Hc|[Hf|Hx]]; [by left| |].
    + right; left. apply elem_of_app. by left.
    + destruct (decide (d = d0)) as [->|Hne].
      * right; left. apply elem_of_app. right. by apply list_elem_of_singleton.
      * right; right. apply elem_of_difference. split; [done|].
        by intros ?%elem_of_singleton.
Qed.

Lemma live_accounted_run evs : forall s0 s,
  (forall d, d < List.length (instances s0) ->
             db s0 = Some d \/ d ∈ freed s0 \/ d ∈ discardedDbs s0) ->
  (forall d, db s0 = Some d -> S d = List.length (instances s0)) ->
  run s0 evs = Some s ->
  (forall d, d < List.length (instances s) ->
             db s = Some d \/ d ∈ freed s \/ d ∈ discardedDbs s)
  /\ (forall d, db s = Some d -> S d = List.length (instances s)).
Proof.
  induction evs as [|e evs IH]; intros s0 s Hacc Hnew Hrun; simpl in Hrun.
  - by simplify_eq.
  - destruct (step s0 e) as [s1|] eqn:Hstep; [|done].
    destruct (live_accounted_step _ _ _ Hacc Hnew Hstep) as [Hacc1 Hnew1].
    by eapply IH.
Qed.

(** X16: No instance leaks: in every state the handle reaches, each instance
    ever constructed is [#db], has been freed, or is put aside and held
    by a call of [#useDb] that is not through; [#db] is the instance
    constructed last.  So an instance that has been replaced and that no
    call holds has been freed. *)
Theorem replaced_instance_freed_once_unused evs s :
  run init evs = Some s ->
  (forall d, d < List.length (instances s) ->
             db s = Some d \/ d ∈ freed s \/ (d ∈ discardedDbs s /\ 0 < running s d))
  /\ (forall d, db s = Some d -> S d = List.length (instances s))
  /\ (forall d, d < List.length (instances s) -> db s <> Some d -> running s d = 0 ->
                d ∈ freed s).
Proof.
  intros Hrun. pose proof (live_Inv_reachable _ _ Hrun) as HI.
  destruct (live_accounted_run evs init s) as [Hacc Hnew]; [simpl; lia|done|done|].
  assert (H1 : forall d, d < List.length (instances s) ->
             db s = Some d \/ d ∈ freed s \/ (d ∈ discardedDbs s /\ 0 < running s d)).
  { intros d Hd. destruct (Hacc d Hd) as [?|[?|Hx]]; [by left|by right; left|].
    right; right. split; [done|]. by destruct (L_discarded _ HI d Hx) as (_ & ? & _). }
  split; [done|]. split; [done|].
  intros d Hd Hne Hzero. destruct (H1 d Hd) as [?|[?|[_ ?]]]; [done|done|lia].
Qed.

(** X17: The count kept for an instance is the number of calls of [#useDb]
    that hold it: past their increment and not through their finally.  It
    is never negative. *)
Theorem pending_counts_the_holders evs s d :
  run init evs = Some s ->
  pending s d = Z.of_nat (running s d) /\ (0 <= pending s d)%Z.
Proof.
  intros Hrun. pose proof (L_count _ (live_Inv_reachable _ _ Hrun) d) as Hc.
  split; [done|lia].
Qed.

(** X18: A call of [#useDb] is counted only once its await of [#dbPromise] is
    over.  When [#loadDb] runs between the call and the end of that await,
    the instance the promise holds is freed at once if no other call holds
    it, and the call then goes on with the freed instance. *)
Theorem awaiting_call_not_counted evs s t p cur d dbBuffer :
  run init evs = Some s ->
  lookups s !! t = Some (Awaiting p cur) ->
  value s p = Some d ->
  db s = Some d ->
  running s d = 0 ->
  exists s', run s [LoadDb dbBuffer; Resume t] = Some s'
             /\ d ∈ freed s'
             /\ db s' <> Some d
             /\ lookups s' !! t = Some (Running d cur).
Proof.
  intros Hrun Ht Hv Hdb Hzero. pose proof (live_Inv_reachable _ _ Hrun) as HI.
  pose proof (L_count _ HI d) as Hc. rewrite Hzero in Hc.
  pose proof (L_db _ HI d Hdb) as Hlt.
  assert (Hi2 : initialPromiseResolved s = false -> initialValue s = None)
    by (intros H; by destruct (L_initial _ HI H)).
  set (s1 := loadDb dbBuffer s).
  assert (Hs1 : s1 = publish dbBuffer (tryFreeDb d s)).
  { unfold s1, loadDb. by rewrite Hdb, Hc. }
  assert (Hl : lookups s1 = lookups s) by (by rewrite Hs1).
  assert (Hv1 : value s1 p = Some d) by (rewrite Hs1; by apply publish_value).
  assert (Hstep1 : step s (LoadDb dbBuffer) = Some s1) by reflexivity.
  assert (Hf1 : freed s1 = (freed s ++ [d])%list) by (by rewrite Hs1).
  assert (Hd1 : db s1 = Some (List.length (instances s))) by (by rewrite Hs1).
  clearbody s1.
  exists (set_lookups (<[t := Running d cur]> (lookups s1))
            (set_pending d (pending s1 d + 1) s1)).
  split; [|split; [|split]].
  - cbn [run]. rewrite Hstep1. cbn [step]. by rewrite Hl, Ht, Hv1.
  - cbn. rewrite Hf1. apply elem_of_app. right. by apply list_elem_of_singleton.
  - cbn. rewrite Hd1. intros [=]. lia.
  - cbn. rewrite Hl. apply list_lookup_insert_eq. by eapply lookup_lt_Some.
Qed.

(** The first load: [#dbPromise] stays the promise created with the
    object until the first [#loadDb], which resolves it with the first
    instance. *)
Lemma live_initial_step s e s' :
  initialPromiseResolved s = (if instances s is [] then false else true) ->
  initialValue s = (if instances s is [] then None else Some 0) ->
  step s e = Some s' ->
  initialPromiseResolved s' = (if instances s' is [] then false else true)
  /\ initialValue s' = (if instances s' is [] then None else Some 0).
Proof.
  intros Hres Hiv Hstep. destruct e as [b| |t|t]; simpl in Hstep.
  - simplify_eq. unfold loadDb.
    destruct (db s) as [d0|]; [destruct (0 <? pending s d0)%Z|]; simpl;
      rewrite Hres, Hiv; by destruct (instances s).
  - by simplify_eq.
  - destruct (lookups s !! t) as [[p cur| |]|] eqn:Ht; try done.
    destruct (value s p) as [d0|] eqn:Hv; by simplify_eq.
  - destruct (lookups s !! t) as [[|d0 cur|]|] eqn:Ht; simplify_eq. simpl.
    unfold release.
    destruct (pending s d0 - 1 <=? 0)%Z;
      [destruct (bool_decide (d0 ∈ discardedDbs (set_pending d0 (pending s d0 - 1) s)))|];
      by simpl.
Qed.

Lemma live_initial_run evs : forall s0 s,
  initialPromiseResolved s0 = (if instances s0 is [] then false else true) ->
  initialValue s0 = (if instances s0 is [] then None else Some 0) ->
  run s0 evs = Some s ->
  initialPromiseResolved s = (if instances s is [] then false else true)
  /\ initialValue s = (if instances s is [] then None else Some 0).
Proof.
  induction evs as [|e evs IH]; intros s0 s Hres Hiv Hrun; simpl in Hrun.
  - by simplify_eq.
  - destruct (step s0 e) as [s1|] eqn:Hstep; [|done].
    destruct (live_initial_step _ _ _ Hres Hiv Hstep) as [Hres1 Hiv1].
    by eapply IH.
Qed.

(** X19: Lookups made before the first database is loaded wait for it: a call
    of [#useDb] that awaits the promise created with the object cannot go
    on while no instance has been constructed, and once one has, it goes
    on with the first instance, however many loads have followed. *)
Theorem lookups_wait_for_first_load evs s t cur :
  run init evs = Some s ->
  lookups s !! t = Some (Awaiting Initial cur) ->
  (instances s = [] -> step s (Resume t) = None)
  /\ (instances s <> [] ->
      exists s', step s (Resume t) = Some s'
                 /\ lookups s' !! t = Some (Running 0 cur)
                 /\ pending s' 0 = (pending s 0 + 1)%Z).
Proof.
  intros Hrun Ht.
  destruct (live_initial_run evs init s) as [Hres Hiv]; [done..|].
  split.
  - intros Hnil. rewrite Hnil in Hiv. simpl. by rewrite Ht; simpl; rewrite Hiv.
  - intros Hne. destruct (instances s) eqn:Hins; [done|].
    simpl. rewrite Ht. simpl. rewrite Hiv. eexists. split; [reflexivity|]. simpl.
    split.
    + apply list_lookup_insert_eq. by eapply lookup_lt_Some.
    + unfold pending. simpl. by rewrite lookup_insert_eq.
Qed.

End LiveAccounts.

Section UncountedFacts.
Import LiveUncounted.

Lemma uncounted_step s e s' :
  freed s = seq 0 (pred (List.length (instances s))) ->
  db s = (if instances s is [] then None else Some (pred (List.length (instances s)))) ->
  step s e = Some s' ->
  freed s' = seq 0 (pred (List.length (instances s')))
  /\ db s' = (if instances s' is [] then None else Some (pred (List.length (instances s')))).
Proof.
  intros Hf Hdb Hstep. destruct e as [b| |t]; simpl in Hstep.
  - simplify_eq. unfold loadDb. simpl. rewrite length_app, Hdb, Hf. simpl.
    destruct (instances s) as [|x l] eqn:Hins; simpl; [done|].
    rewrite Nat.add_1_r. simpl. split.
    + change (0 :: seq 1 (List.length l)) with (seq 0 (S (List.length l))).
      by rewrite seq_S.
    + by destruct (l ++ [b])%list eqn:Hl; [destruct l|].
  - by simplify_eq.
  - destruct (lookups s !! t) as [[p|]|] eqn:Ht; try done.
    destruct (value s p) as [d0|] eqn:Hv; by simplify_eq.
Qed.

(** X20: The class of LiveMaxMindDb.ts frees on every load: in every state it
    reaches, the instances freed are all the instances constructed but
    the last, each once and in the order of their construction, whether a
    lookup still awaits them or not; [#db] is the last. *)
Theorem uncounted_loadDb_frees_all_but_last evs s :
  run init evs = Some s ->
  freed s = seq 0 (pred (List.length (instances s)))
  /\ db s = (if instances s is [] then None else Some (pred (List.length (instances s)))).
Proof.
  assert (Hall : forall evs s0 s,
            freed s0 = seq 0 (pred (List.length (instances s0))) ->
            db s0 = (if instances s0 is [] then None
                     else Some (pred (List.length (instances s0)))) ->
            run s0 evs = Some s ->
            freed s = seq 0 (pred (List.length (instances s)))
            /\ db s = (if instances s is [] then None
                       else Some (pred (List.length (instances s))))).
  { clear evs s. induction evs as [|e evs IH]; intros s0 s Hf Hdb Hrun; simpl in Hrun.
    - by simplify_eq.
    - destruct (step s0 e) as [s1|] eqn:Hstep; [|done].
      destruct (uncounted_step _ _ _ Hf Hdb Hstep) as [Hf1 Hdb1].
      by eapply IH. }
  intros Hrun. by apply (Hall evs init s).
Qed.

End UncountedFacts.

(** ** db.mmdb and the calls of [getDbBuffer] between replacements *)

Section GatePresence.
Import Gate.
Variable db0 : option bytes.

(** While no rename fails, db.mmdb is missing only between the removal
    and the rename of a replacement. *)
Lemma gate_present_step s e s' :
  Inv db0 s ->
  (dbFile s = None -> exists c p b, cycles s !! c = Some (Renaming p b)) ->
  (forall c, e <> RenameDone c true) ->
  step s e = Some s' ->
  dbFile s' = None -> exists c p b, cycles s' !! c = Some (Renaming p b).
Proof.
  intros HI HK Hne Hstep Hnone.
  assert (Hkeep : forall c' x y,
            cycles s !! c' = Some x -> (forall p b, x <> Renaming p b) ->
            dbFile s = None ->
            exists c p b, <[c' := y]> (cycles s) !! c = Some (Renaming p b)).
  { intros c' x y Hc' Hx Hn. destruct (HK Hn) as (c & p & b & Hc).
    exists c, p, b. rewrite list_lookup_insert_ne; [done|].
    intros ->. rewrite Hc in Hc'. simplify_eq. by eapply Hx. }
  destruct e as [|c content|c partial|c thrown|c|c fault|c fault|c| |r|r fault];
    simpl in Hstep.
  - destruct (updateIsRunning s); simplify_eq; [by apply HK|]. simpl in *.
    destruct (HK Hnone) as (c & p & b & Hc). exists c, p, b.
    by apply lookup_app_l_Some.
  - destruct (cycles s !! c) as [[?| | | |]|] eqn:Hc; simplify_eq. simpl in *.
    by eapply Hkeep.
  - destruct (cycles s !! c) as [[?| | | |]|] eqn:Hc; simplify_eq. simpl in *.
    by eapply Hkeep.
  - destruct (cycles s !! c) as [[?| | | |]|] eqn:Hc; simplify_eq.
    destruct (thrown || negb (bool_decide (is_Some dbBuffer))); simplify_eq. simpl in *.
    by eapply Hkeep.
  - destruct (cycles s !! c) as [[[?|]| | | |]|] eqn:Hc; simplify_eq. simpl in *.
    by eapply Hkeep.
  - destruct (cycles s !! c) as [[?| | | |]|] eqn:Hc; simplify_eq.
    destruct fault; simplify_eq; simpl in *.
    + by eapply Hkeep.
    + exists c, p, dbBuffer. apply list_lookup_insert_eq. by eapply lookup_lt_Some.
  - destruct (cycles s !! c) as [[?| | | |]|] eqn:Hc; simplify_eq.
    destruct fault; [by destruct (Hne c)|].
    rewrite (I_temp _ _ HI c _ dbBuffer Hc eq_refl) in Hstep. by simplify_eq.
  - destruct (cycles s !! c) as [[?| | | |]|] eqn:Hc; simplify_eq. simpl in *.
    by eapply Hkeep.
  - simplify_eq. by apply HK.
  - destruct (readers s !! r) as [[g|g|g ?|g]|]; simplify_eq.
    destruct (settled s g); simplify_eq. by apply HK.
  - destruct (readers s !! r) as [[g|g|g ?|g]|]; simplify_eq. by apply HK.
Qed.

Lemma gate_present_run evs : forall s0 s,
  Inv db0 s0 ->
  (dbFile s0 = None -> exists c p b, cycles s0 !! c = Some (Renaming p b)) ->
  (forall c, RenameDone c true ∉ evs) ->
  run s0 evs = Some s ->
  dbFile s = None -> exists c p b, cycles s !! c = Some (Renaming p b).
Proof.
  induction evs as [|e evs IH]; intros s0 s HI HK Hne Hrun; simpl in Hrun.
  - by simplify_eq.
  - destruct (step s0 e) as [s1|] eqn:Hstep; [|done].
    eapply (IH s1); [by eapply gate_Inv_step| |intros c Hin; apply (Hne c); by right|done].
    eapply gate_present_step; eauto. intros c ->. apply (Hne c). by left.
Qed.

(** X21: db.mmdb does not go missing outside a replacement: when the directory
    held a database at the start and no rename has failed, db.mmdb is
    absent only while a cycle is between its removal and its rename, with
    the rewrite promise pending; whenever [#rewritePromise] is [null] the
    file is there. *)
Theorem db_missing_only_inside_replacement evs s :
  run (init db0) evs = Some s ->
  is_Some db0 ->
  (forall c, RenameDone c true ∉ evs) ->
  (dbFile s = None ->
   exists c p b, cycles s !! c = Some (Renaming p b) /\ rewritePromise s = Some p)
  /\ (rewritePromise s = None -> is_Some (dbFile s)).
Proof.
  intros Hrun [b0 Hb0] Hne. pose proof (gate_Inv_reachable _ _ _ Hrun) as HI.
  assert (HK : dbFile s = None ->
               exists c p b, cycles s !! c = Some (Renaming p b) /\ rewritePromise s = Some p).
  { intros Hnone.
    destruct (gate_present_run evs (init db0) s) as (c & p & b & Hc); try done.
    - apply gate_Inv_init.
    - simpl. by rewrite Hb0.
    - exists c, p, b. split; [done|]. by apply (I_open _ _ HI c (Renaming p b) p). }
  split; [done|]. intros Hclosed.
  destruct (dbFile s) eqn:Hdb; [done|].
  destruct (HK eq_refl) as (c & p & b & _ & Hopen). congruence.
Qed.

(** X22: A call of [getDbBuffer] waits for one replacement at most: it awaits
    the promise that was stored when it was made, so once that promise is
    no longer the stored one the call can go on, also while a later
    replacement has its own promise pending; and a call that found
    [null] can go on at any time. *)
Theorem getDbBuffer_waits_for_one_window evs s r g :
  run (init db0) evs = Some s ->
  readers s !! r = Some (Waiting g) ->
  (g = None \/ rewritePromise s <> g) ->
  exists s', step s (Resume r) = Some s' /\ readers s' !! r = Some (Reading g).
Proof.
  intros Hrun Hr Hg. pose proof (gate_Inv_reachable _ _ _ Hrun) as HI.
  assert (Hs : settled s g = true).
  { destruct g as [p|]; [|done]. simpl. apply bool_decide_eq_true.
    destruct Hg as [|Hne]; [done|].
    destruct (I_created _ _ HI p) as [|Hopen]; [|done|congruence].
    by eapply (I_gate _ _ HI r (Waiting (Some p))). }
  simpl. rewrite Hr, Hs. eexists. split; [reflexivity|]. simpl.
  apply list_lookup_insert_eq. by eapply lookup_lt_Some.
Qed.

End GatePresence.

(** ** The statements of this part on concrete runs *)

(** The checkpoint written at 1700000000123 is read back as that time. *)
Lemma checkpoint_round_trip_witness :
  Fetcher.lastChecked_of (Js.String_of 1700000000123) = Some 1700000000123%Z.
Proof. exact (checkpoint_round_trip 1700000000123 (conj eq_refl eq_refl)). Defined.

(** The throttle on a checkpoint exactly one hour old. *)
Lemma updateDb_recently_checked_witness :
  let out := Fetcher.updateDb Scenario.digest Scenario.with_mmdb Scenario.strict
               (Scenario.answers (Fetcher.Response true 200 Scenario.hash_line)
                                 (Fetcher.Response true 200 Scenario.archive))
               (Scenario.storage (Some "1699996400000") None) in
  Fetcher.trace (snd out) = [Fetcher.WriteLastChecked "1700000000123"]
  /\ Fetcher.dbFile (snd out) = None
  /\ fst out = Fetcher.Normal tt.
Proof.
  destruct (updateDb_recently_checked Scenario.digest Scenario.with_mmdb Scenario.strict
              (Scenario.answers (Fetcher.Response true 200 Scenario.hash_line)
                                (Fetcher.Response true 200 Scenario.archive))
              (Scenario.storage (Some "1699996400000") None)
              "1699996400000" 1699996400000 eq_refl eq_refl eq_refl eq_refl)
    as (Htrace & Hdb & _ & _ & Hout).
  - vm_compute. discriminate.
  - repeat split; assumption.
Defined.

(** Seven cycles ten minutes apart, after a checkpoint written at
    1700000000000: seventy minutes without a request. *)
Lemma ticks_within_interval_never_ask_witness :
  let sha := Fetcher.Response true 200 Scenario.hash_line in
  let tar := Fetcher.Response true 200 Scenario.archive in
  let out := Timer.ticks Scenario.digest Scenario.with_mmdb Scenario.strict
               (map (fun now => Later.answers_at now sha tar)
                  [1700000600000; 1700001200000; 1700001800000; 1700002400000;
                   1700003000000; 1700003600000; 1700004200000]%Z)
               (Scenario.storage (Some "1700000000000") None) in
  fst out = Fetcher.Normal tt
  /\ Trace.requests (Fetcher.trace (snd out)) = []
  /\ Fetcher.dbFile (snd out) = None.
Proof.
  intros sha tar.
  destruct (ticks_within_interval_never_ask Scenario.digest Scenario.with_mmdb Scenario.strict
              (map (fun now => Later.answers_at now sha tar)
                 [1700000600000; 1700001200000; 1700001800000; 1700002400000;
                  1700003000000; 1700003600000; 1700004200000]%Z)
              (Scenario.storage (Some "1700000000000") None) 1700000000000 eq_refl)
    as (Hout & _ & Hreq & Hdb & _).
  - split; [vm_compute; discriminate | reflexivity].
  - cbn; repeat split; try reflexivity; vm_compute; discriminate.
  - repeat split; assumption.
Defined.

(** An update on an empty directory: the database of the archive is
    installed and the callback is called with it. *)
Lemma updateDb_installs_last_database_witness :
  let out := Fetcher.updateDb Scenario.digest Scenario.with_mmdb Scenario.strict
               (Scenario.answers (Fetcher.Response true 200 Scenario.hash_line)
                                 (Fetcher.Response true 200 Scenario.archive))
               (Scenario.storage None None) in
  fst out = Fetcher.Normal tt
  /\ Fetcher.dbFile (snd out) = Some [x01; x02; x03]
  /\ Fetcher.dbTempFile (snd out) = None
  /\ Fetcher.trace (snd out)
     = [Fetcher.Fetch "tar.gz.sha256"; Fetcher.Fetch "tar.gz";
        Fetcher.Cancel "GeoLite2-Country_20240101/LICENSE.txt";
        Fetcher.WriteTemp [x01; x02; x03];
        Fetcher.OpenWindow; Fetcher.Rename; Fetcher.CloseWindow;
        Fetcher.Notify 0 "abc123" [x01; x02; x03];
        Fetcher.WriteLastChecked "1700000000123"].
Proof.
  destruct (updateDb_installs_last_database Scenario.digest Scenario.with_mmdb Scenario.strict
              (Scenario.answers (Fetcher.Response true 200 Scenario.hash_line)
                                (Fetcher.Response true 200 Scenario.archive))
              (Scenario.storage None None) 200 Scenario.hash_line 200 Scenario.archive
              (fst (Scenario.with_mmdb Scenario.archive)) [x01; x02; x03]
              eq_refl eq_refl eq_refl eq_refl eq_refl eq_refl eq_refl eq_refl
              eq_refl eq_refl eq_refl eq_refl (fun _ _ => eq_refl))
    as (Hout & Hdb & Htmp & _ & Htrace).
  repeat split; assumption.
Defined.

(** The second of three callbacks throws: the database is installed,
    the first two callbacks are called and the third is not, the cycle
    throws what the callback threw and writes no checkpoint. *)
Example updateDb_second_callback_throws :
  let E := {| Fetcher.now_check := 1700000000000; Fetcher.now_write := 1700000000123;
              Fetcher.sha_response := Fetcher.Response true 200 Scenario.hash_line;
              Fetcher.tar_response := Fetcher.Response true 200 Scenario.archive;
              Fetcher.fault_readLastChecked := false; Fetcher.fault_readDb := false;
              Fetcher.fault_writeTemp := false; Fetcher.fault_remove := false;
              Fetcher.fault_rename := false; Fetcher.fault_writeLastChecked := false;
              Fetcher.cb_throws := Nat.eqb 1 |} in
  let w := Api.onDbChange 2 (Api.onDbChange 1 (Scenario.storage None None)) in
  let out := Fetcher.updateDb Scenario.digest Scenario.with_mmdb Scenario.strict E w in
  Fetcher.onDbChangeCbs w = [0; 1; 2]
  /\ fst out = Fetcher.Throw (Fetcher.CallbackThrew 1)
  /\ Fetcher.dbFile (snd out) = Some [x01; x02; x03]
  /\ Fetcher.lastCheckedFile (snd out) = None
  /\ Trace.notifications (Fetcher.trace (snd out))
     = [(0, "abc123", [x01; x02; x03]); (1, "abc123", [x01; x02; x03])].
Proof. vm_compute. repeat split. Qed.

(** The same archive installed twice: the second cycle begins more than
    an hour after the first and finds in db.mmdb the database [01 02 03],
    whose digest is not that of the archive [ab c1 23]. *)
Lemma ticks_install_the_same_archive_again_witness :
  let sha := Fetcher.Response true 200 Scenario.hash_line in
  let tar := Fetcher.Response true 200 Scenario.archive in
  let out := Timer.ticks Scenario.digest Scenario.with_mmdb Scenario.strict
               [Later.answers_at 1700000000000 sha tar; Later.answers_at 1700003600001 sha tar]
               (Scenario.storage None None) in
  fst out = Fetcher.Normal tt
  /\ Fetcher.dbFile (snd out) = Some [x01; x02; x03]
  /\ Trace.requests (Fetcher.trace (snd out))
     = ["tar.gz.sha256"; "tar.gz"; "tar.gz.sha256"; "tar.gz"]
  /\ Trace.notifications (Fetcher.trace (snd out))
     = [(0, "abc123", [x01; x02; x03]); (0, "abc123", [x01; x02; x03])].
Proof.
  intros sha tar.
  destruct (ticks_install_the_same_archive_again Scenario.digest Scenario.with_mmdb
              Scenario.strict
              (Later.answers_at 1700000000000 sha tar) (Later.answers_at 1700003600001 sha tar)
              (Scenario.storage None None) 200 Scenario.hash_line 200 Scenario.archive
              (fst (Scenario.with_mmdb Scenario.archive)) [x01; x02; x03]
              eq_refl eq_refl eq_refl eq_refl eq_refl eq_refl eq_refl eq_refl
              eq_refl eq_refl eq_refl eq_refl eq_refl eq_refl
              eq_refl eq_refl eq_refl eq_refl eq_refl eq_refl)
    as (Hout & Hdb & Hreq & Hnot).
  - split; [vm_compute; discriminate | reflexivity].
  - reflexivity.
  - discriminate.
  - intros cb _. split; reflexivity.
  - repeat split; assumption.
Defined.

(** A checkpoint that holds a letter, on a clock that is one millisecond
    past the number before the letter. *)
Lemma updateDb_unreadable_checkpoint_asks_witness :
  exists rest,
    Trace.requests
      (Fetcher.trace
         (snd (Fetcher.updateDb Scenario.digest Scenario.with_mmdb Scenario.strict
                 (Scenario.answers (Fetcher.Response true 200 EmptyString) Fetcher.Rejected)
                 (Scenario.storage (Some "1699999999999x") None))))
    = "tar.gz.sha256" :: rest.
Proof.
  apply (updateDb_unreadable_checkpoint_asks Scenario.digest Scenario.with_mmdb
           Scenario.strict
           (Scenario.answers (Fetcher.Response true 200 EmptyString) Fetcher.Rejected)
           (Scenario.storage (Some "1699999999999x") None) eq_refl eq_refl).
  right. exists "1699999999999x". split; [reflexivity|]. right. reflexivity.
Defined.

(** Two loads while a lookup holds the first instance, then the lookup
    ends: the first instance was put aside and is freed, the second was
    freed when the third replaced it, the third is [#db]. *)
Lemma replaced_instance_freed_once_unused_witness :
  match Live.run Live.init
          [Live.LoadDb [x01]; Live.Call; Live.Resume 0; Live.LoadDb [x02];
           Live.LoadDb [x03]; Live.Finish 0] with
  | Some s => Live.db s = Some 2 /\ 0 ∈ Live.freed s /\ 1 ∈ Live.freed s
  | None => False
  end.
Proof.
  destruct (Live.run _ _) as [s|] eqn:Hrun; [|by vm_compute in Hrun].
  pose proof (replaced_instance_freed_once_unused _ s Hrun) as (_ & _ & Hfreed).
  split; [|split].
  - vm_compute in Hrun. injection Hrun as <-. reflexivity.
  - apply Hfreed; vm_compute in Hrun; injection Hrun as <-; vm_compute;
      [lia | discriminate | reflexivity].
  - apply Hfreed; vm_compute in Hrun; injection Hrun as <-; vm_compute;
      [lia | discriminate | reflexivity].
Defined.

(** Two lookups on the first instance, one of them through. *)
Lemma pending_counts_the_holders_witness :
  match Live.run Live.init
          [Live.LoadDb [x01]; Live.Call; Live.Call; Live.Resume 0; Live.Resume 1;
           Live.Finish 0] with
  | Some s => Live.pending s 0 = Z.of_nat (Live.running s 0) /\ Live.running s 0 = 1
  | None => False
  end.
Proof.
  destruct (Live.run _ _) as [s|] eqn:Hrun; [|by vm_compute in Hrun].
  split; [exact (proj1 (pending_counts_the_holders _ s 0 Hrun))|].
  vm_compute in Hrun. injection Hrun as <-. reflexivity.
Defined.

(** A lookup called on the first instance, a load before its await is
    over: the lookup runs on the instance the load freed. *)
Lemma awaiting_call_not_counted_witness :
  match Live.run Live.init [Live.LoadDb [x01]; Live.Call] with
  | Some s =>
      exists s', Live.run s [Live.LoadDb [x02]; Live.Resume 0] = Some s'
                 /\ 0 ∈ Live.freed s'
                 /\ Live.db s' <> Some 0
                 /\ Live.lookups s' !! 0 = Some (Live.Running 0 (Some 0))
  | None => False
  end.
Proof.
  destruct (Live.run _ _) as [s|] eqn:Hrun; [|by vm_compute in Hrun].
  apply (awaiting_call_not_counted _ s 0 Live.Initial (Some 0) 0 [x02] Hrun);
    vm_compute in Hrun; injection Hrun as <-; reflexivity.
Defined.

(** A lookup made before any load, then two loads: the lookup goes on
    with the first instance. *)
Lemma lookups_wait_for_first_load_witness :
  match Live.run Live.init [Live.Call] with
  | Some s => Live.step s (Live.Resume 0) = None
  | None => False
  end
  /\ match Live.run Live.init [Live.Call; Live.LoadDb [x01]; Live.LoadDb [x02]] with
     | Some s =>
         exists s', Live.step s (Live.Resume 0) = Some s'
                    /\ Live.lookups s' !! 0 = Some (Live.Running 0 None)
                    /\ Live.pending s' 0 = (Live.pending s 0 + 1)%Z
     | None => False
     end.
Proof.
  split.
  - destruct (Live.run _ _) as [s|] eqn:Hrun; [|by vm_compute in Hrun].
    apply (proj1 (lookups_wait_for_first_load _ s 0 None Hrun
                    ltac:(vm_compute in Hrun; injection Hrun as <-; reflexivity))).
    vm_compute in Hrun. injection Hrun as <-. reflexivity.
  - destruct (Live.run _ _) as [s|] eqn:Hrun; [|by vm_compute in Hrun].
    apply (proj2 (lookups_wait_for_first_load _ s 0 None Hrun
                    ltac:(vm_compute in Hrun; injection Hrun as <-; reflexivity))).
    vm_compute in Hrun. injection Hrun as <-. discriminate.
Defined.

(** Three loads of the class without the count. *)
Lemma uncounted_loadDb_frees_all_but_last_witness :
  match LiveUncounted.run LiveUncounted.init
          [LiveUncounted.LoadDb [x01]; LiveUncounted.Call; LiveUncounted.LoadDb [x02];
           LiveUncounted.LoadDb [x03]] with
  | Some s => LiveUncounted.freed s = [0; 1] /\ LiveUncounted.db s = Some 2
  | None => False
  end.
Proof.
  exact (uncounted_loadDb_frees_all_but_last
           [LiveUncounted.LoadDb [x01]; LiveUncounted.Call; LiveUncounted.LoadDb [x02];
            LiveUncounted.LoadDb [x03]] _ eq_refl).
Defined.

(** A replacement that goes through, seen after the removal and after
    the rename. *)
Lemma db_missing_only_inside_replacement_witness :
  match Gate.run (Gate.init (Some [x01]))
          [Gate.Trigger; Gate.Stage 0 [x02]; Gate.Open 0; Gate.RemoveDone 0 false] with
  | Some s => Gate.dbFile s = None
              /\ exists c p b, Gate.cycles s !! c = Some (Gate.Renaming p b)
                               /\ Gate.rewritePromise s = Some p
  | None => False
  end
  /\ match Gate.run (Gate.init (Some [x01]))
             [Gate.Trigger; Gate.Stage 0 [x02]; Gate.Open 0; Gate.RemoveDone 0 false;
              Gate.RenameDone 0 false] with
     | Some s => Gate.rewritePromise s = None /\ is_Some (Gate.dbFile s)
     | None => False
     end.
Proof.
  assert (Hno : forall evs : list Gate.event,
            Forall (fun e => match e with Gate.RenameDone _ true => False | _ => True end) evs ->
            forall c, Gate.RenameDone c true ∉ evs).
  { intros evs Hall c Hin. rewrite Forall_forall in Hall. exact (Hall _ Hin). }
  split.
  - destruct (Gate.run _ _) as [s|] eqn:Hrun; [|by vm_compute in Hrun].
    pose proof (db_missing_only_inside_replacement (Some [x01]) _ s Hrun
                  (mk_is_Some _ _ eq_refl)
                  (Hno [Gate.Trigger; Gate.Stage 0 [x02]; Gate.Open 0; Gate.RemoveDone 0 false]
                     ltac:(repeat constructor))) as [Hin _].
    assert (Hdb : Gate.dbFile s = None)
      by (vm_compute in Hrun; injection Hrun as <-; reflexivity).
    split; [exact Hdb | exact (Hin Hdb)].
  - destruct (Gate.run _ _) as [s|] eqn:Hrun; [|by vm_compute in Hrun].
    pose proof (db_missing_only_inside_replacement (Some [x01]) _ s Hrun
                  (mk_is_Some _ _ eq_refl)
                  (Hno [Gate.Trigger; Gate.Stage 0 [x02]; Gate.Open 0; Gate.RemoveDone 0 false;
                        Gate.RenameDone 0 false]
                     ltac:(repeat constructor))) as [_ Hout].
    assert (Hp : Gate.rewritePromise s = None)
      by (vm_compute in Hrun; injection Hrun as <-; reflexivity).
    split; [exact Hp | exact (Hout Hp)].
Defined.

(** The callback 7 registered twice among others is in the set once. *)
Lemma onDbChange_registers_once_witness :
  let fresh := {| Fetcher.lastCheckedFile := None; Fetcher.dbFile := None;
                  Fetcher.dbTempFile := None; Fetcher.rewritePromise := false;
                  Fetcher.onDbChangeCbs := []; Fetcher.trace := [] |} in
  let w := foldl (fun w cb => Api.onDbChange cb w) fresh [7; 3; 7] in
  NoDup (Fetcher.onDbChangeCbs w) /\ Fetcher.onDbChangeCbs w = [7; 3].
Proof.
  intros fresh w. split; [|reflexivity].
  exact (proj1 (onDbChange_registers_once [7; 3; 7] fresh eq_refl)).
Defined.

(** A 503 to the digest request, ignored and not ignored. *)
Lemma updateDb_digest_request_fails_witness :
  let E := Scenario.answers (Fetcher.Response false 503 EmptyString) Fetcher.Rejected in
  let w := Scenario.storage None None in
  Fetcher.updateDb Scenario.digest Scenario.with_mmdb Scenario.ignoring E w
  = (Fetcher.Normal tt, Fetcher.record (Fetcher.Fetch "tar.gz.sha256") w)
  /\ Fetcher.updateDb Scenario.digest Scenario.with_mmdb Scenario.strict E w
     = (Fetcher.Throw (Fetcher.RequestFailed "tar.gz.sha256" 503),
        Fetcher.record (Fetcher.Fetch "tar.gz.sha256") w).
Proof.
  intros E w. split.
  - destruct (updateDb_digest_request_fails Scenario.digest Scenario.with_mmdb
                Scenario.ignoring E w eq_refl
                (or_intror (ex_intro _ 503%Z (ex_intro _ EmptyString eq_refl)))) as [Hw Hout].
    destruct (Fetcher.updateDb _ _ _ E w) as [r w']. cbn [fst snd] in *. by subst.
  - destruct (updateDb_digest_request_fails Scenario.digest Scenario.with_mmdb
                Scenario.strict E w eq_refl
                (or_intror (ex_intro _ 503%Z (ex_intro _ EmptyString eq_refl)))) as [Hw Hout].
    destruct (Fetcher.updateDb _ _ _ E w) as [r w']. cbn [fst snd] in *. by subst.
Defined.

(** A call made during the first replacement, still waiting when the
    second replacement has its promise pending. *)
Lemma getDbBuffer_waits_for_one_window_witness :
  match Gate.run (Gate.init (Some [x01]))
          [Gate.Trigger; Gate.Stage 0 [x02]; Gate.Open 0; Gate.Call;
           Gate.RemoveDone 0 false; Gate.RenameDone 0 false; Gate.End 0;
           Gate.Trigger; Gate.Stage 1 [x03]; Gate.Open 1] with
  | Some s =>
      Gate.rewritePromise s = Some 1
      /\ exists s', Gate.step s (Gate.Resume 0) = Some s'
                    /\ Gate.readers s' !! 0 = Some (Gate.Reading (Some 0))
  | None => False
  end.
Proof.
  destruct (Gate.run _ _) as [s|] eqn:Hrun; [|by vm_compute in Hrun].
  split; [vm_compute in Hrun; injection Hrun as <-; reflexivity|].
  apply (getDbBuffer_waits_for_one_window (Some [x01]) _ s 0 (Some 0) Hrun);
    vm_compute in Hrun; injection Hrun as <-; [reflexivity|].
  right. vm_compute. discriminate.
Defined.

(** A name in upper case and a name that goes on after the suffix are
    not databases; a name that is the suffix alone is. *)
Lemma visit_entry_takes_mmdb_suffix_witness :
  let E := Scenario.answers Fetcher.Rejected Fetcher.Rejected in
  let w := Scenario.storage None None in
  fst (Fetcher.visit_entry E (None, [])
         {| Fetcher.path := ".mmdb"; Fetcher.readable := Some [[x01]; [x02]] |} w)
  = Fetcher.Normal (Some [x01; x02], [".mmdb"])
  /\ fst (Fetcher.visit_entry E (None, [])
            {| Fetcher.path := "GeoLite2-Country.MMDB"; Fetcher.readable := Some [[x01]] |} w)
     = Fetcher.Normal (None, ["GeoLite2-Country.MMDB"]).
Proof.
  intros E w. split.
  - exact (f_equal fst
             (proj1 (visit_entry_takes_mmdb_suffix E None []
                       {| Fetcher.path := ".mmdb"; Fetcher.readable := Some [[x01]; [x02]] |}
                       [[x01]; [x02]] w eq_refl eq_refl)
                (ex_intro _ EmptyString eq_refl))).
  - refine (f_equal fst
              (proj2 (visit_entry_takes_mmdb_suffix E None []
                        {| Fetcher.path := "GeoLite2-Country.MMDB";
                           Fetcher.readable := Some [[x01]] |}
                        [[x01]] w eq_refl eq_refl) _)).
    intros Hp%endsWith_iff. discriminate.
Defined.
